(** * The batch analysis page of the CV Analyzer dashboard (src/app.py)

    A shallow embedding of the "Batch Analyse" page (app.py, lines 351-515):
    the uploads are saved to temporary files, analysed one by one, summarised
    in an overview table, optionally ranked against a job description and
    exported as JSON text and as a multi-sheet workbook.

    The page is Python code with side effects (files, widgets, the error
    log) and exceptions, so it is embedded in a small state-and-exception
    monad over an explicit [World].  The external collaborators (the
    [CVAnalyzer], [tempfile], pandas' [sort_values]) are interfaces. *)

From Stdlib Require Import QArith Ascii String DecimalString DecimalZ DecimalN DecimalPos DecimalFacts.
From stdpp Require Import gmap strings list pretty sorting.

Set Warnings "-register-all".

Open Scope string_scope.
Open Scope list_scope.

(** ** Python numbers *)

(** The scores and durations the Analyzer delivers are Python numbers.  The
    page only adds them (the built-in [sum], which starts from the int 0) and
    lets pandas compare them. *)
Class PyNumber (num : Type) := {
  num_zero : num;
  num_add : num → num → num;
  num_leb : num → num → bool;
  num_add_zero_l : ∀ x, num_add num_zero x = x;
  num_leb_total : ∀ x y, num_leb x y = true ∨ num_leb y x = true;
  num_leb_trans : ∀ x y z, num_leb x y = true → num_leb y z = true → num_leb x z = true
}.

#[export, refine] Instance Z_PyNumber : PyNumber Z := {
  num_zero := 0%Z;
  num_add := Z.add;
  num_leb := Z.leb
}.
Proof.
  - intros x. reflexivity.
  - intros x y. rewrite !Z.leb_le. lia.
  - intros x y z. rewrite !Z.leb_le. lia.
Defined.

#[export, refine] Instance Q_PyNumber : PyNumber Q := {
  num_zero := 0%Q;
  num_add := Qplus;
  num_leb := Qle_bool
}.
Proof.
  - intros [n d]. unfold Qplus. simpl. rewrite Z.mul_1_r. reflexivity.
  - intros x y. rewrite !Qle_bool_iff.
    destruct (Qlt_le_dec x y) as [Hlt|Hle]; [left; apply Qlt_le_weak, Hlt | right; exact Hle].
  - intros x y z. rewrite !Qle_bool_iff. apply Qle_trans.
Defined.

(** Python's [sum(xs)]: a left fold of [+] that starts from the int 0. *)
Definition py_sum {num} {PN : PyNumber num} (xs : list num) : num :=
  fold_left num_add xs num_zero.

(** Numeric equality of two scores, as [==] on numbers. *)
Definition num_eqb {num} {PN : PyNumber num} (x y : num) : bool :=
  num_leb x y && num_leb y x.

(** ** Data model *)

(** Modelled from the spec: the type of the Analyzer's output is declared in
    the external [cv_analyzer] package.  The fields and their types are those
    of the spec's data model; every field is optional because the page reads
    them with [dict.get(key, default)] or guards them with [key in result].
    The [duration] key of an experience entry is the one [app.py] line 423
    reads. *)
Record ExperienceEntry (num : Type) := mkExperience {
  title : option string;
  company : option string;
  start_date : option string;
  end_date : option string;
  duration : option num
}.
Arguments mkExperience {num}.
Arguments title {num}.
Arguments company {num}.
Arguments start_date {num}.
Arguments end_date {num}.
Arguments duration {num}.

Record AnalysisResult (num : Type) := mkResult {
  filename : option string;
  profession : option string;
  experience_level : option string;
  relevance_score : option num;
  skills : option (list (string * num));
  experience : option (list (ExperienceEntry num));
  missing_skills : option (list (string * num));
  recommendations : option (list string)
}.
Arguments mkResult {num}.
Arguments filename {num}.
Arguments profession {num}.
Arguments experience_level {num}.
Arguments relevance_score {num}.
Arguments skills {num}.
Arguments experience {num}.
Arguments missing_skills {num}.
Arguments recommendations {num}.

(** [result["filename"] = original_name] (line 400). *)
Definition set_filename {num} (original_name : string) (result : AnalysisResult num)
  : AnalysisResult num :=
  {| filename := Some original_name;
     profession := profession result;
     experience_level := experience_level result;
     relevance_score := relevance_score result;
     skills := skills result;
     experience := experience result;
     missing_skills := missing_skills result;
     recommendations := recommendations result |}.

(** An uploaded document: its original file name and its bytes. *)
Record Upload := mkUpload {
  upload_name : string;
  upload_data : string
}.

(** The letter U with diaeresis (code point 220) of the German labels. *)
Definition Uuml : ascii := "220"%char.
(** The letter a with diaeresis (code point 228). *)
Definition auml : ascii := "228"%char.

(** ** Overview table (lines 415-427) *)

(** One row of [overview_data]; the columns carry the labels of the page
    ("Dateiname", "Beruf", "Erfahrungslevel", "Relevanz-Score",
    "Anzahl Faehigkeiten", "Berufserfahrung (Jahre)"). *)
Record OverviewRow (num : Type) := mkRow {
  Dateiname : string;
  Beruf : string;
  Erfahrungslevel : string;
  Relevanz_Score : num;
  Anzahl_Faehigkeiten : nat;
  Berufserfahrung_Jahre : num
}.
Arguments mkRow {num}.
Arguments Dateiname {num}.
Arguments Beruf {num}.
Arguments Erfahrungslevel {num}.
Arguments Relevanz_Score {num}.
Arguments Anzahl_Faehigkeiten {num}.
Arguments Berufserfahrung_Jahre {num}.

(** A pandas DataFrame of overview rows: every row carries its index label. *)
Definition DataFrame (num : Type) : Type := list (nat * OverviewRow num).

Section Aggregation.
Context {num : Type} {PN : PyNumber num}.

(** [sum(exp.get("duration", 0) for exp in result.get("experience", []))]. *)
Definition experience_years (result : AnalysisResult num) : num :=
  py_sum (map (λ exp, default num_zero (duration exp)) (default [] (experience result))).

(** The dictionary appended to [overview_data] for one result. *)
Definition overview_row (result : AnalysisResult num) : OverviewRow num :=
  {| Dateiname := default "Unbekannt" (filename result);
     Beruf := default "Nicht erkannt" (profession result);
     Erfahrungslevel := default "Nicht erkannt" (experience_level result);
     Relevanz_Score := default num_zero (relevance_score result);
     Anzahl_Faehigkeiten := length (default [] (skills result));
     Berufserfahrung_Jahre := experience_years result |}.

Definition overview_data (all_results : list (AnalysisResult num)) : list (OverviewRow num) :=
  map overview_row all_results.

(** [pd.DataFrame(overview_data)]: a default index 0, 1, 2, ... *)
Definition mk_dataframe (rows : list (OverviewRow num)) : DataFrame num :=
  zip (seq 0 (length rows)) rows.

Definition overview_df (all_results : list (AnalysisResult num)) : DataFrame num :=
  mk_dataframe (overview_data all_results).
End Aggregation.

(** ** Ranking (lines 432-445) *)

(** pandas' [DataFrame.sort_values(by, ascending=False)] with its default
    [kind="quicksort"]: the rows come back rearranged in non-increasing
    order of the key.  The page does not ask for [kind="stable"], so the
    interface promises nothing about rows with equal keys. *)
Class SortValues (num : Type) {PN : PyNumber num} := {
  sort_values_desc : ∀ {A : Type}, (A → num) → list A → list A;
  sort_values_perm : ∀ (A : Type) (key : A → num) (l : list A),
    sort_values_desc key l ≡ₚ l;
  sort_values_sorted : ∀ (A : Type) (key : A → num) (l : list A),
    StronglySorted (λ a b, num_leb (key b) (key a) = true) (sort_values_desc key l)
}.

Section Ranking.
Context {num : Type} {PN : PyNumber num} {SV : SortValues num}.

(** [df.reset_index(drop=True)]: the old labels are dropped, the new ones
    are 0, 1, 2, ... *)
Definition reset_index (df : DataFrame num) : DataFrame num :=
  zip (seq 0 (length df)) (map snd df).

(** [df.index = df.index + 1]. *)
Definition index_plus_one (df : DataFrame num) : DataFrame num :=
  map (λ '(i, row), (i + 1, row)) df.

(** [ranking_df] of lines 436-438. *)
Definition ranking_df (overview : DataFrame num) : DataFrame num :=
  index_plus_one (reset_index (sort_values_desc (λ r, Relevanz_Score (snd r)) overview)).

(** [df.head(n)]: the first [n] rows. *)
Definition head (n : nat) (df : DataFrame num) : DataFrame num := take n df.

(** [top_candidates] of line 445. *)
Definition top_candidates (ranking : DataFrame num) : DataFrame num :=
  head (min 3 (length ranking)) ranking.
End Ranking.

(** An insertion sort that honours the [sort_values] contract: insertion
    from the right, each element going after its equals.  It is no part of
    pandas; the model of pandas' sort below falls back on it where it has
    no result of its own. *)
Section TieReversingSort.
Context {num : Type} {PN : PyNumber num} {A : Type} (key : A → num).

Fixpoint insert_behind (x : A) (l : list A) : list A :=
  match l with
  | [] => [x]
  | y :: l' =>
      if num_leb (key x) (key y) then y :: insert_behind x l' else x :: y :: l'
  end.

Definition tie_reversing_sort (l : list A) : list A := foldr insert_behind [] l.
End TieReversingSort.

(** ** pandas' default sort (line 436) *)

(** [sort_values] with one column sorts through [nargsort], which hands the
    keys to numpy's [argsort] with [kind="quicksort"]: an introsort on an
    array of indices ([aquicksort] of numpy's [npysort/quicksort]), a
    quicksort that sorts pieces of at most 17 elements by insertion.  This
    is numpy's generic path; a build that sorts with vector instructions
    may leave equal keys in another order, and pandas promises none for
    this [kind].  The heapsort the introsort falls back on when the
    recursion gets too deep is not part of the model, which gives no result
    there. *)
Section NumpyQuicksort.
Context {num : Type} {PN : PyNumber num}.

(** numpy's [LT] on the keys. *)
Definition num_lt (a b : num) : bool := negb (num_leb b a).

Definition SMALL_QUICKSORT : Z := 16.

(** Reading the index a pointer [p] into [tosort] points to, the key of
    that index, and writing an index there; [p] counts from the start of
    [tosort]. *)
Definition deref (tosort : list nat) (p : Z) : nat := default 0%nat (tosort !! Z.to_nat p).
Definition key_at (v : list num) (tosort : list nat) (p : Z) : num :=
  default num_zero (v !! deref tosort p).
Definition store (tosort : list nat) (p : Z) (i : nat) : list nat :=
  <[Z.to_nat p := i]> tosort.

(** [INTP_SWAP] on the entries at [p] and [q]. *)
Definition INTP_SWAP (tosort : list nat) (p q : Z) : list nat :=
  let tmp := deref tosort q in
  store (store tosort q (deref tosort p)) p tmp.

(** [do ++pi; while (...)]: up to the next key that is not below [vp]. *)
Fixpoint scan_up (fuel : nat) (v : list num) (tosort : list nat) (vp : num) (pi : Z) : Z :=
  match fuel with
  | O => pi + 1
  | S fuel' =>
      if num_lt (key_at v tosort (pi + 1)) vp then scan_up fuel' v tosort vp (pi + 1)
      else pi + 1
  end.

(** [do --pj; while (...)]: down to the next key that is not above [vp]. *)
Fixpoint scan_down (fuel : nat) (v : list num) (tosort : list nat) (vp : num) (pj : Z) : Z :=
  match fuel with
  | O => pj - 1
  | S fuel' =>
      if num_lt vp (key_at v tosort (pj - 1)) then scan_down fuel' v tosort vp (pj - 1)
      else pj - 1
  end.

(** The [for (;;)] loop of the partition: both scans, then the swap unless
    the pointers have met; it ends with [pi]. *)
Fixpoint partition_loop (fuel : nat) (v : list num) (tosort : list nat) (vp : num)
    (pi pj : Z) : list nat * Z :=
  match fuel with
  | O => (tosort, pi)
  | S fuel' =>
      let pi' := scan_up (length tosort) v tosort vp pi in
      let pj' := scan_down (length tosort) v tosort vp pj in
      if (pj' <=? pi')%Z then (tosort, pi')
      else partition_loop fuel' v (INTP_SWAP tosort pi' pj') vp pi' pj'
  end.

(** The [while] loop of the insertion sort: the entries whose key is above
    [vp] move up by one, from [pk] to [pj]. *)
Fixpoint shift_up (fuel : nat) (v : list num) (tosort : list nat) (pl : Z) (vp : num)
    (pj pk : Z) : list nat * Z :=
  match fuel with
  | O => (tosort, pj)
  | S fuel' =>
      if (pl <? pj)%Z && num_lt vp (key_at v tosort pk)
      then shift_up fuel' v (store tosort pj (deref tosort pk)) pl vp (pj - 1) (pk - 1)
      else (tosort, pj)
  end.

(** The body of the insertion sort for one [pi]. *)
Definition insert_step (v : list num) (pl : Z) (tosort : list nat) (pi : Z) : list nat :=
  let vi := deref tosort pi in
  let vp := default num_zero (v !! vi) in
  let '(tosort', pj) := shift_up (length tosort) v tosort pl vp pi (pi - 1) in
  store tosort' pj vi.

(** [for (pi = pl + 1; pi <= pr; ++pi)]. *)
Definition insertion_sort (v : list num) (tosort : list nat) (pl pr : Z) : list nat :=
  foldl (insert_step v pl) tosort
        (map (λ k, pl + 1 + Z.of_nat k)%Z (seq 0 (Z.to_nat (pr - pl)))).

(** The loop of [aquicksort] from the test of its inner [while] on: a
    piece of more than 17 elements is partitioned around the median of its
    first, middle and last element, the larger part is pushed on the stack
    and the smaller one is gone on with; a smaller piece is sorted by
    insertion and the next piece is popped.  [stack] holds the pieces with
    their depths, [sptr] and [psdepth] of the source. *)
Fixpoint aquicksort_loop (fuel : nat) (v : list num) (tosort : list nat) (pl pr : Z)
    (stack : list (Z * Z * Z)) (cdepth : Z) : option (list nat) :=
  match fuel with
  | O => None
  | S fuel' =>
      if (SMALL_QUICKSORT <? pr - pl)%Z then
        let pm := (pl + Z.shiftr (pr - pl) 1)%Z in
        let tosort1 :=
          if num_lt (key_at v tosort pm) (key_at v tosort pl)
          then INTP_SWAP tosort pm pl else tosort in
        let tosort2 :=
          if num_lt (key_at v tosort1 pr) (key_at v tosort1 pm)
          then INTP_SWAP tosort1 pr pm else tosort1 in
        let tosort3 :=
          if num_lt (key_at v tosort2 pm) (key_at v tosort2 pl)
          then INTP_SWAP tosort2 pm pl else tosort2 in
        let vp := key_at v tosort3 pm in
        let tosort4 := INTP_SWAP tosort3 pm (pr - 1) in
        let '(tosort5, pi) := partition_loop (length tosort) v tosort4 vp pl (pr - 1) in
        let tosort6 := INTP_SWAP tosort5 pi (pr - 1) in
        if (pi - pl <? pr - pi)%Z
        then aquicksort_loop fuel' v tosort6 pl (pi - 1)
                             ((pi + 1, pr, cdepth - 1) :: stack)%Z (cdepth - 1)%Z
        else aquicksort_loop fuel' v tosort6 (pi + 1)%Z pr
                             ((pl, pi - 1, cdepth - 1) :: stack)%Z (cdepth - 1)%Z
      else
        let tosort' := insertion_sort v tosort pl pr in
        match stack with
        | [] => Some tosort'
        | (pl', pr', cdepth') :: stack' =>
            if (cdepth' <? 0)%Z then None
            else aquicksort_loop fuel' v tosort' pl' pr' stack' cdepth'
        end
  end.

(** [v.argsort(kind="quicksort")]: the indices start as 0, 1, ..., n-1 and
    the depth limit is twice the position of the highest bit of [n]. *)
Definition argsort_quicksort (v : list num) : option (list nat) :=
  aquicksort_loop (2 * length v + 2) v (seq 0 (length v)) 0 (Z.of_nat (length v) - 1) []
                  (2 * Z.log2 (Z.of_nat (length v))).

(** pandas' [nargsort(items, kind="quicksort", ascending=False)] for keys
    none of which is missing: the keys and their positions are reversed,
    sorted in ascending order, and the result is reversed. *)
Definition nargsort_desc (items : list num) : option (list nat) :=
  let idx := seq 0 (length items) in
  let non_nans := rev items in
  let non_nan_idx := rev idx in
  order ← argsort_quicksort non_nans;
  indexer ← mapM (λ i, non_nan_idx !! i) order;
  Some (rev indexer).

(** [df.sort_values(by, ascending=False)]: the rows taken in the order of
    the indexer. *)
Definition pandas_sort_values_desc {A : Type} (key : A → num) (l : list A) : option (list A) :=
  indexer ← nargsort_desc (map key l);
  mapM (λ i, l !! i) indexer.

(** pandas' result where it is a rearrangement in non-increasing order of
    the key, as it is wherever the model has a result; the insertion sort
    above elsewhere. *)
Definition numpy_sort_values_desc {A : Type} (key : A → num) (l : list A) : list A :=
  match nargsort_desc (map key l) with
  | Some indexer =>
      match mapM (λ i, l !! i) indexer with
      | Some rows =>
          if bool_decide (indexer ≡ₚ seq 0 (length l)
                          ∧ StronglySorted (λ a b, num_leb (key b) (key a) = true) rows)
          then rows else tie_reversing_sort key l
      | None => tie_reversing_sort key l
      end
  | None => tie_reversing_sort key l
  end.
End NumpyQuicksort.

(** ** Workbook export (lines 474-490) *)

(** What one [to_excel] call writes into a sheet. *)
Inductive Sheet (num : Type) :=
| OverviewSheet (df : DataFrame num)
| SkillsSheet (names : list string) (scores : list num)
| ExperienceSheet (entries : list (ExperienceEntry num)).
Arguments OverviewSheet {num}.
Arguments SkillsSheet {num}.
Arguments ExperienceSheet {num}.

(** Python truthiness of a list or a dict: it is not empty. *)
Definition truthy {A} (l : list A) : bool :=
  match l with [] => false | _ :: _ => true end.

(** ["skills" in result and result["skills"]]. *)
Definition has_skills {num} (result : AnalysisResult num) : bool :=
  match skills result with Some d => truthy d | None => false end.

(** ["experience" in result and result["experience"]]. *)
Definition has_experience {num} (result : AnalysisResult num) : bool :=
  match experience result with Some l => truthy l | None => false end.

(** The sheet names the page passes as [sheet_name]. *)
Definition overview_sheet_name : string := String Uuml "bersicht".
Definition skills_sheet_name (i : nat) : string := "Kandidat_" +:+ pretty (i + 1) +:+ "_Skills".
Definition experience_sheet_name (i : nat) : string := "Kandidat_" +:+ pretty (i + 1) +:+ "_Erfahrung".

Section Workbook.
Context {num : Type}.

(** The body of [for i, result in enumerate(all_results)] for one result. *)
Definition candidate_sheets (i : nat) (result : AnalysisResult num)
  : list (string * Sheet num) :=
  (if has_skills result
   then [(skills_sheet_name i,
          SkillsSheet (map fst (default [] (skills result)))
                      (map snd (default [] (skills result))))]
   else [])
  ++
  (if has_experience result
   then [(experience_sheet_name i, ExperienceSheet (default [] (experience result)))]
   else []).

(** The names of the sheets of one candidate. *)
Definition candidate_sheet_names (i : nat) (result : AnalysisResult num) : list string :=
  (if has_skills result then [skills_sheet_name i] else [])
  ++ (if has_experience result then [experience_sheet_name i] else []).

(** The loop over [enumerate(all_results)], [i] being the running index. *)
Fixpoint candidates_loop (i : nat) (all_results : list (AnalysisResult num))
  : list (string * Sheet num) :=
  match all_results with
  | [] => []
  | result :: rest => candidate_sheets i result ++ candidates_loop (S i) rest
  end.

(** The sheets handed to the writer, in the order of the [to_excel] calls. *)
Definition excel_sheets (overview : DataFrame num) (all_results : list (AnalysisResult num))
  : list (string * Sheet num) :=
  (overview_sheet_name, OverviewSheet overview) :: candidates_loop 0 all_results.
End Workbook.

(** The sheet names as the specification words them. *)
Definition spec_skills_sheet_name (i : nat) : string :=
  "Candidate_" +:+ pretty (i + 1) +:+ "_Skills".
Definition spec_experience_sheet_name (i : nat) : string :=
  "Candidate_" +:+ pretty (i + 1) +:+ "_Experience".
Definition spec_sheet_names {num} (all_results : list (AnalysisResult num)) : list string :=
  "Overview" ::
  concat (imap (λ i result,
                  (if has_skills result then [spec_skills_sheet_name i] else []) ++
                  (if has_experience result then [spec_experience_sheet_name i] else []))
               all_results).

(** ** JSON text (line 465) *)

(** The values [json.dumps] writes and [json.loads] builds: [None], booleans,
    numbers, strings, lists and dictionaries with string keys.  A string is a
    sequence of code points below 256. *)
Inductive json (num : Type) :=
| JNull
| JBool (b : bool)
| JNum (n : num)
| JStr (s : string)
| JList (l : list (json num))
| JDict (d : list (string * json num)).
Arguments JNull {num}.
Arguments JBool {num}.
Arguments JNum {num}.
Arguments JStr {num}.
Arguments JList {num}.
Arguments JDict {num}.

(** How Python writes a number into JSON text and reads it back:
    [int.__repr__] / [float.__repr__] and the decoder's number token.  The
    text of a number is made of the characters of a JSON number and it
    starts with a digit or a minus sign. *)
Definition is_digit (c : ascii) : bool :=
  (48 <=? nat_of_ascii c)%nat && (nat_of_ascii c <=? 57)%nat.

Definition is_number_start (c : ascii) : bool :=
  is_digit c || Ascii.eqb c "-".

Definition is_number_char (c : ascii) : bool :=
  is_digit c || Ascii.eqb c "-" || Ascii.eqb c "+" || Ascii.eqb c "."
  || Ascii.eqb c "e" || Ascii.eqb c "E".

Fixpoint string_forallb (p : ascii → bool) (s : string) : bool :=
  match s with
  | EmptyString => true
  | String c s' => p c && string_forallb p s'
  end.

Class JsonNumber (num : Type) := {
  num_repr : num → string;
  num_parse : string → option num;
  num_parse_repr : ∀ n, num_parse (num_repr n) = Some n;
  num_repr_start : ∀ n, ∃ c s, num_repr n = String c s ∧ is_number_start c = true;
  num_repr_chars : ∀ n, string_forallb is_number_char (num_repr n) = true
}.

Section JsonEncoder.
Context {num : Type} {JN : JsonNumber num}.

(** The double quote (code point 34). *)
Definition dquote : ascii := "034"%char.

(** A lower-case hexadecimal digit, as ['{0:04x}'.format] prints it. *)
Definition hex_digit (n : nat) : ascii :=
  if (n <? 10)%nat then ascii_of_nat (48 + n) else ascii_of_nat (87 + n).

(** [ESCAPE_DCT] and the [\uXXXX] fallback of [py_encode_basestring_ascii]:
    the encoder runs with [ensure_ascii=True]. *)
Definition escape_char (c : ascii) : string :=
  let n := nat_of_ascii c in
  if Ascii.eqb c dquote then String "\" (String dquote "")
  else if Ascii.eqb c "\" then "\\"
  else if (n =? 10)%nat then "\n"
  else if (n =? 13)%nat then "\r"
  else if (n =? 9)%nat then "\t"
  else if (n =? 8)%nat then "\b"
  else if (n =? 12)%nat then "\f"
  else if (32 <=? n)%nat && (n <=? 126)%nat then String c ""
  else "\u00" +:+ String (hex_digit (n / 16)) (String (hex_digit (n mod 16)) "").

Fixpoint escape_string (s : string) : string :=
  match s with
  | EmptyString => ""
  | String c s' => escape_char c +:+ escape_string s'
  end.

(** [encode_basestring_ascii(s)]. *)
Definition encode_string (s : string) : string :=
  String dquote (escape_string s +:+ String dquote "").

(** ['\n' + indent * level] with [indent = 2] spaces. *)
Fixpoint spaces (n : nat) : string :=
  match n with
  | O => ""
  | S n' => String " " (spaces n')
  end.

Definition newline_indent (level : nat) : string :=
  String "010"%char (spaces (2 * level)).

(** The chunks of a container joined by [item_separator + newline_indent]. *)
Fixpoint join_items (level : nat) (chunks : list string) : string :=
  match chunks with
  | [] => ""
  | [c] => c
  | c :: rest => c +:+ "," +:+ newline_indent level +:+ join_items level rest
  end.

(** [_iterencode] of [json.encoder] with [indent=2]: [level] is
    [_current_indent_level]. *)
Fixpoint iterencode (level : nat) (v : json num) : string :=
  match v with
  | JNull => "null"
  | JBool true => "true"
  | JBool false => "false"
  | JNum n => num_repr n
  | JStr s => encode_string s
  | JList [] => "[]"
  | JList l =>
      "[" +:+ newline_indent (S level)
      +:+ join_items (S level) (map (iterencode (S level)) l)
      +:+ newline_indent level +:+ "]"
  | JDict [] => "{}"
  | JDict d =>
      "{" +:+ newline_indent (S level)
      +:+ join_items (S level)
            (map (λ kv, encode_string (fst kv) +:+ ": " +:+ iterencode (S level) (snd kv)) d)
      +:+ newline_indent level +:+ "}"
  end.

(** [json.dumps(obj, indent=2)]. *)
Definition json_dumps (v : json num) : string := iterencode 0 v.

(** The dictionary an experience entry is: the keys that are present. *)
Definition opt_field {A} (key : string) (f : A → json num) (o : option A)
  : list (string * json num) :=
  match o with Some v => [(key, f v)] | None => [] end.

Definition experience_to_json (e : ExperienceEntry num) : json num :=
  JDict (opt_field "title" JStr (title e) ++ opt_field "company" JStr (company e)
         ++ opt_field "start_date" JStr (start_date e)
         ++ opt_field "end_date" JStr (end_date e)
         ++ opt_field "duration" JNum (duration e)).

Definition scores_to_json (d : list (string * num)) : json num :=
  JDict (map (λ kv, (fst kv, JNum (snd kv))) d).

(** The dictionary an [AnalysisResult] is; the "filename" key the page adds
    comes last. *)
Definition result_to_json (r : AnalysisResult num) : json num :=
  JDict (opt_field "profession" JStr (profession r)
         ++ opt_field "experience_level" JStr (experience_level r)
         ++ opt_field "relevance_score" JNum (relevance_score r)
         ++ opt_field "skills" scores_to_json (skills r)
         ++ opt_field "experience" (λ l, JList (map experience_to_json l)) (experience r)
         ++ opt_field "missing_skills" scores_to_json (missing_skills r)
         ++ opt_field "recommendations" (λ l, JList (map JStr l)) (recommendations r)
         ++ opt_field "filename" JStr (filename r)).

(** [json_batch_data = json.dumps(all_results, indent=2)]. *)
Definition json_batch_data (all_results : list (AnalysisResult num)) : string :=
  json_dumps (JList (map result_to_json all_results)).
End JsonEncoder.

(** ** The page as a program with effects *)

(** A Python exception, with the message [str(e)] gives. *)
Inductive exn := Exception (msg : string).

Definition str (e : exn) : string :=
  match e with Exception msg => msg end.

(** How a statement ends: normally with a value, or by raising. *)
Inductive outcome (A : Type) :=
| Ok (a : A)
| Raise (e : exn).
Arguments Ok {A}.
Arguments Raise {A}.

(** What a path of the file system holds: the bytes of an upload, or the
    workbook xlsxwriter saved. *)
Inductive File (num : Type) :=
| Bytes (data : string)
| Workbook (sheets : list (string * Sheet num)).
Arguments Bytes {num}.
Arguments Workbook {num}.

(** What the page puts on the screen. *)
Inductive Widget (num : Type) :=
| StProgress (original_name : string) (step total : nat)
| StError (msg : string)
| StSuccess (msg : string)
| StSubheader (text : string)
| StDataframe (df : DataFrame num)
| StBarChart (df : DataFrame num)
| StDownloadLink (data : File num) (file_name text : string).
Arguments StProgress {num}.
Arguments StError {num}.
Arguments StSuccess {num}.
Arguments StSubheader {num}.
Arguments StDataframe {num}.
Arguments StBarChart {num}.
Arguments StDownloadLink {num}.

(** Everything the page reads and writes: the file system, the screen, the
    Debugger's error log and metrics, the calls of [os.unlink] and of the
    Analyzer, and the page's variable [temp_files], which the [finally]
    block reads whatever happened before. *)
Record World (num : Type) := mkWorld {
  fs : gmap string (File num);
  screen : list (Widget num);
  error_log : list (string * string);
  metrics : list string;
  unlink_log : list string;
  analyzer_calls : list (string * option string);
  temp_files : list (string * string)
}.
Arguments mkWorld {num}.
Arguments fs {num}.
Arguments screen {num}.
Arguments error_log {num}.
Arguments metrics {num}.
Arguments unlink_log {num}.
Arguments analyzer_calls {num}.
Arguments temp_files {num}.

Definition M (num : Type) (A : Type) : Type := World num → outcome A * World num.

#[export] Instance M_ret {num} : MRet (M num) := λ A a w, (Ok a, w).

#[export] Instance M_bind {num} : MBind (M num) := λ A B f m w,
  match m w with
  | (Ok a, w') => f a w'
  | (Raise e, w') => (Raise e, w')
  end.

Definition raise {num A} (e : exn) : M num A := λ w, (Raise e, w).

(** [try: body / except Exception as e: handler]. *)
Definition try_except {num A} (body : M num A) (handler : exn → M num A) : M num A :=
  λ w, match body w with
       | (Ok a, w') => (Ok a, w')
       | (Raise e, w') => handler e w'
       end.

(** [try: body / finally: final]: [final] runs on both ways out of [body];
    an exception of [final] replaces the outcome of [body]. *)
Definition try_finally {num A} (body : M num A) (final : M num unit) : M num A :=
  λ w, match body w with
       | (r, w') =>
           match final w' with
           | (Ok _, w'') => (r, w'')
           | (Raise e, w'') => (Raise e, w'')
           end
       end.

(** The operating system and library calls that may fail with an [OSError]
    while the page runs: writing the bytes of the [k]-th upload, saving the
    workbook, reading it back. *)
Inductive io_op :=
| TmpWrite (k : nat)
| ExcelClose
| ExcelRead.

Class IOFaults := io_fails : io_op → bool.

(** [tempfile.NamedTemporaryFile]: a name that no existing file has. *)
Class TempNamer := {
  mktemp : gset string → string → string;
  mktemp_fresh : ∀ (existing : gset string) (suffix : string), mktemp existing suffix ∉ existing
}.

(** [analyzer.analyze_cv_file(path)] and [analyzer.analyze_cv_file(path,
    job_description)]: the Analyzer reads the file system and returns a
    result or raises. *)
Class CVAnalyzer (num : Type) :=
  analyze_cv_file : gmap string (File num) → string → option string → outcome (AnalysisResult num).

Section Primitives.
Context {num : Type}.

Definition with_fs (f : gmap string (File num) → gmap string (File num)) (w : World num) : World num :=
  mkWorld (f (fs w)) (screen w) (error_log w) (metrics w) (unlink_log w)
          (analyzer_calls w) (temp_files w).

Definition with_temp_files (f : list (string * string) → list (string * string))
    (w : World num) : World num :=
  mkWorld (fs w) (screen w) (error_log w) (metrics w) (unlink_log w)
          (analyzer_calls w) (f (temp_files w)).

(** A Streamlit call that renders a widget. *)
Definition st (widget : Widget num) : M num unit := λ w,
  (Ok tt, mkWorld (fs w) (screen w ++ [widget]) (error_log w) (metrics w) (unlink_log w)
                  (analyzer_calls w) (temp_files w)).

(** [debugger.log_error(e, context)]. *)
Definition log_error (e : exn) (context : string) : M num unit := λ w,
  (Ok tt, mkWorld (fs w) (screen w) (error_log w ++ [(str e, context)]) (metrics w)
                  (unlink_log w) (analyzer_calls w) (temp_files w)).

(** [debugger.log_performance_metric(name, duration)]. *)
Definition log_performance_metric (name : string) : M num unit := λ w,
  (Ok tt, mkWorld (fs w) (screen w) (error_log w) (metrics w ++ [name]) (unlink_log w)
                  (analyzer_calls w) (temp_files w)).

(** [os.path.exists(path)]. *)
Definition path_exists (path : string) : M num bool := λ w,
  (Ok (bool_decide (is_Some (fs w !! path))), w).

(** [os.unlink(path)]. *)
Definition os_unlink (path : string) : M num unit := λ w,
  match fs w !! path with
  | Some _ =>
      (Ok tt, mkWorld (delete path (fs w)) (screen w) (error_log w) (metrics w)
                      (unlink_log w ++ [path]) (analyzer_calls w) (temp_files w))
  | None => (Raise (Exception "No such file or directory"), w)
  end.

(** [temp_files = []] and [temp_files.append(entry)]. *)
Definition clear_temp_files : M num unit := λ w, (Ok tt, with_temp_files (λ _, []) w).
Definition append_temp_file (entry : string * string) : M num unit := λ w,
  (Ok tt, with_temp_files (λ l, l ++ [entry]) w).
Definition get_temp_files : M num (list (string * string)) := λ w, (Ok (temp_files w), w).

(** [name.split('.')[-1]]: the text after the last dot, the whole name when
    it has none. *)
Fixpoint last_segment_from (acc : string) (s : string) : string :=
  match s with
  | EmptyString => acc
  | String c s' =>
      if Ascii.eqb c "." then last_segment_from "" s'
      else last_segment_from (acc +:+ String c "") s'
  end.
Definition last_segment (name : string) : string := last_segment_from "" name.

(** Python truthiness of [job_description], [None] or the text of the area. *)
Definition job_given (job_description : option string) : bool :=
  match job_description with
  | None => false
  | Some text => negb (String.eqb text "")
  end.
End Primitives.

(** ** The batch page (lines 367-515) *)

Definition excel_path : string := "batch_analysis.xlsx".

Section BatchPage.
Context {num : Type} {PN : PyNumber num} {SV : SortValues num} {JN : JsonNumber num}.
Context {AN : CVAnalyzer num} {TN : TempNamer} {IO : IOFaults}.

(** [tempfile.NamedTemporaryFile(delete=False, suffix=...)]: the file is on
    disk, empty, as soon as the call returns. *)
Definition named_temporary_file (suffix : string) : M num string := λ w,
  let name := mktemp (dom (fs w)) suffix in
  (Ok name, with_fs (insert name (Bytes "")) w).

(** [tmp.write(data)] for the [k]-th upload. *)
Definition tmp_write (k : nat) (path data : string) : M num unit := λ w,
  if io_fails (TmpWrite k) then (Raise (Exception "No space left on device"), w)
  else (Ok tt, with_fs (insert path (Bytes data)) w).

(** Lines 372-375: the uploads are saved one after the other; a path is
    appended to [temp_files] after its bytes are written. *)
Fixpoint save_uploads (k : nat) (uploaded_files : list Upload) : M num unit :=
  match uploaded_files with
  | [] => mret tt
  | uploaded_file :: rest =>
      tmp ← named_temporary_file ("." +:+ last_segment (upload_name uploaded_file));
      tmp_write k tmp (upload_data uploaded_file);;
      append_temp_file (tmp, upload_name uploaded_file);;
      save_uploads (S k) rest
  end.

(** One call of the Analyzer; [job] is the second argument, when given. *)
Definition call_analyzer (path : string) (job : option string) : M num (AnalysisResult num) :=
  λ w, (analyze_cv_file (fs w) path job,
        mkWorld (fs w) (screen w) (error_log w) (metrics w) (unlink_log w)
                (analyzer_calls w ++ [(path, job)]) (temp_files w)).

(** Lines 388-405: the loop over [enumerate(temp_files)]; [all_results] is
    the list built so far. *)
Fixpoint analysis_loop (job_description : option string) (total i : nat)
    (files : list (string * string)) (all_results : list (AnalysisResult num))
  : M num (list (AnalysisResult num)) :=
  match files with
  | [] => mret all_results
  | (temp_path, original_name) :: rest =>
      st (StProgress original_name (i + 1) total);;
      all_results' ←
        try_except
          (result ← (if job_given job_description
                     then call_analyzer temp_path job_description
                     else call_analyzer temp_path None);
           mret (all_results ++ [set_filename original_name result]))
          (λ e,
             st (StError ("Fehler bei der Analyse von " +:+ original_name +:+ ": " +:+ str e));;
             log_error e ("batch_analysis_" +:+ original_name);;
             mret all_results);
      analysis_loop job_description total (S i) rest all_results'
  end.

(** [pd.ExcelWriter(path, engine="xlsxwriter")]: pandas opens the file for
    writing when the writer is made. *)
Definition excel_writer_open : M num unit := λ w,
  (Ok tt, with_fs (insert excel_path (Bytes "")) w).

(** [excel_buffer.close()]: the sheets are saved. *)
Definition excel_writer_close (sheets : list (string * Sheet num)) : M num unit := λ w,
  if io_fails ExcelClose then (Raise (Exception "No space left on device"), w)
  else (Ok tt, with_fs (insert excel_path (Workbook sheets)) w).

(** [open(path, "rb")] and [f.read()]. *)
Definition read_back (path : string) : M num (File num) := λ w,
  if io_fails ExcelRead then (Raise (Exception "Input/output error"), w)
  else match fs w !! path with
       | Some file => (Ok file, w)
       | None => (Raise (Exception "No such file or directory"), w)
       end.

(** Lines 458-505: the two download links. *)
Definition export_batch (overview : DataFrame num) (all_results : list (AnalysisResult num))
  : M num unit :=
  st (StSubheader "Batch-Ergebnisse exportieren");;
  st (StDownloadLink (Bytes (json_batch_data all_results)) "batch_analysis.json"
                     "Als JSON herunterladen");;
  excel_writer_open;;
  excel_writer_close (excel_sheets overview all_results);;
  excel_data ← read_back excel_path;
  st (StDownloadLink excel_data "batch_analysis.xlsx" "Als Excel herunterladen");;
  present ← path_exists excel_path;
  if (present : bool) then os_unlink excel_path else mret tt.

(** Lines 413-505: the tables and the exports, when there is a result. *)
Definition show_results (job_description : option string)
    (all_results : list (AnalysisResult num)) : M num unit :=
  if truthy all_results then
    st (StSubheader (String Uuml "bersicht aller Kandidaten"));;
    st (StDataframe (overview_df all_results));;
    (if job_given job_description then
       st (StSubheader "Kandidaten-Ranking");;
       st (StDataframe (ranking_df (overview_df all_results)));;
       st (StSubheader "Top Kandidaten");;
       st (StBarChart (top_candidates (ranking_df (overview_df all_results))))
     else mret tt);;
    export_batch (overview_df all_results) all_results
  else mret tt.

(** Lines 513-515: the loop of the [finally] block. *)
Fixpoint cleanup_loop (files : list (string * string)) : M num unit :=
  match files with
  | [] => mret tt
  | (temp_path, _) :: rest =>
      present ← path_exists temp_path;
      (if (present : bool) then os_unlink temp_path else mret tt);;
      cleanup_loop rest
  end.

Definition cleanup : M num unit :=
  files ← get_temp_files;
  cleanup_loop files.

(** The [try] block of lines 370-505. *)
Definition batch_body (uploaded_files : list Upload) (job_description : option string)
  : M num unit :=
  save_uploads 0 uploaded_files;;
  files ← get_temp_files;
  all_results ← analysis_loop job_description (length files) 0 files [];
  log_performance_metric "batch_analysis_duration";;
  st (StSuccess ("Batch-Analyse von " +:+ pretty (length all_results)
                 +:+ " Dateien abgeschlossen!"));;
  show_results job_description all_results.

(** The handler of lines 507-509. *)
Definition batch_handler (e : exn) : M num unit :=
  st (StError ("Fehler bei der Batch-Analyse: " +:+ str e));;
  log_error e "batch_analysis".

(** The page: [use_job] is the checkbox, [job_text] the text area shown when
    it is ticked, [start] the button. *)
Definition batch_page (uploaded_files : list Upload) (use_job : bool) (job_text : string)
    (start : bool) : M num unit :=
  let job_description := if use_job then Some job_text else None in
  if truthy uploaded_files && start then
    clear_temp_files;;
    try_finally
      (try_except (batch_body uploaded_files job_description) batch_handler)
      cleanup
  else mret tt.
End BatchPage.

(** ** Reading JSON text back: [json.loads] *)

Section JsonDecoder.
Context {num : Type} {JN : JsonNumber num}.

(** The decoder's [WHITESPACE]: space, tab, newline, carriage return. *)
Definition is_ws (c : ascii) : bool :=
  let n := nat_of_ascii c in
  (n =? 32)%nat || (n =? 9)%nat || (n =? 10)%nat || (n =? 13)%nat.

Fixpoint skip_ws (s : string) : string :=
  match s with
  | EmptyString => ""
  | String c s' => if is_ws c then skip_ws s' else s
  end.

Definition hex_value (c : ascii) : option nat :=
  let n := nat_of_ascii c in
  if is_digit c then Some (n - 48)
  else if (97 <=? n)%nat && (n <=? 102)%nat then Some (n - 87)
  else if (65 <=? n)%nat && (n <=? 70)%nat then Some (n - 55)
  else None.

(** [_decode_uXXXX]: four hexadecimal digits; a code point from 256 on is
    outside the strings of this model. *)
Definition decode_hex4 (a b c d : ascii) : option ascii :=
  va ← hex_value a; vb ← hex_value b; vc ← hex_value c; vd ← hex_value d;
  let n := (((va * 16 + vb) * 16 + vc) * 16 + vd)%nat in
  if (n <? 256)%nat then Some (ascii_of_nat n) else None.

(** The decoder's [BACKSLASH] table. *)
Definition backslash (esc : ascii) : option ascii :=
  if Ascii.eqb esc dquote then Some dquote
  else if Ascii.eqb esc "\" then Some "\"%char
  else if Ascii.eqb esc "/" then Some "/"%char
  else if Ascii.eqb esc "b" then Some "008"%char
  else if Ascii.eqb esc "f" then Some "012"%char
  else if Ascii.eqb esc "n" then Some "010"%char
  else if Ascii.eqb esc "r" then Some "013"%char
  else if Ascii.eqb esc "t" then Some "009"%char
  else None.

(** [py_scanstring] in strict mode, from the character after the opening
    quote: the string and the text after its closing quote. *)
Fixpoint scanstring (s : string) : option (string * string) :=
  match s with
  | EmptyString => None
  | String c rest =>
      if Ascii.eqb c dquote then Some ("", rest)
      else if Ascii.eqb c "\" then
        match rest with
        | EmptyString => None
        | String esc rest' =>
            if Ascii.eqb esc "u" then
              match rest' with
              | String a (String b (String c' (String d rest''))) =>
                  ch ← decode_hex4 a b c' d;
                  '(text, r) ← scanstring rest'';
                  Some (String ch text, r)
              | _ => None
              end
            else
              ch ← backslash esc;
              '(text, r) ← scanstring rest';
              Some (String ch text, r)
        end
      else if (nat_of_ascii c <? 32)%nat then None
      else
        '(text, r) ← scanstring rest;
        Some (String c text, r)
  end.

(** The number token: the longest run of number characters. *)
Fixpoint span_number (s : string) : string * string :=
  match s with
  | EmptyString => ("", "")
  | String c s' =>
      if is_number_char c
      then let '(tok, r) := span_number s' in (String c tok, r)
      else ("", s)
  end.

Fixpoint strip_prefix (p s : string) : option string :=
  match p, s with
  | EmptyString, _ => Some s
  | String a p', String b s' => if Ascii.eqb a b then strip_prefix p' s' else None
  | String _ _, EmptyString => None
  end.

(** [d[key] = value] on a dictionary kept in insertion order. *)
Fixpoint dict_set {V} (key : string) (value : V) (d : list (string * V)) : list (string * V) :=
  match d with
  | [] => [(key, value)]
  | (k, v) :: d' =>
      if String.eqb key k then (k, value) :: d' else (k, v) :: dict_set key value d'
  end.

(** [dict(pairs)]. *)
Definition dict_of_pairs {V} (pairs : list (string * V)) : list (string * V) :=
  fold_left (λ d kv, dict_set (fst kv) (snd kv) d) pairs [].

(** [scan_once], [JSONArray] and [JSONObject] of [json.decoder]; the fuel
    bounds the nesting of the calls.  [scan_items] starts at an item,
    [scan_pairs] after the opening quote of a key. *)
Fixpoint scan_once (fuel : nat) (s : string) : option (json num * string) :=
  match fuel with
  | O => None
  | S fuel' =>
      match s with
      | EmptyString => None
      | String c rest =>
          if Ascii.eqb c dquote then
            '(text, r) ← scanstring rest; Some (JStr text, r)
          else if Ascii.eqb c "{" then
            match skip_ws rest with
            | String c' r =>
                if Ascii.eqb c' "}" then Some (JDict [], r)
                else if Ascii.eqb c' dquote then
                  '(pairs, r') ← scan_pairs fuel' r; Some (JDict (dict_of_pairs pairs), r')
                else None
            | EmptyString => None
            end
          else if Ascii.eqb c "[" then
            match skip_ws rest with
            | String c' r =>
                if Ascii.eqb c' "]" then Some (JList [], r)
                else '(items, r') ← scan_items fuel' (String c' r); Some (JList items, r')
            | EmptyString => None
            end
          else if Ascii.eqb c "n" then r ← strip_prefix "null" s; Some (JNull, r)
          else if Ascii.eqb c "t" then r ← strip_prefix "true" s; Some (JBool true, r)
          else if Ascii.eqb c "f" then r ← strip_prefix "false" s; Some (JBool false, r)
          else if is_number_start c then
            let '(tok, r) := span_number s in
            n ← num_parse tok; Some (JNum n, r)
          else None
      end
  end
with scan_items (fuel : nat) (s : string) : option (list (json num) * string) :=
  match fuel with
  | O => None
  | S fuel' =>
      '(v, r) ← scan_once fuel' s;
      match skip_ws r with
      | String c r' =>
          if Ascii.eqb c "]" then Some ([v], r')
          else if Ascii.eqb c "," then
            '(vs, r'') ← scan_items fuel' (skip_ws r'); Some (v :: vs, r'')
          else None
      | EmptyString => None
      end
  end
with scan_pairs (fuel : nat) (s : string) : option (list (string * json num) * string) :=
  match fuel with
  | O => None
  | S fuel' =>
      '(key, r) ← scanstring s;
      match skip_ws r with
      | String c r1 =>
          if Ascii.eqb c ":" then
            '(v, r2) ← scan_once fuel' (skip_ws r1);
            match skip_ws r2 with
            | String c' r3 =>
                if Ascii.eqb c' "}" then Some ([(key, v)], r3)
                else if Ascii.eqb c' "," then
                  match skip_ws r3 with
                  | String q r4 =>
                      if Ascii.eqb q dquote then
                        '(ps, r5) ← scan_pairs fuel' r4; Some ((key, v) :: ps, r5)
                      else None
                  | EmptyString => None
                  end
                else None
            | EmptyString => None
            end
          else None
      | EmptyString => None
      end
  end.

(** [json.loads(text)]: leading whitespace, one value, trailing whitespace,
    nothing else.  The nesting of the calls never exceeds twice the length
    of the text. *)
Definition json_loads (text : string) : option (json num) :=
  '(v, r) ← scan_once (2 * String.length text + 2) (skip_ws text);
  match skip_ws r with
  | EmptyString => Some v
  | String _ _ => None
  end.
End JsonDecoder.

(** ** Python integers in JSON text *)

Fixpoint digits_value (acc : N) (s : string) : option N :=
  match s with
  | EmptyString => Some acc
  | String c s' =>
      if is_digit c
      then digits_value (acc * 10 + (N.of_nat (nat_of_ascii c) - 48))%N s'
      else None
  end.

(** The integer part of a JSON number: a single 0, or digits that do not
    start with 0. *)
Definition json_uint (s : string) : option N :=
  match s with
  | EmptyString => None
  | String c s' =>
      if Ascii.eqb c "0"
      then match s' with EmptyString => Some 0%N | String _ _ => None end
      else digits_value 0%N s
  end.

(** [int(text)] on a number token without fraction and exponent. *)
Definition json_int (s : string) : option Z :=
  match s with
  | EmptyString => None
  | String c t =>
      if Ascii.eqb c "-" then (λ n, Z.opp (Z.of_N n)) <$> json_uint t
      else Z.of_N <$> json_uint s
  end.

(** [int.__repr__]. *)
Definition int_repr (z : Z) : string := NilZero.string_of_int (Z.to_int z).

(** ** Durations from dates *)

(** Nanoseconds per day: pandas keeps instants in nanoseconds. *)
Definition ns_per_day : Z := 86400000000000.

(** The days from 1970-01-01 to a date of the proleptic Gregorian calendar. *)
Definition days_from_civil (y m d : Z) : Z :=
  let y' := (if m <=? 2 then y - 1 else y)%Z in
  let era := (y' / 400)%Z in
  let yoe := (y' - era * 400)%Z in
  let mp := (if m <=? 2 then m + 9 else m - 3)%Z in
  let doy := ((153 * mp + 2) / 5 + d - 1)%Z in
  let doe := (yoe * 365 + yoe / 4 - yoe / 100 + doy)%Z in
  (era * 146097 + doe - 719468)%Z.

(** Exactly [n] decimal digits. *)
Fixpoint read_digits (n : nat) (acc : Z) (s : string) : option (Z * string) :=
  match n with
  | O => Some (acc, s)
  | S n' =>
      match s with
      | EmptyString => None
      | String c s' =>
          if is_digit c
          then read_digits n' (acc * 10 + (Z.of_nat (nat_of_ascii c) - 48))%Z s'
          else None
      end
  end.

(** [pd.to_datetime] on the ISO texts [YYYY-MM-DD] and [YYYY-MM-DDTHH:MM:SS]:
    the instant in nanoseconds since 1970-01-01. *)
Definition to_datetime_iso (text : string) : option Z :=
  '(y, s1) ← read_digits 4 0%Z text;
  s2 ← strip_prefix "-" s1;
  '(m, s3) ← read_digits 2 0%Z s2;
  s4 ← strip_prefix "-" s3;
  '(d, s5) ← read_digits 2 0%Z s4;
  let midnight := (days_from_civil y m d * ns_per_day)%Z in
  match s5 with
  | EmptyString => Some midnight
  | String _ _ =>
      s6 ← strip_prefix "T" s5;
      '(hh, s7) ← read_digits 2 0%Z s6;
      s8 ← strip_prefix ":" s7;
      '(mm, s9) ← read_digits 2 0%Z s8;
      s10 ← strip_prefix ":" s9;
      '(ss, s11) ← read_digits 2 0%Z s10;
      match s11 with
      | EmptyString => Some (midnight + ((hh * 60 + mm) * 60 + ss) * 1000000000)%Z
      | String _ _ => None
      end
  end.

Section Durations.
Variable to_datetime : string → option Z.

(** The span of an entry in nanoseconds, [end_date - start_date]. *)
Definition entry_span (e : ExperienceEntry Q) : option Z :=
  s ← start_date e; t ← end_date e;
  a ← to_datetime s; b ← to_datetime t;
  Some (b - a)%Z.

(** Lines 129-131, the "CV Analyse" page:
    [(end_date - start_date).dt.days / 365.25]; [.dt.days] is the whole
    number of days of the span. *)
Definition timeline_duration (e : ExperienceEntry Q) : option Q :=
  span ← entry_span e;
  Some (inject_Z (span / ns_per_day) / (1461 # 4))%Q.

(** The duration as the specification words it: the span in days, divided
    by 365.25. *)
Definition spec_duration (e : ExperienceEntry Q) : option Q :=
  span ← entry_span e;
  Some ((inject_Z span / inject_Z ns_per_day) / (1461 # 4))%Q.

(** The total the specification words: the sum of the entries' durations. *)
Fixpoint spec_total (entries : list (ExperienceEntry Q)) : option Q :=
  match entries with
  | [] => Some 0%Q
  | e :: rest =>
      d ← spec_duration e; total ← spec_total rest; Some (d + total)%Q
  end.

Definition spec_experience_years (result : AnalysisResult Q) : option Q :=
  spec_total (default [] (experience result)).
End Durations.

(** ** Stability of a ranking *)

(** Two rows of the same score stay in their input order: for every score,
    the rows of that score read the same in the table and in the input. *)
Definition keeps_input_order_of_ties {num} {PN : PyNumber num}
    (overview ranking : DataFrame num) : Prop :=
  ∀ score : num,
    List.filter (λ row, num_eqb (Relevanz_Score row) score) (map snd ranking)
    = List.filter (λ row, num_eqb (Relevanz_Score row) score) (map snd overview).

(** ** Example data *)

(** Two candidates with the same score. *)
Definition candidate_a : AnalysisResult Z :=
  mkResult (Some "a.pdf") (Some "Engineer") (Some "Senior") (Some 50%Z)
           (Some [("python", 4%Z)]) None None None.
Definition candidate_b : AnalysisResult Z :=
  mkResult (Some "b.pdf") (Some "Analyst") (Some "Junior") (Some 50%Z)
           None None None None.

(** Eighteen candidates with the same score, "cv1.pdf" to "cv18.pdf". *)
Definition equal_candidates : list (AnalysisResult Z) :=
  map (λ k, mkResult (Some ("cv" +:+ pretty k +:+ ".pdf")) (Some "Engineer") None (Some 50%Z)
                     None None None None)
      (seq 1 18).

(** A candidate with skills and experience, and one with neither. *)
Definition candidate_c : AnalysisResult Z :=
  mkResult (Some "c.docx") (Some "Engineer") (Some "Senior") (Some 80%Z)
           (Some [("python", 4%Z); ("sql", 3%Z)])
           (Some [mkExperience (Some "Developer") (Some "ACME") (Some "2019-01-01")
                               (Some "2021-01-01") (Some 2%Z)])
           None (Some ["Learn Rust"]).
Definition candidate_d : AnalysisResult Z :=
  mkResult (Some "d.pdf") None None None (Some []) (Some []) None None.

(** An entry that spans 365.25 days and has no "duration" key. *)
Definition entry_one_year : ExperienceEntry Q :=
  mkExperience (Some "Developer") (Some "ACME") (Some "2019-01-01")
               (Some "2020-01-01T06:00:00") None.
Definition candidate_one_year : AnalysisResult Q :=
  mkResult (Some "e.pdf") None None None None (Some [entry_one_year]) None None.

(** ** A host for running the page *)

(** Temporary names as [tempfile] builds them: a directory, a prefix, a
    varying part and the suffix; the first candidate that no file has. *)
Definition tmp_candidate (suffix : string) (k : nat) : string :=
  "/tmp/tmp" +:+ pretty k +:+ suffix.

Definition first_free (existing : gset string) (suffix : string) : string :=
  match list_find (λ name, name ∉ existing)
                  (map (tmp_candidate suffix) (seq 0 (S (size existing)))) with
  | Some (_, name) => name
  | None => tmp_candidate suffix (size existing)
  end.

(** No call fails. *)
Definition no_faults : IOFaults := λ _, false.

(** The bytes of the first upload cannot be written. *)
Definition first_write_fails : IOFaults := λ op,
  match op with TmpWrite O => true | _ => false end.

(** The saved workbook cannot be read back. *)
Definition read_back_fails : IOFaults := λ op,
  match op with ExcelRead => true | _ => false end.

(** An Analyzer for the examples: it fails on a file that is missing or
    holds the bytes "corrupt", and finds one skill otherwise; with a job
    description the relevance score is the length of the document. *)
Definition example_analyzer : CVAnalyzer Z := λ files path job,
  match files !! path with
  | Some (Bytes data) =>
      if String.eqb data "corrupt" then Raise (Exception "cannot extract text")
      else Ok (mkResult None (Some "Engineer") (Some "Senior")
                        (match job with
                         | Some _ => Some (Z.of_nat (String.length data))
                         | None => None
                         end)
                        (Some [("python", 4%Z)]) None None None)
  | _ => Raise (Exception "No such file or directory")
  end.

Definition upload_cv : Upload := mkUpload "cv.pdf" "ten years of python".
Definition upload_bad : Upload := mkUpload "bad.docx" "corrupt".
Definition upload_short : Upload := mkUpload "short.pdf" "sql".

(** The world before the page runs: no files, an empty screen, empty logs. *)
Definition empty_world : World Z := mkWorld ∅ [] [] [] [] [] [].

(** ** What the analysis loop is expected to return *)

Section AnalysisLoopSpec.
Context {num : Type} {AN : CVAnalyzer num}.

(** The outcome of the Analyzer on one temporary file, for the files on
    disk: the job description is passed when it is given. *)
Definition analysis_of (job_description : option string)
    (disk : gmap string (File num)) (temp_path : string) : outcome (AnalysisResult num) :=
  analyze_cv_file disk temp_path
    (if job_given job_description then job_description else None).

Definition analysis_fails (job_description : option string)
    (disk : gmap string (File num)) (entry : string * string) : bool :=
  match analysis_of job_description disk (fst entry) with
  | Ok _ => false
  | Raise _ => true
  end.

(** The results of the documents whose analysis succeeds, each tagged with
    the original name of its document, in the order of the documents. *)
Fixpoint expected_results (job_description : option string)
    (disk : gmap string (File num)) (files : list (string * string))
  : list (AnalysisResult num) :=
  match files with
  | [] => []
  | (temp_path, original_name) :: rest =>
      match analysis_of job_description disk temp_path with
      | Ok result =>
          set_filename original_name result :: expected_results job_description disk rest
      | Raise _ => expected_results job_description disk rest
      end
  end.

(** The entries of the error log for the documents whose analysis fails. *)
Fixpoint expected_errors (job_description : option string)
    (disk : gmap string (File num)) (files : list (string * string))
  : list (string * string) :=
  match files with
  | [] => []
  | (temp_path, original_name) :: rest =>
      match analysis_of job_description disk temp_path with
      | Ok _ => expected_errors job_description disk rest
      | Raise e =>
          (str e, "batch_analysis_" +:+ original_name)
          :: expected_errors job_description disk rest
      end
  end.
End AnalysisLoopSpec.

(** ** Runs without a job description *)

(** A widget that is no part of the ranking: no bar chart of top candidates,
    no heading of the ranking or of the top candidates, and no table other
    than an overview table. *)
Definition plain_widget {num} {PN : PyNumber num} (widget : Widget num) : Prop :=
  match widget with
  | StBarChart _ => False
  | StSubheader text => text ≠ "Kandidaten-Ranking" ∧ text ≠ "Top Kandidaten"
  | StDataframe df => ∃ all_results, df = overview_df all_results
  | _ => True
  end.

(** From [w] to [w'] the Analyzer was only called without a job description
    and only plain widgets were put on the screen. *)
Definition quiet {num} {PN : PyNumber num} (w w' : World num) : Prop :=
  (∃ calls, analyzer_calls w' = analyzer_calls w ++ calls
            ∧ Forall (λ call, snd call = None) calls)
  ∧ (∃ widgets, screen w' = screen w ++ widgets ∧ Forall plain_widget widgets).

(** Every run of [m] relates the world before to the world after by [R]. *)
Definition steps_within {num A} (R : World num → World num → Prop) (m : M num A) : Prop :=
  ∀ w, R w (snd (m w)).

(** ** Well-formed JSON values *)

(** The dictionaries of a value have no key twice, as Python's have. *)
Inductive json_wf {num : Type} : json num → Prop :=
| wf_null : json_wf JNull
| wf_bool (b : bool) : json_wf (JBool b)
| wf_num (n : num) : json_wf (JNum n)
| wf_str (s : string) : json_wf (JStr s)
| wf_list (l : list (json num)) : Forall json_wf l → json_wf (JList l)
| wf_dict (d : list (string * json num)) :
    NoDup (map fst d) → Forall (λ kv, json_wf (snd kv)) d → json_wf (JDict d).

(** The nesting of decoder calls a value needs. *)
Fixpoint weight {num : Type} (v : json num) : nat :=
  match v with
  | JList l => S (list_sum (map (λ x, S (weight x)) l))
  | JDict d => S (list_sum (map (λ kv, S (weight (snd kv))) d))
  | _ => 1
  end.

(** Where a number token ends: at the end of the text or at a character
    that no number holds. *)
Definition number_stop (rest : string) : bool :=
  match rest with
  | EmptyString => true
  | String c _ => negb (is_number_char c)
  end.

(** The characters a JSON value can start with. *)
Definition value_start (c : ascii) : bool :=
  Ascii.eqb c dquote || Ascii.eqb c "{" || Ascii.eqb c "[" || Ascii.eqb c "n"
  || Ascii.eqb c "t" || Ascii.eqb c "f" || is_number_start c.

(** The [skills] and [missing_skills] of a result are dictionaries. *)
Definition result_is_dict {num : Type} (r : AnalysisResult num) : Prop :=
  NoDup (map fst (default [] (skills r))) ∧ NoDup (map fst (default [] (missing_skills r))).

(** [d.get(key)]. *)
Fixpoint dict_get {V} (key : string) (d : list (string * V)) : option V :=
  match d with
  | [] => None
  | (k, v) :: d' => if String.eqb key k then Some v else dict_get key d'
  end.

(** [v.get(key)] on a value that is a dictionary. *)
Definition json_get {num : Type} (key : string) (v : json num) : option (json num) :=
  match v with
  | JDict d => dict_get key d
  | _ => None
  end.

(** ** What the batch page shows and writes *)

(** The progress a widget reports: ["Analysiere name (step/total)"]. *)
Definition progress_of {num} (widget : Widget num) : option (string * nat * nat) :=
  match widget with
  | StProgress original_name step total => Some (original_name, step, total)
  | _ => None
  end.

(** A character of a 7-bit text file: printable ASCII or a line feed. *)
Definition is_plain_ascii (c : ascii) : bool :=
  let n := nat_of_ascii c in
  ((32 <=? n)%nat && (n <=? 126)%nat) || (n =? 10)%nat.

Definition no_dot (c : ascii) : bool := negb (Ascii.eqb c ".").

(** ** The download links (lines 41-46) *)

(** The alphabet of [base64.b64encode]. *)
Definition b64_alphabet : string :=
  "ABCDEFGHIJKLMNOPQRSTUVWXYZabcdefghijklmnopqrstuvwxyz0123456789+/".

Definition b64_char (i : nat) : ascii :=
  match String.get i b64_alphabet with
  | Some c => c
  | None => "="%char
  end.

(** [base64.b64encode(data)]: three bytes give four characters of six bits
    each; one or two bytes left over are filled up with "=". *)
Fixpoint b64encode (data : string) : string :=
  match data with
  | EmptyString => ""
  | String a EmptyString =>
      let x := nat_of_ascii a in
      String (b64_char (x / 4)) (String (b64_char (x mod 4 * 16)) "==")
  | String a (String b EmptyString) =>
      let x := nat_of_ascii a in
      let y := nat_of_ascii b in
      String (b64_char (x / 4))
        (String (b64_char (x mod 4 * 16 + y / 16))
           (String (b64_char (y mod 16 * 4)) "="))
  | String a (String b (String c rest)) =>
      let x := nat_of_ascii a in
      let y := nat_of_ascii b in
      let z := nat_of_ascii c in
      String (b64_char (x / 4))
        (String (b64_char (x mod 4 * 16 + y / 16))
           (String (b64_char (y mod 16 * 4 + z / 64))
              (String (b64_char (z mod 64)) (b64encode rest))))
  end.

(** [str.encode()], UTF-8: a code point below 128 is one byte, one from 128
    to 255 is two. *)
Definition utf8_char (c : ascii) : string :=
  let n := nat_of_ascii c in
  if (n <? 128)%nat then String c ""
  else String (ascii_of_nat (192 + n / 64)) (String (ascii_of_nat (128 + n mod 64)) "").

Fixpoint utf8_encode (s : string) : string :=
  match s with
  | EmptyString => ""
  | String c s' => utf8_char c +:+ utf8_encode s'
  end.

(** What the page passes as [data]: a [str] or [bytes]. *)
Inductive LinkData :=
| LStr (text : string)
| LBytes (data : string).

(** [if isinstance(data, str): data = data.encode()]. *)
Definition link_bytes (data : LinkData) : string :=
  match data with
  | LStr text => utf8_encode text
  | LBytes data => data
  end.

Definition quote : string := String dquote "".

(** [get_download_link(data, filename, text)]. *)
Definition get_download_link (data : LinkData) (filename text : string) : string :=
  let b64 := b64encode (link_bytes data) in
  "<a href=" +:+ quote +:+ "data:file/txt;base64," +:+ b64 +:+ quote
  +:+ " download=" +:+ quote +:+ filename +:+ quote +:+ ">" +:+ text +:+ "</a>".

(** *** Reading a link *)

(** The position of a character in a text. *)
Fixpoint string_index (c : ascii) (s : string) : option nat :=
  match s with
  | EmptyString => None
  | String d s' => if Ascii.eqb c d then Some 0 else S <$> string_index c s'
  end.

Definition b64_index (c : ascii) : option nat := string_index c b64_alphabet.

(** Base64 decoding (RFC 4648, section 4), as the browser decodes the data
    URL of a link: groups of four characters, the last one filled up with
    one or two "=". *)
Fixpoint b64decode (text : string) : option string :=
  match text with
  | EmptyString => Some ""
  | String c1 (String c2 (String c3 (String c4 rest))) =>
      i1 ← b64_index c1;
      i2 ← b64_index c2;
      if Ascii.eqb c4 "=" then
        match rest with
        | EmptyString =>
            if Ascii.eqb c3 "=" then Some (String (ascii_of_nat (i1 * 4 + i2 / 16)) "")
            else
              i3 ← b64_index c3;
              Some (String (ascii_of_nat (i1 * 4 + i2 / 16))
                      (String (ascii_of_nat (i2 mod 16 * 16 + i3 / 4)) ""))
        | String _ _ => None
        end
      else
        i3 ← b64_index c3;
        i4 ← b64_index c4;
        tail ← b64decode rest;
        Some (String (ascii_of_nat (i1 * 4 + i2 / 16))
                (String (ascii_of_nat (i2 mod 16 * 16 + i3 / 4))
                   (String (ascii_of_nat (i3 mod 4 * 64 + i4)) tail)))
  | _ => None
  end.

(** The text up to the first double quote. *)
Fixpoint until_quote (s : string) : option string :=
  match s with
  | EmptyString => None
  | String c s' => if Ascii.eqb c dquote then Some "" else String c <$> until_quote s'
  end.

(** The [href] attribute of a link that starts with an [a] tag whose first
    attribute it is. *)
Definition href_of_link (link : string) : option string :=
  rest ← strip_prefix ("<a href=" +:+ quote) link;
  until_quote rest.

(** The data of a [data:file/txt;base64,] URL. *)
Definition data_of_url (url : string) : option string :=
  b64 ← strip_prefix "data:file/txt;base64," url;
  b64decode b64.

(** A character of the base64 alphabet, or the filling "=". *)
Definition is_b64_char (c : ascii) : bool :=
  bool_decide (is_Some (b64_index c)) || Ascii.eqb c "=".

Definition is_ascii (c : ascii) : bool := (nat_of_ascii c <? 128)%nat.

(** ** The "CV Analyse" and "Job Matching" pages (lines 55-348) *)

(** The letter u with diaeresis (code point 252). *)
Definition uuml : ascii := "252"%char.

(** The figures plotly draws, with their data. *)
Inductive Figure (num : Type) :=
| BarFigure (title x_label y_label scale : string) (x : list string) (y : list num)
| TimelineFigure (experience : list (ExperienceEntry num))
| PieFigure (values : list num) (names : list string) (annotation : string).
Arguments BarFigure {num}.
Arguments TimelineFigure {num}.
Arguments PieFigure {num}.

(** What the two pages put on the screen; [st.columns] only arranges. *)
Inductive Element (num : Type) :=
| EHeader (text : string)
| ESubheader (text : string)
| EProgress (percent : nat)
| ESpinner (text : string)
| ESuccess (msg : string)
| EError (msg : string)
| EInfo (msg : string)
| EMetric (label value : string)
| EMarkdown (body : string)
| EPlotlyChart (fig : Figure num)
| EExperienceTable (experience : list (ExperienceEntry num)).
Arguments EHeader {num}.
Arguments ESubheader {num}.
Arguments EProgress {num}.
Arguments ESpinner {num}.
Arguments ESuccess {num}.
Arguments EError {num}.
Arguments EInfo {num}.
Arguments EMetric {num}.
Arguments EMarkdown {num}.
Arguments EPlotlyChart {num}.
Arguments EExperienceTable {num}.

(** The world of the batch page and the elements of these pages. *)
Record Page (num : Type) := mkPage {
  world : World num;
  shown : list (Element num)
}.
Arguments mkPage {num}.
Arguments world {num}.
Arguments shown {num}.

Definition Pg (num : Type) (A : Type) : Type := Page num → outcome A * Page num.

#[export] Instance Pg_ret {num} : MRet (Pg num) := λ A a p, (Ok a, p).

#[export] Instance Pg_bind {num} : MBind (Pg num) := λ A B f m p,
  match m p with
  | (Ok a, p') => f a p'
  | (Raise e, p') => (Raise e, p')
  end.

(** The formats, the arithmetic and the calls of pandas and plotly these
    pages need: [f"{x:.0f}"], [100 - x], and whether building the timeline
    frame (lines 128-131), the timeline figure (lines 133-140) or the table
    of the experience (lines 146-154) raises, a missing column or a date
    that does not parse. *)
Class PageTools (num : Type) := {
  format_0f : num → string;
  hundred_minus : num → num;
  timeline_frame : list (ExperienceEntry num) → outcome unit;
  px_timeline : list (ExperienceEntry num) → outcome unit;
  experience_table : list (ExperienceEntry num) → outcome unit
}.

(** [analyzer.extract_text(path)] and [analyzer.export_results(results,
    format=...)]: each returns or raises. *)
Class CVAnalyzerTools (num : Type) := {
  extract_text : gmap string (File num) → string → outcome string;
  export_results : AnalysisResult num → string → outcome LinkData
}.

Section Pages.
Context {num : Type} {PN : PyNumber num} {JN : JsonNumber num}.
Context {AN : CVAnalyzer num} {AT : CVAnalyzerTools num} {PT : PageTools num}.
Context {TN : TempNamer} {IO : IOFaults}.

(** A statement of the batch page's vocabulary, run on the world of the
    page. *)
Definition lift {A} (m : M num A) : Pg num A := λ p,
  match m (world p) with
  | (r, w') => (r, mkPage w' (shown p))
  end.

(** A Streamlit call that renders an element. *)
Definition el (element : Element num) : Pg num unit := λ p,
  (Ok tt, mkPage (world p) (shown p ++ [element])).

(** A library call that returns or raises and leaves the page alone. *)
Definition call {A} (result : outcome A) : Pg num A := λ p, (result, p).

Definition p_try_except {A} (body : Pg num A) (handler : exn → Pg num A) : Pg num A :=
  λ p, match body p with
       | (Ok a, p') => (Ok a, p')
       | (Raise e, p') => handler e p'
       end.

Definition p_try_finally {A} (body : Pg num A) (final : Pg num unit) : Pg num A :=
  λ p, match body p with
       | (r, p') =>
           match final p' with
           | (Ok _, p'') => (r, p'')
           | (Raise e, p'') => (Raise e, p'')
           end
       end.

(** [for i in range(100): time.sleep(0.01); progress_bar.progress(i + 1)]. *)
Fixpoint progress_loop (steps : list nat) : Pg num unit :=
  match steps with
  | [] => mret tt
  | i :: rest => el (EProgress (i + 1));; progress_loop rest
  end.

(** [for i, rec in enumerate(recommendations): st.markdown(f"**{i+1}.** {rec}")]. *)
Fixpoint recommendations_loop (i : nat) (recommendations : list string) : Pg num unit :=
  match recommendations with
  | [] => mret tt
  | rec :: rest =>
      el (EMarkdown ("**" +:+ pretty (i + 1) +:+ ".** " +:+ rec));;
      recommendations_loop (S i) rest
  end.

(** [with tempfile.NamedTemporaryFile(delete=False, suffix=...) as tmp:
    tmp.write(file.getvalue()); path = tmp.name], the [k]-th of the run. *)
Definition save_upload (k : nat) (file : Upload) : Pg num string :=
  tmp ← lift (named_temporary_file ("." +:+ last_segment (upload_name file)));
  lift (tmp_write k tmp (upload_data file));;
  mret tmp.

(** [if os.path.exists(path): os.unlink(path)]. *)
Definition unlink_if_exists (path : string) : Pg num unit :=
  present ← lift (path_exists path);
  if (present : bool) then lift (os_unlink path) else mret tt.

(** The three download links (lines 169-194 and 314-339); [stem] is
    "cv_analysis" or "job_match". *)
Definition export_links (results : AnalysisResult num) (stem : string) : Pg num unit :=
  el (ESubheader "Ergebnisse exportieren");;
  el (EMarkdown (get_download_link (LStr (json_dumps (result_to_json results)))
                                   (stem +:+ ".json") "Als JSON herunterladen"));;
  csv_data ← call (export_results results "csv");
  el (EMarkdown (get_download_link csv_data (stem +:+ ".csv") "Als CSV herunterladen"));;
  excel_data ← call (export_results results "excel");
  el (EMarkdown (get_download_link excel_data (stem +:+ ".xlsx") "Als Excel herunterladen")).

(** Lines 123-157: the timeline and the table of the experience. *)
Definition show_experience (results : AnalysisResult num) : Pg num unit :=
  el (ESubheader "Berufserfahrung");;
  if has_experience results then
    el (EMarkdown "### Zeitleiste");;
    call (timeline_frame (default [] (experience results)));;
    call (px_timeline (default [] (experience results)));;
    el (EPlotlyChart (TimelineFigure (default [] (experience results))));;
    call (experience_table (default [] (experience results)));;
    el (EExperienceTable (default [] (experience results)))
  else el (EInfo "Keine Berufserfahrung erkannt.").

(** Lines 68-84: the progress bar, the analysis and its metric. *)
Definition cv_analysis (tmp_path : string) : Pg num (AnalysisResult num) :=
  el (EProgress 0);;
  el (ESpinner "Analysiere Lebenslauf...");;
  progress_loop (seq 0 100);;
  results ← lift (call_analyzer tmp_path None);
  lift (log_performance_metric "analysis_duration");;
  mret results.

(** Lines 86-166: the results on the screen. *)
Definition cv_report (results : AnalysisResult num) : Pg num unit :=
  el (ESuccess "Analyse abgeschlossen!");;
  el (ESubheader (String Uuml "bersicht"));;
  el (EMetric "Beruf" (default "Nicht erkannt" (profession results)));;
  el (EMetric "Erfahrungslevel" (default "Nicht erkannt" (experience_level results)));;
  el (EMetric "Relevanz Score"
              (format_0f (default num_zero (relevance_score results)) +:+ "%"));;
  el (ESubheader ("F" +:+ String auml "higkeiten"));;
  (if has_skills results then
     el (EPlotlyChart (BarFigure ("F" +:+ String auml "higkeiten-Bewertung")
                                 ("F" +:+ String auml "higkeit") "Bewertung" "viridis"
                                 (map fst (default [] (skills results)))
                                 (map snd (default [] (skills results)))))
   else el (EInfo ("Keine F" +:+ String auml "higkeiten erkannt.")));;
  show_experience results;;
  el (ESubheader "Empfehlungen");;
  (if truthy (default [] (recommendations results))
   then recommendations_loop 0 (default [] (recommendations results))
   else el (EInfo ("Keine Empfehlungen verf" +:+ String uuml "gbar."))).

(** The [try] block of lines 67-194. *)
Definition cv_body (tmp_path : string) : Pg num unit :=
  results ← cv_analysis tmp_path;
  cv_report results;;
  export_links results "cv_analysis".

(** The handler of lines 196-198. *)
Definition cv_handler (e : exn) : Pg num unit :=
  el (EError ("Fehler bei der Analyse: " +:+ str e));;
  lift (log_error e "cv_analysis").

(** The "CV Analyse" page: the upload is saved before the [try] block. *)
Definition cv_page (uploaded_file : option Upload) : Pg num unit :=
  el (EHeader "Lebenslauf analysieren");;
  match uploaded_file with
  | None => mret tt
  | Some file =>
      tmp_path ← save_upload 0 file;
      p_try_finally (p_try_except (cv_body tmp_path) cv_handler)
                    (unlink_if_exists tmp_path)
  end.

(** Lines 220-236: the job description read from an uploaded file; the
    text of the text area stays when the file cannot be read. *)
Definition read_job_file (job_description : string) (job_file : Upload) : Pg num string :=
  job_path ← save_upload 0 job_file;
  job_description' ←
    p_try_except
      (text ← lift (λ w, (extract_text (fs w) job_path, w));
       el (ESuccess "Stellenbeschreibung erfolgreich geladen!");;
       mret text)
      (λ e,
         el (EError ("Fehler beim Lesen der Stellenbeschreibung: " +:+ str e));;
         lift (log_error e "job_description_reading");;
         mret job_description);
  unlink_if_exists job_path;;
  mret job_description'.

(** Lines 247-262: the progress bar, the matching and its metric; the job
    description is always passed. *)
Definition job_analysis (cv_path job_description : string) : Pg num (AnalysisResult num) :=
  el (EProgress 0);;
  el (ESpinner ("F" +:+ String uuml "hre Matching durch..."));;
  progress_loop (seq 0 100);;
  results ← lift (call_analyzer cv_path (Some job_description));
  lift (log_performance_metric "match_duration");;
  mret results.

(** Lines 264-311: the match on the screen. *)
Definition job_report (results : AnalysisResult num) : Pg num unit :=
  el (ESuccess "Matching abgeschlossen!");;
  el (ESubheader "Match-Ergebnisse");;
  el (EPlotlyChart
        (PieFigure [default num_zero (relevance_score results);
                    hundred_minus (default num_zero (relevance_score results))]
                   ["Match"; "Gap"]
                   (format_0f (default num_zero (relevance_score results)) +:+ "%")));;
  el (ESubheader "Empfohlene Verbesserungen");;
  (if truthy (default [] (missing_skills results)) then
     el (EPlotlyChart (BarFigure ("Fehlende oder zu verbessernde F" +:+ String auml "higkeiten")
                                 ("F" +:+ String auml "higkeit") "Wichtigkeit" "oranges"
                                 (map fst (default [] (missing_skills results)))
                                 (map snd (default [] (missing_skills results)))))
   else el (EInfo ("Keine fehlenden F" +:+ String auml "higkeiten identifiziert.")));;
  (if truthy (default [] (recommendations results))
   then recommendations_loop 0 (default [] (recommendations results))
   else mret tt).

(** The [try] block of lines 246-339. *)
Definition job_body (cv_path job_description : string) : Pg num unit :=
  results ← job_analysis cv_path job_description;
  job_report results;;
  export_links results "job_match".

(** The handler of lines 341-343. *)
Definition job_handler (e : exn) : Pg num unit :=
  el (EError ("Fehler beim Matching: " +:+ str e));;
  lift (log_error e "job_matching").

(** [cv_file and (job_description or job_file)]. *)
Definition can_match (cv_file : option Upload) (job_description : string)
    (job_file : option Upload) : bool :=
  bool_decide (is_Some cv_file)
  && (negb (String.eqb job_description "") || bool_decide (is_Some job_file)).

(** The "Job Matching" page: [text_area] is the text of the text area,
    [button] the match button. *)
Definition job_page (cv_file : option Upload) (text_area : string)
    (job_file : option Upload) (button : bool) : Pg num unit :=
  el (EHeader "Lebenslauf mit Stellenbeschreibung abgleichen");;
  el (ESubheader "Lebenslauf");;
  el (ESubheader "Stellenbeschreibung");;
  job_description ←
    match job_file with
    | Some file => read_job_file text_area file
    | None => mret text_area
    end;
  match cv_file with
  | Some file =>
      if can_match cv_file job_description job_file && button then
        cv_path ← save_upload 1 file;
        p_try_finally (p_try_except (job_body cv_path job_description) job_handler)
                      (unlink_if_exists cv_path)
      else mret tt
  | None => mret tt
  end.
End Pages.

(** ** What a page run changes *)

(** Every run of [m] relates the page before to the page after by [R]. *)
Definition pg_steps_within {num A} (R : Page num → Page num → Prop) (m : Pg num A) : Prop :=
  ∀ p, R p (snd (m p)).

(** An element that is no error message. *)
Definition no_error {num} (element : Element num) : Prop :=
  match element with
  | EError _ => False
  | _ => True
  end.

(** From [p] to [p'] only the screen changed, and no error was shown. *)
Definition only_shows {num} (p p' : Page num) : Prop :=
  world p' = world p ∧ ∃ new, shown p' = shown p ++ new ∧ Forall no_error new.

(** The name [save_upload] gives the temporary file of [file] on page [p]. *)
Definition temp_name {num} {TN : TempNamer} (p : Page num) (file : Upload) : string :=
  mktemp (dom (fs (world p))) ("." +:+ last_segment (upload_name file)).

(** The job description the "Job Matching" page matches against: the text
    of the uploaded file when there is one that can be read, the text of
    the text area otherwise. *)
Definition job_description_of {num} {AT : CVAnalyzerTools num} {TN : TempNamer}
    (p : Page num) (text_area : string) (job_file : option Upload) : string :=
  match job_file with
  | Some file =>
      match extract_text (<[temp_name p file := Bytes (upload_data file)]> (fs (world p)))
                         (temp_name p file) with
      | Ok text => text
      | Raise _ => text_area
      end
  | None => text_area
  end.

(** What the handler of a page leaves when [e] is raised on page [p] after
    the elements [new] were shown: the message on the screen and in the
    log. *)
Definition reported {num} (intro context : string) (e : exn) (new : list (Element num))
    (p : Page num) : Page num :=
  mkPage (mkWorld (fs (world p)) (screen (world p))
                  (error_log (world p) ++ [(str e, context)]) (metrics (world p))
                  (unlink_log (world p)) (analyzer_calls (world p)) (temp_files (world p)))
         (shown p ++ new ++ [EError (intro +:+ str e)]).

(** The world after a call of the Analyzer, and after a metric is logged. *)
Definition called {num} (path : string) (job : option string) (w : World num) : World num :=
  mkWorld (fs w) (screen w) (error_log w) (metrics w) (unlink_log w)
          (analyzer_calls w ++ [(path, job)]) (temp_files w).

Definition measured {num} (name : string) (w : World num) : World num :=
  mkWorld (fs w) (screen w) (error_log w) (metrics w ++ [name]) (unlink_log w)
          (analyzer_calls w) (temp_files w).

(** The progress a page shows before the Analyzer is called. *)
Definition progress_shown {num} (spinner : string) : list (Element num) :=
  [EProgress 0; ESpinner spinner] ++ map (λ i, EProgress (i + 1)) (seq 0 100).

(** The three links of a page, for the data the Analyzer exports. *)
Definition three_links {num} {JN : JsonNumber num} (results : AnalysisResult num)
    (stem : string) (csv_data excel_data : LinkData) : list (Element num) :=
  [EMarkdown (get_download_link (LStr (json_dumps (result_to_json results)))
                                (stem +:+ ".json") "Als JSON herunterladen");
   EMarkdown (get_download_link csv_data (stem +:+ ".csv") "Als CSV herunterladen");
   EMarkdown (get_download_link excel_data (stem +:+ ".xlsx") "Als Excel herunterladen")].

(** ** A host for the two pages *)

(** The text of a file is its bytes; a file that is missing or holds the
    bytes "corrupt" cannot be read.  An export is a line of text. *)
Definition example_tools : CVAnalyzerTools Z := {|
  extract_text := λ files path,
    match files !! path with
    | Some (Bytes data) =>
        if String.eqb data "corrupt" then Raise (Exception "cannot extract text")
        else Ok data
    | _ => Raise (Exception "No such file or directory")
    end;
  export_results := λ results format, Ok (LBytes ("exported as " +:+ format))
|}.

(** Python integers, and pandas and plotly calls that work. *)
Definition example_page_tools : PageTools Z := {|
  format_0f := int_repr;
  hundred_minus := λ z, (100 - z)%Z;
  timeline_frame := λ _, Ok tt;
  px_timeline := λ _, Ok tt;
  experience_table := λ _, Ok tt
|}.

Definition empty_page : Page Z := mkPage empty_world [].

(** * Properties *)

(** ** Sorting helpers *)

Section TieReversingSortFacts.
Context {num : Type} {PN : PyNumber num} {A : Type} (key : A → num).

Lemma insert_behind_perm (x : A) (l : list A) : insert_behind key x l ≡ₚ x :: l.
Proof.
  induction l as [|y l IH]; simpl; [reflexivity|].
  destruct (num_leb (key x) (key y)); [|reflexivity].
  rewrite IH. apply Permutation_swap.
Qed.

Lemma tie_reversing_sort_perm (l : list A) : tie_reversing_sort key l ≡ₚ l.
Proof.
  induction l as [|x l IH]; simpl; [reflexivity|].
  rewrite insert_behind_perm. by rewrite IH.
Qed.

Lemma insert_behind_sorted (x : A) (l : list A) :
  StronglySorted (λ a b, num_leb (key b) (key a) = true) l →
  StronglySorted (λ a b, num_leb (key b) (key a) = true) (insert_behind key x l).
Proof.
  induction 1 as [|y l Hsorted IH Hall]; simpl.
  - repeat constructor.
  - destruct (num_leb (key x) (key y)) eqn:Hxy.
    + constructor; [exact IH|].
      rewrite insert_behind_perm. constructor; assumption.
    + assert (Hyx : num_leb (key y) (key x) = true).
      { destruct (num_leb_total (key x) (key y)) as [E|E]; [congruence|exact E]. }
      constructor; [constructor; assumption|].
      constructor; [exact Hyx|].
      eapply Forall_impl; [exact Hall|].
      intros z Hz. simpl in Hz. eapply num_leb_trans; eassumption.
Qed.

Lemma tie_reversing_sort_sorted (l : list A) :
  StronglySorted (λ a b, num_leb (key b) (key a) = true) (tie_reversing_sort key l).
Proof.
  induction l as [|x l IH]; simpl; [constructor|].
  by apply insert_behind_sorted.
Qed.
End TieReversingSortFacts.

(** ** pandas' default sort *)

Section NumpySortFacts.
Context {num : Type} {PN : PyNumber num} {A : Type} (key : A → num).

Lemma Forall2_Permutation_l {B C : Type} (P : B → C → Prop) (l1 l2 : list B) (k1 : list C) :
  l1 ≡ₚ l2 → Forall2 P l1 k1 → ∃ k2, k1 ≡ₚ k2 ∧ Forall2 P l2 k2.
Proof.
  intros Hperm. revert k1.
  induction Hperm as [|x l1 l2 _ IH|x y l|l1 l2 l3 _ IH1 _ IH2]; intros k1 Hall.
  - apply Forall2_nil_inv_l in Hall as ->. by exists [].
  - apply Forall2_cons_inv_l in Hall as (z & k & Hz & Hk & ->).
    destruct (IH k Hk) as (k2 & Hperm2 & Hall2).
    exists (z :: k2). split; [by constructor|by constructor].
  - apply Forall2_cons_inv_l in Hall as (z1 & k & Hz1 & Hk & ->).
    apply Forall2_cons_inv_l in Hk as (z2 & k' & Hz2 & Hk' & ->).
    exists (z2 :: z1 :: k'). split; [apply Permutation_swap|by repeat constructor].
  - destruct (IH1 k1 Hall) as (k2 & Hperm2 & Hall2).
    destruct (IH2 k2 Hall2) as (k3 & Hperm3 & Hall3).
    exists k3. split; [by etransitivity|done].
Qed.

Lemma Forall2_lookup_seq (l k : list A) :
  Forall2 (λ i y, l !! i = Some y) (seq 0 (length l)) k → k = l.
Proof.
  intros Hall. apply list_eq. intros i.
  pose proof (Forall2_length _ _ _ Hall) as Hlen. rewrite length_seq in Hlen.
  destruct (decide (i < length l)%nat) as [Hi|Hi].
  - destruct (Forall2_lookup_l _ _ _ i i Hall) as (y & Hy & Hl).
    { apply lookup_seq. lia. }
    by rewrite Hy, Hl.
  - rewrite !lookup_ge_None_2 by lia. done.
Qed.

Lemma take_rows_Permutation (l rows : list A) (indexer : list nat) :
  mapM (λ i, l !! i) indexer = Some rows → indexer ≡ₚ seq 0 (length l) → rows ≡ₚ l.
Proof.
  intros Hrows%mapM_Some_1 Hperm.
  destruct (Forall2_Permutation_l _ _ _ _ Hperm Hrows) as (k & Hk & Hall).
  apply Forall2_lookup_seq in Hall as ->. exact Hk.
Qed.

Lemma numpy_sort_values_perm (l : list A) : numpy_sort_values_desc key l ≡ₚ l.
Proof.
  unfold numpy_sort_values_desc.
  destruct (nargsort_desc (map key l)) as [indexer|]; [|apply tie_reversing_sort_perm].
  destruct (mapM (λ i, l !! i) indexer) as [rows|] eqn:Hrows; [|apply tie_reversing_sort_perm].
  case_bool_decide as Hcheck; [|apply tie_reversing_sort_perm].
  destruct Hcheck as [Hperm _]. by eapply take_rows_Permutation.
Qed.

Lemma numpy_sort_values_sorted (l : list A) :
  StronglySorted (λ a b, num_leb (key b) (key a) = true) (numpy_sort_values_desc key l).
Proof.
  unfold numpy_sort_values_desc.
  destruct (nargsort_desc (map key l)) as [indexer|]; [|apply tie_reversing_sort_sorted].
  destruct (mapM (λ i, l !! i) indexer) as [rows|]; [|apply tie_reversing_sort_sorted].
  case_bool_decide as Hcheck; [|apply tie_reversing_sort_sorted].
  by destruct Hcheck as [_ Hsorted].
Qed.
End NumpySortFacts.

(** pandas' sort, where the model has a result, implements the
    [sort_values] interface. *)
#[export] Instance numpy_SortValues {num : Type} {PN : PyNumber num} : SortValues num := {
  sort_values_desc A key l := numpy_sort_values_desc key l;
  sort_values_perm A key l := numpy_sort_values_perm key l;
  sort_values_sorted A key l := numpy_sort_values_sorted key l
}.

(** ** Ranking and top candidates *)

Section RankingFacts.
Context {num : Type} {PN : PyNumber num} {SV : SortValues num}.

Lemma length_reset_index (df : DataFrame num) : length (reset_index df) = length df.
Proof.
  unfold reset_index. rewrite length_zip_with, length_seq, length_map. lia.
Qed.

Lemma snd_reset_index (df : DataFrame num) : map snd (reset_index df) = map snd df.
Proof.
  unfold reset_index. apply snd_zip. rewrite length_seq, length_map. lia.
Qed.

Lemma fst_reset_index (df : DataFrame num) : map fst (reset_index df) = seq 0 (length df).
Proof.
  unfold reset_index. apply fst_zip. rewrite length_seq, length_map. lia.
Qed.

Lemma snd_index_plus_one (df : DataFrame num) : map snd (index_plus_one df) = map snd df.
Proof.
  unfold index_plus_one. rewrite map_map. apply map_ext. by intros [i row].
Qed.

Lemma fst_index_plus_one (df : DataFrame num) :
  map fst (index_plus_one df) = map (λ i, i + 1) (map fst df).
Proof.
  unfold index_plus_one. rewrite !map_map. apply map_ext. by intros [i row].
Qed.

Lemma snd_ranking_df (overview : DataFrame num) :
  map snd (ranking_df overview)
  = map snd (sort_values_desc (λ r, Relevanz_Score (snd r)) overview).
Proof.
  unfold ranking_df. by rewrite snd_index_plus_one, snd_reset_index.
Qed.

Lemma length_ranking_df (overview : DataFrame num) :
  length (ranking_df overview) = length overview.
Proof.
  rewrite <- (length_map snd), snd_ranking_df, length_map.
  apply Permutation_length, sort_values_perm.
Qed.

Lemma StronglySorted_map {B C : Type} (R : C → C → Prop) (f : B → C) (l : list B) :
  StronglySorted (λ a b, R (f a) (f b)) l → StronglySorted R (map f l).
Proof.
  induction 1 as [|x l Hs IH Hall]; simpl; constructor; [exact IH|].
  rewrite Forall_forall in Hall. apply Forall_forall.
  intros y Hy. apply list_elem_of_fmap in Hy as [z [-> Hz]]. by apply Hall.
Qed.


(** C5: the highlighted subset holds the first [min 3 n] rows of the ranking
    table of a batch of [n] results: never more than three, never more than
    there are results, and both rows when there are two results. *)
Theorem top_candidates_first_min_3 (all_results : list (AnalysisResult num)) :
  top_candidates (ranking_df (overview_df all_results))
    `prefix_of` ranking_df (overview_df all_results)
  ∧ length (top_candidates (ranking_df (overview_df all_results)))
    = min 3 (length all_results)
  ∧ (length (top_candidates (ranking_df (overview_df all_results))) ≤ 3)%nat
  ∧ (length (top_candidates (ranking_df (overview_df all_results))) ≤ length all_results)%nat
  ∧ (∀ r1 r2 : AnalysisResult num,
       top_candidates (ranking_df (overview_df [r1; r2])) = ranking_df (overview_df [r1; r2])
       ∧ length (top_candidates (ranking_df (overview_df [r1; r2]))) = 2).
Proof.
  assert (Hlen : ∀ rs : list (AnalysisResult num),
             length (ranking_df (overview_df rs)) = length rs).
  { intros rs. rewrite length_ranking_df. unfold overview_df, mk_dataframe, overview_data.
    rewrite length_zip_with, length_seq, length_map. lia. }
  assert (Htop : ∀ rs : list (AnalysisResult num),
             length (top_candidates (ranking_df (overview_df rs))) = min 3 (length rs)).
  { intros rs. unfold top_candidates, head. rewrite length_take, Hlen. lia. }
  split; [|split; [|split; [|split]]].
  - unfold top_candidates, head. apply prefix_take.
  - apply Htop.
  - rewrite Htop. lia.
  - rewrite Htop. lia.
  - intros r1 r2. split; [|by rewrite Htop].
    unfold top_candidates, head. apply take_ge. rewrite Hlen. simpl. lia.
Qed.
End RankingFacts.

(** Three results with the scores 40, 90 and 70 are ranked 90, 70, 40 under
    the indices 1, 2, 3, and all three are top candidates. *)
Lemma ranking_df_scenario :
  map (λ r, (fst r, Relevanz_Score (snd r)))
      (ranking_df (SV := numpy_SortValues)
         (overview_df [mkResult None None None (Some 40%Z) None None None None;
                       mkResult None None None (Some 90%Z) None None None None;
                       mkResult None None None (Some 70%Z) None None None None]))
  = [(1, 90%Z); (2, 70%Z); (3, 40%Z)]
  ∧ length (top_candidates
              (ranking_df (SV := numpy_SortValues)
                 (overview_df [mkResult None None None (Some 40%Z) None None None None;
                               mkResult None None None (Some 90%Z) None None None None;
                               mkResult None None None (Some 70%Z) None None None None])))
    = 3.
Proof. split; reflexivity. Qed.


(** ** Overview rows *)

Section OverviewFacts.
Context {num : Type} {PN : PyNumber num}.

Lemma py_sum_app (xs ys : list num) :
  py_sum (xs ++ ys) = fold_left num_add ys (py_sum xs).
Proof. unfold py_sum. apply fold_left_app. Qed.

(** C2, as the code has it: the total experience years of an overview row is
    the sum of the "duration" values the entries of the result carry, an
    entry without one counting 0; the dates of the entries play no part.  A
    result without entries gives 0, and a single entry of duration [d]
    gives [d]. *)
Theorem overview_years_sum_of_duration_fields :
  (∀ result : AnalysisResult num,
     Berufserfahrung_Jahre (overview_row result)
     = py_sum (map (λ e, default num_zero (duration e)) (default [] (experience result))))
  ∧ (∀ f p l s sk ms rc,
       Berufserfahrung_Jahre (overview_row (mkResult f p l s sk None ms rc)) = num_zero
       ∧ Berufserfahrung_Jahre (overview_row (mkResult f p l s sk (Some []) ms rc)) = num_zero)
  ∧ (∀ f p l s sk ms rc t c sd ed (d : num),
       Berufserfahrung_Jahre
         (overview_row (mkResult f p l s sk (Some [mkExperience t c sd ed (Some d)]) ms rc)) = d
       ∧ Berufserfahrung_Jahre
           (overview_row (mkResult f p l s sk (Some [mkExperience t c sd ed None]) ms rc))
         = num_zero)
  ∧ (∀ f p l s sk ms rc (entries : list (ExperienceEntry num)) (e : ExperienceEntry num),
       Berufserfahrung_Jahre (overview_row (mkResult f p l s sk (Some (entries ++ [e])) ms rc))
       = num_add (Berufserfahrung_Jahre (overview_row (mkResult f p l s sk (Some entries) ms rc)))
                 (default num_zero (duration e)))
  ∧ (∀ f p l s sk ms rc (entries entries' : list (ExperienceEntry num)),
       map duration entries = map duration entries' →
       Berufserfahrung_Jahre (overview_row (mkResult f p l s sk (Some entries) ms rc))
       = Berufserfahrung_Jahre (overview_row (mkResult f p l s sk (Some entries') ms rc))).
Proof.
  split; [reflexivity|]. split; [by intros|]. split.
  { intros. simpl. unfold experience_years, py_sum. simpl. by rewrite !num_add_zero_l. }
  split.
  { intros. simpl. unfold experience_years. simpl. by rewrite map_app, py_sum_app. }
  intros f p l s sk ms rc entries entries' Heq. simpl. unfold experience_years. simpl.
  f_equal. rewrite <- !(map_map duration (default num_zero)). by rewrite Heq.
Qed.
End OverviewFacts.

(** C2, as the claim words it, fails: an entry from 2019-01-01 to 2020-01-01
    06:00 spans 365.25 days, so the claim gives it one year; it carries no
    "duration" key, and the overview row shows 0. *)
Lemma overview_years_ignore_dates :
  entry_span to_datetime_iso entry_one_year = Some (36525 * 864000000000)%Z
  ∧ (∃ years : Q,
       spec_experience_years to_datetime_iso candidate_one_year = Some years
       ∧ (years == 1)%Q
       ∧ ¬ (Berufserfahrung_Jahre (overview_row candidate_one_year) == years)%Q)
  ∧ (Berufserfahrung_Jahre (overview_row candidate_one_year) == 0)%Q.
Proof.
  split; [vm_compute; reflexivity|]. split; [|vm_compute; reflexivity].
  eexists. split; [vm_compute; reflexivity|]. split; [vm_compute; reflexivity|].
  vm_compute. discriminate.
Qed.

(** On the "CV Analyse" page the same entry is shown with 365 whole days:
    [.dt.days / 365.25] is below one year. *)
Lemma timeline_duration_whole_days :
  ∃ years : Q, timeline_duration to_datetime_iso entry_one_year = Some years
               ∧ (years == 365 / (1461 # 4))%Q ∧ (years < 1)%Q.
Proof.
  eexists. split; [vm_compute; reflexivity|]. split; vm_compute; reflexivity.
Qed.

(** ** Workbook sheets *)

Section WorkbookFacts.
Context {num : Type}.

Lemma candidate_sheets_names (i : nat) (result : AnalysisResult num) :
  map fst (candidate_sheets i result) = candidate_sheet_names i result.
Proof.
  unfold candidate_sheets, candidate_sheet_names.
  by destruct (has_skills result), (has_experience result).
Qed.

Lemma candidate_sheets_length (i : nat) (result : AnalysisResult num) :
  length (candidate_sheets i result)
  = ((if has_skills result then 1 else 0) + (if has_experience result then 1 else 0))%nat.
Proof.
  unfold candidate_sheets.
  by destruct (has_skills result), (has_experience result).
Qed.

Lemma candidates_loop_length (i : nat) (all_results : list (AnalysisResult num)) :
  length (candidates_loop i all_results)
  = (length (List.filter has_skills all_results)
     + length (List.filter has_experience all_results))%nat.
Proof.
  revert i. induction all_results as [|r rs IH]; intros i; simpl; [reflexivity|].
  rewrite length_app, candidate_sheets_length, IH.
  destruct (has_skills r), (has_experience r); simpl; lia.
Qed.

Lemma candidates_loop_names (i : nat) (all_results : list (AnalysisResult num)) :
  map fst (candidates_loop i all_results)
  = concat (imap (λ j result, candidate_sheet_names (i + j) result) all_results).
Proof.
  revert i. induction all_results as [|r rs IH]; intros i; simpl; [reflexivity|].
  rewrite map_app, candidate_sheets_names, IH, Nat.add_0_r. f_equal. f_equal.
  apply imap_ext. intros j x _. simpl. f_equal. lia.
Qed.


Lemma elem_of_candidate_sheet_names (name : string) (i : nat) (result : AnalysisResult num) :
  name ∈ candidate_sheet_names i result
  ↔ (has_skills result = true ∧ name = skills_sheet_name i)
    ∨ (has_experience result = true ∧ name = experience_sheet_name i).
Proof.
  unfold candidate_sheet_names.
  destruct (has_skills result), (has_experience result); simpl;
    rewrite ?elem_of_cons, ?elem_of_nil; intuition discriminate.
Qed.

Lemma elem_of_candidates_loop_names (name : string) (i : nat)
    (all_results : list (AnalysisResult num)) :
  name ∈ map fst (candidates_loop i all_results)
  ↔ ∃ j result, all_results !! j = Some result
                ∧ ((has_skills result = true ∧ name = skills_sheet_name (i + j))
                   ∨ (has_experience result = true ∧ name = experience_sheet_name (i + j))).
Proof.
  revert i. induction all_results as [|r rs IH]; intros i; simpl.
  - split; [by intros ?%elem_of_nil|]. by intros (j & result & ? & _).
  - rewrite map_app, elem_of_app, candidate_sheets_names, IH,
      elem_of_candidate_sheet_names. split.
    + intros [Hhere|(j & result & Hj & Hname)].
      * exists 0, r. split; [reflexivity|]. by rewrite Nat.add_0_r.
      * exists (S j), result. split; [exact Hj|].
        by replace (i + S j) with (S i + j) by lia.
    + intros ([|j] & result & Hj & Hname).
      * left. simpl in Hj. injection Hj as ->. by rewrite Nat.add_0_r in Hname.
      * right. exists j, result. split; [exact Hj|].
        by replace (S i + j) with (i + S j) by lia.
Qed.

(** C7, as the code has it: the first sheet is the overview sheet, and the
    other sheets are exactly "Kandidat_<k>_Skills" for the results with
    skills and "Kandidat_<k>_Erfahrung" for the results with experience,
    [k] being the position of the result in [all_results], counted from 1. *)
Theorem excel_sheet_names (overview : DataFrame num)
    (all_results : list (AnalysisResult num)) :
  map fst (excel_sheets overview all_results)
  = overview_sheet_name
    :: concat (imap (λ i result,
                       (if has_skills result
                        then ["Kandidat_" +:+ pretty (i + 1) +:+ "_Skills"] else [])
                       ++ (if has_experience result
                           then ["Kandidat_" +:+ pretty (i + 1) +:+ "_Erfahrung"] else []))
                    all_results)
  ∧ overview_sheet_name = String (ascii_of_nat 220) "bersicht"
  ∧ (∀ name : string,
       name ∈ map fst (excel_sheets overview all_results)
       ↔ name = overview_sheet_name
         ∨ ∃ i result, all_results !! i = Some result
                       ∧ ((has_skills result = true
                           ∧ name = "Kandidat_" +:+ pretty (i + 1) +:+ "_Skills")
                          ∨ (has_experience result = true
                             ∧ name = "Kandidat_" +:+ pretty (i + 1) +:+ "_Erfahrung"))).
Proof.
  split; [|split; [reflexivity|]].
  - unfold excel_sheets. simpl. f_equal. apply candidates_loop_names.
  - intros name. unfold excel_sheets. simpl. rewrite elem_of_cons.
    rewrite elem_of_candidates_loop_names. reflexivity.
Qed.
End WorkbookFacts.

(** C7, as the claim words it, fails: the names on the sheets are the German
    ones of the page, not "Overview" and "Candidate_...". *)
Lemma excel_sheet_names_are_german :
  map fst (excel_sheets (overview_df [candidate_c]) [candidate_c])
  = [String (ascii_of_nat 220) "bersicht"; "Kandidat_1_Skills"; "Kandidat_1_Erfahrung"]
  ∧ spec_sheet_names [candidate_c]
    = ["Overview"; "Candidate_1_Skills"; "Candidate_1_Experience"]
  ∧ map fst (excel_sheets (overview_df [candidate_c]) [candidate_c])
    ≠ spec_sheet_names [candidate_c].
Proof.
  split; [reflexivity|]. split; [reflexivity|]. intros Heq. vm_compute in Heq. discriminate Heq.
Qed.

(** ** Python integers as JSON numbers *)

Lemma uint_string_digits (d : Decimal.uint) :
  string_forallb is_digit (NilEmpty.string_of_uint d) = true.
Proof. induction d; simpl; auto. Qed.

Lemma digits_value_of_uint_acc (d : Decimal.uint) (acc : positive) :
  digits_value (N.pos acc) (NilEmpty.string_of_uint d) = Some (N.pos (Pos.of_uint_acc d acc)).
Proof.
  revert acc. induction d; intros acc; simpl; [reflexivity|..];
    match goal with
    | |- digits_value ?n _ = Some (N.pos (Pos.of_uint_acc _ ?q)) =>
        replace n with (N.pos q) by (vm_compute N.of_nat; lia)
    end; apply IHd.
Qed.

Lemma digits_value_of_uint (d : Decimal.uint) :
  digits_value 0%N (NilEmpty.string_of_uint d) = Some (Pos.of_uint d).
Proof.
  induction d; simpl; [reflexivity|exact IHd|..]; apply digits_value_of_uint_acc.
Qed.

Lemma pos_to_uint_not_D0 (p : positive) (d : Decimal.uint) : Pos.to_uint p ≠ Decimal.D0 d.
Proof.
  intros Heq.
  pose proof (DecimalPos.Unsigned.to_of (Pos.to_uint p)) as Hnorm.
  rewrite DecimalPos.Unsigned.of_to in Hnorm.
  change (N.to_uint (N.pos p)) with (Pos.to_uint p) in Hnorm.
  rewrite Heq in Hnorm. unfold Decimal.unorm in Hnorm.
  destruct (Decimal.nzhead (Decimal.D0 d)) eqn:Hnz; try discriminate Hnorm.
  - injection Hnorm as ->. by apply (DecimalPos.Unsigned.to_uint_nonzero p).
  - by apply nzhead_nonzero in Hnz.
Qed.

(** The text of a positive integer: digits, the first of them not 0, and
    read back as that integer. *)
Lemma pos_repr_shape (p : positive) :
  ∃ c s, NilZero.string_of_uint (Pos.to_uint p) = String c s
         ∧ is_digit c = true ∧ Ascii.eqb c "0" = false ∧ Ascii.eqb c "-" = false
         ∧ string_forallb is_digit s = true
         ∧ json_uint (String c s) = Some (N.pos p).
Proof.
  pose proof (pos_to_uint_not_D0 p) as Hnz.
  pose proof (DecimalPos.Unsigned.to_uint_nonnil p) as Hnn.
  pose proof (uint_string_digits (Pos.to_uint p)) as Hdig.
  pose proof (digits_value_of_uint (Pos.to_uint p)) as Hval.
  rewrite DecimalPos.Unsigned.of_to in Hval.
  unfold NilZero.string_of_uint.
  destruct (Pos.to_uint p) as [|d|d|d|d|d|d|d|d|d|d] eqn:Hp;
    [done|by destruct (Hnz d)|..];
    (eexists _, _; split; [reflexivity|]; simpl in Hdig, Hval;
     repeat split; try reflexivity; [exact Hdig|exact Hval]).
Qed.

Lemma json_int_repr (z : Z) : json_int (int_repr z) = Some z.
Proof.
  destruct z as [|p|p]; [reflexivity|..]; unfold int_repr; simpl;
    destruct (pos_repr_shape p) as (c & s & -> & Hd & H0 & Hm & Hs & Hv).
  - unfold json_int. rewrite Hm, Hv. reflexivity.
  - unfold json_int. simpl Ascii.eqb. cbv iota. rewrite Hv. reflexivity.
Qed.

Lemma is_digit_number_char (s : string) :
  string_forallb is_digit s = true → string_forallb is_number_char s = true.
Proof.
  induction s as [|c s IH]; simpl; [done|].
  intros [Hc Hs]%andb_prop. unfold is_number_char. rewrite Hc. simpl. by apply IH.
Qed.

Lemma int_repr_start (z : Z) :
  ∃ c s, int_repr z = String c s ∧ is_number_start c = true.
Proof.
  destruct z as [|p|p]; [by eexists _, _|..]; unfold int_repr; simpl.
  - destruct (pos_repr_shape p) as (c & s & -> & Hd & _).
    eexists _, _. split; [reflexivity|]. unfold is_number_start. by rewrite Hd.
  - by eexists _, _.
Qed.

Lemma int_repr_chars (z : Z) : string_forallb is_number_char (int_repr z) = true.
Proof.
  destruct z as [|p|p]; [reflexivity|..]; unfold int_repr; simpl;
    destruct (pos_repr_shape p) as (c & s & -> & Hd & _ & _ & Hs & _); simpl;
    unfold is_number_char at 1; rewrite Hd; simpl; by apply is_digit_number_char.
Qed.

(** Python integers are written and read back as JSON numbers. *)
#[export] Instance Z_JsonNumber : JsonNumber Z := {
  num_repr := int_repr;
  num_parse := json_int;
  num_parse_repr := json_int_repr;
  num_repr_start := int_repr_start;
  num_repr_chars := int_repr_chars
}.

(** ** Temporary names *)

Lemma string_length_app (s t : string) :
  String.length (s +:+ t) = (String.length s + String.length t)%nat.
Proof.
  induction s as [|c s IH]; [reflexivity|].
  change (S (String.length (s +:+ t)) = S (String.length s + String.length t)).
  by rewrite IH.
Qed.

Lemma string_app_inv_tail (s1 s2 t : string) : s1 +:+ t = s2 +:+ t → s1 = s2.
Proof.
  revert s2. induction s1 as [|c s1 IH]; intros [|c' s2] Heq.
  - reflexivity.
  - apply (f_equal String.length) in Heq.
    rewrite !string_length_app in Heq.
    change (String.length (String c' s2)) with (S (String.length s2)) in Heq.
    change (String.length "") with 0 in Heq. lia.
  - apply (f_equal String.length) in Heq.
    rewrite !string_length_app in Heq.
    change (String.length (String c s1)) with (S (String.length s1)) in Heq.
    change (String.length "") with 0 in Heq. lia.
  - change (String c (s1 +:+ t) = String c' (s2 +:+ t)) in Heq.
    injection Heq as -> Heq. f_equal. by apply IH.
Qed.

Lemma tmp_candidate_inj (suffix : string) : Inj (=) (=) (tmp_candidate suffix).
Proof.
  intros k k' Heq. unfold tmp_candidate in Heq.
  apply String.app_inj, string_app_inv_tail in Heq. by apply pretty_nat_inj.
Qed.

Lemma first_free_fresh (existing : gset string) (suffix : string) :
  first_free existing suffix ∉ existing.
Proof.
  unfold first_free.
  destruct (list_find _ _) as [[i name]|] eqn:Hfind.
  - apply list_find_Some in Hfind as (_ & Hfree & _). exact Hfree.
  - exfalso. apply list_find_None in Hfind.
    set (candidates := map (tmp_candidate suffix) (seq 0 (S (size existing)))) in *.
    assert (Hsub : candidates ⊆+ elements existing).
    { apply NoDup_submseteq.
      - apply (@NoDup_fmap_2 _ _ _ (tmp_candidate_inj suffix)), NoDup_seq.
      - intros name Hname. apply elem_of_elements.
        rewrite Forall_forall in Hfind. specialize (Hfind name Hname).
        by apply dec_stable in Hfind. }
    apply submseteq_length in Hsub.
    unfold candidates in Hsub. rewrite length_map, length_seq in Hsub.
    change (length (elements existing)) with (size existing) in Hsub. lia.
Qed.

(** The first free candidate is a [TempNamer]. *)
#[export] Instance first_free_TempNamer : TempNamer := {
  mktemp := first_free;
  mktemp_fresh := first_free_fresh
}.

(** ** The analysis loop *)

Section AnalysisLoopFacts.
Context {num : Type} {AN : CVAnalyzer num}.

Lemma analysis_loop_acc (job_description : option string) (total : nat)
    (files : list (string * string)) :
  ∀ (i : nat) (all_results : list (AnalysisResult num)) (w : World num),
  ∃ w', analysis_loop job_description total i files all_results w
        = (Ok (all_results ++ expected_results job_description (fs w) files), w')
        ∧ fs w' = fs w
        ∧ temp_files w' = temp_files w
        ∧ unlink_log w' = unlink_log w
        ∧ error_log w' = error_log w ++ expected_errors job_description (fs w) files.
Proof.
  induction files as [|[temp_path original_name] rest IH]; intros i all_results w.
  - exists w. simpl. by rewrite !app_nil_r.
  - simpl. unfold analysis_of.
    unfold mbind, M_bind, try_except, st at 1. simpl.
    destruct (job_given job_description) eqn:Hjob;
      unfold call_analyzer; simpl;
      (destruct (analyze_cv_file (fs w) temp_path _) as [result|e] eqn:Hcall; simpl;
       [ edestruct (IH (S i) (all_results ++ [set_filename original_name result])) as
           (w' & -> & Hfs & Htf & Hul & Herr)
       | edestruct (IH (S i) all_results) as (w' & -> & Hfs & Htf & Hul & Herr) ];
       simpl in *; exists w'; rewrite Hfs, Htf, Hul, Herr; simpl;
       rewrite <- ?app_assoc; simpl; done).
Qed.

Lemma expected_results_length (job_description : option string)
    (disk : gmap string (File num)) (files : list (string * string)) :
  (length (expected_results job_description disk files)
   + length (List.filter (analysis_fails job_description disk) files))%nat
  = length files.
Proof.
  induction files as [|[temp_path original_name] rest IH]; simpl; [reflexivity|].
  unfold analysis_fails at 1. simpl.
  destruct (analysis_of job_description disk temp_path); simpl; lia.
Qed.

Lemma expected_results_filenames (job_description : option string)
    (disk : gmap string (File num)) (files : list (string * string)) :
  map filename (expected_results job_description disk files)
  = map (λ entry, Some (snd entry))
        (List.filter (λ entry, negb (analysis_fails job_description disk entry)) files).
Proof.
  induction files as [|[temp_path original_name] rest IH]; simpl; [reflexivity|].
  unfold analysis_fails at 1. simpl.
  destruct (analysis_of job_description disk temp_path); simpl; by rewrite ?IH.
Qed.

(** C1: over [N] temporary files of which [M] make the Analyzer raise, the
    loop ends normally with [N - M] results: the results of the other
    documents, in the order of the documents, each under the original name
    of its document.  Every failure is written to the error log and the
    loop goes on with the next document. *)
Theorem analysis_loop_isolates_failures (job_description : option string)
    (files : list (string * string)) (w : World num) :
  ∃ w',
    analysis_loop job_description (length files) 0 files [] w
    = (Ok (expected_results job_description (fs w) files), w')
    ∧ length (expected_results job_description (fs w) files)
      = (length files
         - length (List.filter (analysis_fails job_description (fs w)) files))%nat
    ∧ (length (List.filter (analysis_fails job_description (fs w)) files)
       ≤ length files)%nat
    ∧ map filename (expected_results job_description (fs w) files)
      = map (λ entry, Some (snd entry))
            (List.filter (λ entry, negb (analysis_fails job_description (fs w) entry)) files)
    ∧ (∀ before after : list (string * string),
         files = before ++ after →
         expected_results job_description (fs w) files
         = expected_results job_description (fs w) before
           ++ expected_results job_description (fs w) after)
    ∧ error_log w' = error_log w ++ expected_errors job_description (fs w) files
    ∧ length (expected_errors job_description (fs w) files)
      = length (List.filter (analysis_fails job_description (fs w)) files).
Proof.
  destruct (analysis_loop_acc job_description (length files) files 0 [] w)
    as (w' & Hrun & _ & _ & _ & Herr).
  exists w'. pose proof (expected_results_length job_description (fs w) files) as Hlen.
  split; [exact Hrun|]. split; [lia|]. split; [lia|].
  split; [apply expected_results_filenames|]. split; [|split; [exact Herr|]].
  - intros before after ->. clear.
    induction before as [|[p n] before IH]; simpl; [reflexivity|].
    destruct (analysis_of job_description (fs w) p); simpl; by rewrite IH.
  - clear. induction files as [|[p n] rest IH]; simpl; [reflexivity|].
    unfold analysis_fails at 1. simpl.
    destruct (analysis_of job_description (fs w) p); simpl; by rewrite ?IH.
Qed.
End AnalysisLoopFacts.

(** ** Reasoning about programs of the page *)

Section StepsWithin.
Context {num : Type} (R : World num → World num → Prop).
Context (R_refl : ∀ w, R w w) (R_trans : ∀ w1 w2 w3, R w1 w2 → R w2 w3 → R w1 w3).

Lemma steps_ret {A} (a : A) : steps_within R (mret a).
Proof. intros w. apply R_refl. Qed.

Lemma steps_raise {A} (e : exn) : steps_within R (raise (A := A) e).
Proof. intros w. apply R_refl. Qed.

Lemma steps_bind {A B} (m : M num A) (f : A → M num B) :
  steps_within R m → (∀ a, steps_within R (f a)) → steps_within R (m ≫= f).
Proof.
  intros Hm Hf w. unfold mbind, M_bind. specialize (Hm w).
  destruct (m w) as [[a|e] w1]; simpl in *; [|exact Hm].
  eapply R_trans; [exact Hm|apply Hf].
Qed.

Lemma steps_try_except {A} (body : M num A) (handler : exn → M num A) :
  steps_within R body → (∀ e, steps_within R (handler e)) →
  steps_within R (try_except body handler).
Proof.
  intros Hm Hh w. unfold try_except. specialize (Hm w).
  destruct (body w) as [[a|e] w1]; simpl in *; [exact Hm|].
  eapply R_trans; [exact Hm|apply Hh].
Qed.

Lemma steps_try_finally {A} (body : M num A) (final : M num unit) :
  steps_within R body → steps_within R final → steps_within R (try_finally body final).
Proof.
  intros Hm Hf w. unfold try_finally. specialize (Hm w).
  destruct (body w) as [r w1]. specialize (Hf w1).
  destruct (final w1) as [[[]|e] w2]; simpl in *; eapply R_trans; eassumption.
Qed.
End StepsWithin.

Section QuietRuns.
Context {num : Type} {PN : PyNumber num} {SV : SortValues num} {JN : JsonNumber num}.
Context {AN : CVAnalyzer num} {TN : TempNamer} {IO : IOFaults}.

Lemma quiet_refl (w : World num) : quiet w w.
Proof. split; exists []; by rewrite app_nil_r. Qed.

Lemma quiet_trans (w1 w2 w3 : World num) : quiet w1 w2 → quiet w2 w3 → quiet w1 w3.
Proof.
  intros [(c1 & Hc1 & Hn1) (s1 & Hs1 & Hp1)] [(c2 & Hc2 & Hn2) (s2 & Hs2 & Hp2)]. split.
  - exists (c1 ++ c2). rewrite Hc2, Hc1, app_assoc. split; [done|by apply Forall_app].
  - exists (s1 ++ s2). rewrite Hs2, Hs1, app_assoc. split; [done|by apply Forall_app].
Qed.

(** A step that leaves the screen and the calls alone is quiet. *)
Lemma quiet_same (w w' : World num) :
  analyzer_calls w' = analyzer_calls w → screen w' = screen w → quiet w w'.
Proof. intros Hcalls Hscreen. split; exists []; by rewrite app_nil_r. Qed.

Lemma quiet_st (widget : Widget num) : plain_widget widget → steps_within quiet (st widget).
Proof.
  intros Hplain w. split; simpl.
  - exists []. by rewrite app_nil_r.
  - exists [widget]. split; [done|by constructor].
Qed.

Lemma quiet_call_without_job (path : string) : steps_within quiet (call_analyzer path None).
Proof.
  intros w. split; simpl.
  - exists [(path, None)]. split; [done|by constructor].
  - exists []. by rewrite app_nil_r.
Qed.

Ltac quiet_prim := intros w; apply quiet_same; reflexivity.

Lemma quiet_log_error (e : exn) (context : string) : steps_within quiet (log_error e context).
Proof. quiet_prim. Qed.

Lemma quiet_log_metric (name : string) : steps_within quiet (log_performance_metric name).
Proof. quiet_prim. Qed.

Lemma quiet_path_exists (path : string) : steps_within quiet (path_exists path).
Proof. quiet_prim. Qed.

Lemma quiet_os_unlink (path : string) : steps_within quiet (os_unlink path).
Proof. intros w. unfold os_unlink. destruct (fs w !! path); by apply quiet_same. Qed.

Lemma quiet_append_temp_file (entry : string * string) :
  steps_within quiet (append_temp_file entry).
Proof. quiet_prim. Qed.

Lemma quiet_named_temporary_file (suffix : string) :
  steps_within quiet (named_temporary_file suffix).
Proof. quiet_prim. Qed.

Lemma quiet_tmp_write (k : nat) (path data : string) : steps_within quiet (tmp_write k path data).
Proof. intros w. unfold tmp_write. destruct (io_fails _); by apply quiet_same. Qed.

Lemma quiet_excel_writer_close (sheets : list (string * Sheet num)) :
  steps_within quiet (excel_writer_close sheets).
Proof. intros w. unfold excel_writer_close. destruct (io_fails _); by apply quiet_same. Qed.

Lemma quiet_excel_writer_open : steps_within quiet excel_writer_open.
Proof. quiet_prim. Qed.

Lemma quiet_clear_temp_files : steps_within quiet (clear_temp_files (num := num)).
Proof. quiet_prim. Qed.

Lemma quiet_get_temp_files : steps_within quiet (get_temp_files (num := num)).
Proof. quiet_prim. Qed.

Lemma quiet_read_back (path : string) : steps_within quiet (read_back path).
Proof.
  intros w. unfold read_back. destruct (io_fails _); [by apply quiet_same|].
  destruct (fs w !! path); by apply quiet_same.
Qed.

Create HintDb quiet.
#[local] Hint Resolve quiet_refl quiet_trans quiet_log_error quiet_log_metric quiet_path_exists
  quiet_os_unlink quiet_append_temp_file quiet_named_temporary_file quiet_tmp_write
  quiet_excel_writer_close quiet_read_back quiet_call_without_job
  quiet_excel_writer_open quiet_clear_temp_files quiet_get_temp_files : quiet.

Ltac quiet_step :=
  first
    [ apply (steps_bind quiet quiet_trans)
    | apply (steps_try_except quiet quiet_trans)
    | apply (steps_try_finally quiet quiet_trans)
    | apply (steps_ret quiet quiet_refl)
    | apply quiet_st; simpl; first [ done | eexists; reflexivity ]
    | solve [auto with quiet]
    | match goal with
      | |- ∀ _, steps_within _ _ => intros ?
      | |- steps_within _ (if ?b then _ else _) => destruct b
      | |- steps_within _ (match ?x with _ => _ end) => destruct x
      end ].

Lemma quiet_save_uploads (uploaded_files : list Upload) (k : nat) :
  steps_within quiet (save_uploads k uploaded_files).
Proof.
  revert k. induction uploaded_files as [|u rest IH]; intros k; simpl;
    repeat quiet_step.
Qed.

Lemma quiet_cleanup_loop (files : list (string * string)) :
  steps_within quiet (cleanup_loop files).
Proof.
  induction files as [|[temp_path original_name] rest IH]; simpl; repeat quiet_step.
Qed.

Lemma quiet_analysis_loop (job_description : option string) (total : nat)
    (files : list (string * string)) :
  job_given job_description = false →
  ∀ i all_results, steps_within quiet (analysis_loop job_description total i files all_results).
Proof.
  intros Hjob. induction files as [|[temp_path original_name] rest IH];
    intros i all_results; simpl; rewrite ?Hjob; repeat quiet_step.
Qed.

Lemma quiet_show_results (job_description : option string)
    (all_results : list (AnalysisResult num)) :
  job_given job_description = false →
  steps_within quiet (show_results job_description all_results).
Proof.
  intros Hjob. unfold show_results. rewrite Hjob.
  destruct (truthy all_results); repeat quiet_step.
Qed.

#[local] Hint Resolve quiet_save_uploads quiet_cleanup_loop quiet_analysis_loop
  quiet_show_results : quiet.

Lemma quiet_batch_page (uploaded_files : list Upload) (use_job : bool) (job_text : string)
    (start : bool) :
  job_given (if use_job then Some job_text else None) = false →
  steps_within quiet (batch_page uploaded_files use_job job_text start).
Proof.
  intros Hjob. unfold batch_page.
  destruct (truthy uploaded_files && start); repeat quiet_step.
Qed.

Lemma analysis_loop_empty_job (total : nat) (files : list (string * string)) :
  ∀ i all_results w,
    analysis_loop (Some "") total i files all_results w
    = analysis_loop None total i files all_results w.
Proof.
  induction files as [|[temp_path original_name] rest IH]; intros i all_results w;
    simpl; [reflexivity|].
  unfold mbind, M_bind. destruct (st _ w) as [[[]|e] w1]; [|reflexivity].
  destruct (try_except _ _ w1) as [[results|e] w2]; [apply IH|reflexivity].
Qed.

(** C10: with the box ticked and the text area left empty, the page does
    what it does with the box not ticked, in every world and for every
    upload; the Analyzer is only called without a job description, and
    neither the ranking table nor the top candidates are shown. *)
Theorem empty_job_description_is_no_job_description (uploaded_files : list Upload)
    (start : bool) (w : World num) :
  batch_page uploaded_files true "" start w = batch_page uploaded_files false "" start w
  ∧ (∃ calls,
       analyzer_calls (snd (batch_page uploaded_files true "" start w))
       = analyzer_calls w ++ calls
       ∧ Forall (λ call, snd call = None) calls)
  ∧ (∃ widgets,
       screen (snd (batch_page uploaded_files true "" start w)) = screen w ++ widgets
       ∧ Forall plain_widget widgets).
Proof.
  split; [|exact (quiet_batch_page uploaded_files true "" start eq_refl w)].
  unfold batch_page. destruct (truthy uploaded_files && start); [|reflexivity].
  unfold mbind, M_bind. destruct (clear_temp_files w) as [[[]|e] w1]; [|reflexivity].
  unfold try_finally, try_except, batch_body, mbind, M_bind.
  destruct (save_uploads 0 uploaded_files w1) as [[[]|e] w2]; [|reflexivity].
  destruct (get_temp_files w2) as [[files|e] w3]; [|reflexivity].
  rewrite analysis_loop_empty_job. reflexivity.
Qed.
End QuietRuns.

(** ** Temporary files and the saved workbook *)

(** The page on the example host, from the empty world. *)
Definition run_example (faults : IOFaults) (uploaded_files : list Upload) (use_job : bool)
    (job_text : string) : outcome unit * World Z :=
  batch_page (SV := numpy_SortValues) (AN := example_analyzer)
             (TN := first_free_TempNamer) (IO := faults)
             uploaded_files use_job job_text true empty_world.

Section CleanupFacts.
Context {num : Type} {PN : PyNumber num} {SV : SortValues num} {JN : JsonNumber num}.
Context {AN : CVAnalyzer num} {TN : TempNamer} {IO : IOFaults}.

(** The [finally] loop never raises, deletes nothing but the files it is
    given, and leaves none of them behind. *)
Lemma cleanup_loop_removes (files : list (string * string)) (w : World num) :
  ∃ w', cleanup_loop files w = (Ok tt, w')
        ∧ temp_files w' = temp_files w
        ∧ (∀ path, path ∈ map fst files → fs w' !! path = None)
        ∧ (∀ path, fs w !! path = None → fs w' !! path = None)
        ∧ (∀ path, path ∉ map fst files → fs w' !! path = fs w !! path).
Proof.
  revert w. induction files as [|[temp_path original_name] rest IH]; intros w.
  - exists w. simpl. repeat split; try done. by intros path ?%elem_of_nil.
  - simpl. unfold mbind, M_bind, path_exists. simpl.
    destruct (fs w !! temp_path) as [file|] eqn:Hpath.
    + rewrite bool_decide_eq_true_2 by eauto. unfold os_unlink. rewrite Hpath.
      edestruct (IH (mkWorld (delete temp_path (fs w)) (screen w) (error_log w) (metrics w)
                             (unlink_log w ++ [temp_path]) (analyzer_calls w) (temp_files w)))
        as (w' & -> & Htf & Hgone & Hstay & Hother).
      exists w'. simpl in *. repeat split; [exact Htf|..].
      * intros path [->|Hin]%elem_of_cons; [|by apply Hgone].
        apply Hstay. apply lookup_delete_eq.
      * intros path Hnone. apply Hstay. rewrite lookup_delete_ne; [done|].
        intros ->. congruence.
      * intros path Hnot. rewrite not_elem_of_cons in Hnot. destruct Hnot as [Hne Hnot].
        rewrite Hother by done. by apply lookup_delete_ne.
    + rewrite bool_decide_eq_false_2 by (intros [? ?]; congruence). simpl.
      edestruct (IH w) as (w' & -> & Htf & Hgone & Hstay & Hother).
      exists w'. repeat split; [exact Htf|..].
      * intros path [->|Hin]%elem_of_cons; [by apply Hstay|by apply Hgone].
      * exact Hstay.
      * intros path Hnot. rewrite not_elem_of_cons in Hnot. apply Hother, Hnot.
Qed.

(** The page once the button is pressed over some uploads. *)
Lemma batch_page_started (uploaded_files : list Upload) (use_job : bool) (job_text : string)
    (w : World num) :
  uploaded_files ≠ [] →
  batch_page uploaded_files use_job job_text true w
  = try_finally
      (try_except (batch_body uploaded_files (if use_job then Some job_text else None))
                  batch_handler)
      cleanup (with_temp_files (λ _, []) w).
Proof. destruct uploaded_files as [|u rest]; [done|reflexivity]. Qed.

(** Whatever happens in the [try] block, the page does not raise, and no
    path that stands in [temp_files] is left on disk. *)
Lemma registered_temp_files_removed (uploaded_files : list Upload) (use_job : bool)
    (job_text : string) (w : World num) :
  uploaded_files ≠ [] →
  (∃ r, fst (batch_page uploaded_files use_job job_text true w) = Ok r)
  ∧ ∀ path,
      path ∈ map fst (temp_files (snd (batch_page uploaded_files use_job job_text true w))) →
      fs (snd (batch_page uploaded_files use_job job_text true w)) !! path = None.
Proof.
  intros Hne. rewrite batch_page_started by done. unfold try_finally.
  destruct (try_except _ _ _) as [r w1] eqn:Htry.
  assert (Hok : ∃ a, r = Ok a).
  { unfold try_except in Htry. destruct (batch_body _ _ _) as [[a|e] w0].
    - injection Htry as <- _. eauto.
    - unfold batch_handler, mbind, M_bind in Htry. simpl in Htry.
      injection Htry as <- _. eauto. }
  unfold cleanup, mbind, M_bind, get_temp_files.
  destruct (cleanup_loop_removes (temp_files w1) w1) as (w2 & -> & Htf & Hgone & _).
  simpl. destruct Hok as [a ->]. split; [eauto|]. rewrite Htf. apply Hgone.
Qed.

(** When saving and reading back both work, the export leaves no workbook
    behind. *)
Lemma export_batch_removes_workbook (overview : DataFrame num)
    (all_results : list (AnalysisResult num)) (w : World num) :
  io_fails ExcelClose = false → io_fails ExcelRead = false →
  fst (export_batch overview all_results w) = Ok tt
  ∧ fs (snd (export_batch overview all_results w)) !! excel_path = None.
Proof.
  intros Hclose Hread. unfold export_batch, mbind, M_bind. simpl.
  unfold excel_writer_close. rewrite Hclose. simpl.
  unfold read_back. rewrite Hread. simpl.
  rewrite lookup_insert_eq. simpl.
  unfold path_exists. simpl. rewrite lookup_insert_eq.
  rewrite bool_decide_eq_true_2 by eauto.
  unfold os_unlink. simpl. rewrite lookup_insert_eq. simpl.
  split; [reflexivity|apply lookup_delete_eq].
Qed.
End CleanupFacts.

(** A batch of three uploads on a healthy disk: the three temporary files
    and the workbook are deleted, each once, and nothing is left. *)
Lemma healthy_run_leaves_nothing :
  fst (run_example no_faults [upload_cv; upload_bad; upload_short] true "python") = Ok tt
  ∧ temp_files (snd (run_example no_faults [upload_cv; upload_bad; upload_short] true "python"))
    = [("/tmp/tmp0.pdf", "cv.pdf"); ("/tmp/tmp0.docx", "bad.docx");
       ("/tmp/tmp1.pdf", "short.pdf")]
  ∧ unlink_log (snd (run_example no_faults [upload_cv; upload_bad; upload_short] true "python"))
    = ["batch_analysis.xlsx"; "/tmp/tmp0.pdf"; "/tmp/tmp0.docx"; "/tmp/tmp1.pdf"]
  ∧ map_to_list (fs (snd (run_example no_faults [upload_cv; upload_bad; upload_short]
                                      true "python"))) = [].
Proof. vm_compute. repeat split; reflexivity. Qed.

(** C3: the code breaks the claim when the bytes of an upload cannot be
    written.  [NamedTemporaryFile] has put the file on disk, [tmp.write]
    raises, and the path is never appended to [temp_files]: the page
    reports the failure, the [finally] block finds nothing to delete, and
    the temporary file stays. *)
Theorem temp_file_left_when_write_fails :
  fst (run_example first_write_fails [upload_cv] false "") = Ok tt
  ∧ error_log (snd (run_example first_write_fails [upload_cv] false ""))
    = [("No space left on device", "batch_analysis")]
  ∧ temp_files (snd (run_example first_write_fails [upload_cv] false "")) = []
  ∧ unlink_log (snd (run_example first_write_fails [upload_cv] false "")) = []
  ∧ fs (snd (run_example first_write_fails [upload_cv] false "")) !! "/tmp/tmp0.pdf"
    = Some (Bytes "").
Proof. vm_compute. repeat split; reflexivity. Qed.

(** C9: the code breaks the claim when the saved workbook cannot be read
    back.  [open] raises after [excel_buffer.close()] has saved the file;
    the [os.unlink] of line 505 is skipped, the [finally] block deletes the
    temporary files only, and "batch_analysis.xlsx" stays on disk. *)
Theorem workbook_left_when_read_back_fails :
  fst (run_example read_back_fails [upload_cv] false "") = Ok tt
  ∧ error_log (snd (run_example read_back_fails [upload_cv] false ""))
    = [("Input/output error", "batch_analysis")]
  ∧ unlink_log (snd (run_example read_back_fails [upload_cv] false "")) = ["/tmp/tmp0.pdf"]
  ∧ map fst (map_to_list (fs (snd (run_example read_back_fails [upload_cv] false ""))))
    = ["batch_analysis.xlsx"]
  ∧ (∃ sheets, fs (snd (run_example read_back_fails [upload_cv] false "")) !! excel_path
               = Some (Workbook sheets) ∧ length sheets = 2).
Proof.
  vm_compute. repeat split; try reflexivity. eexists. split; reflexivity.
Qed.

(** ** JSON text read back *)

Section JsonStrings.

Lemma string_app_assoc (s1 s2 s3 : string) : (s1 +:+ s2) +:+ s3 = s1 +:+ (s2 +:+ s3).
Proof.
  induction s1 as [|c s1 IH]; [reflexivity|].
  change (String c ((s1 +:+ s2) +:+ s3) = String c (s1 +:+ (s2 +:+ s3))). by rewrite IH.
Qed.

(** The two hexadecimal digits of a code point are read back as it. *)
Definition hex_round_trip (c : ascii) : bool :=
  match decode_hex4 "0" "0" (hex_digit (nat_of_ascii c / 16))
                    (hex_digit (nat_of_ascii c mod 16)) with
  | Some c' => Ascii.eqb c' c
  | None => false
  end.

Lemma hex_round_trip_all : forallb (λ n, hex_round_trip (ascii_of_nat n)) (seq 0 256) = true.
Proof. vm_compute. reflexivity. Qed.

Lemma decode_hex4_of_char (c : ascii) :
  decode_hex4 "0" "0" (hex_digit (nat_of_ascii c / 16)) (hex_digit (nat_of_ascii c mod 16))
  = Some c.
Proof.
  pose proof hex_round_trip_all as Hall. rewrite forallb_forall in Hall.
  specialize (Hall (nat_of_ascii c)). rewrite ascii_nat_embedding in Hall.
  unfold hex_round_trip in Hall.
  destruct (decode_hex4 _ _ _ _) as [c'|].
  - f_equal. apply Ascii.eqb_eq, Hall, in_seq. pose proof (nat_ascii_bounded c). lia.
  - discriminate Hall. apply in_seq. pose proof (nat_ascii_bounded c). lia.
Qed.

Lemma scanstring_unicode (a b c d ch : ascii) (tail : string) :
  decode_hex4 a b c d = Some ch →
  scanstring (String "\" (String "u" (String a (String b (String c (String d tail))))))
  = match scanstring tail with
    | Some (text, r) => Some (String ch text, r)
    | None => None
    end.
Proof.
  intros Hdec.
  change (scanstring (String "\" (String "u" (String a (String b (String c (String d tail)))))))
    with (ch0 ← decode_hex4 a b c d; '(text, r) ← scanstring tail; Some (String ch0 text, r)).
  rewrite Hdec. simpl. by destruct (scanstring tail) as [[text r]|].
Qed.

Lemma scanstring_plain (c : ascii) (tail : string) :
  Ascii.eqb c dquote = false → Ascii.eqb c "\" = false → (nat_of_ascii c <? 32)%nat = false →
  scanstring (String c tail)
  = match scanstring tail with
    | Some (text, r) => Some (String c text, r)
    | None => None
    end.
Proof.
  intros Hq Hb Hctl. simpl. rewrite Hq, Hb, Hctl. by destruct (scanstring tail) as [[text r]|].
Qed.

Lemma scanstring_backslash (esc ch : ascii) (tail : string) :
  Ascii.eqb esc "u" = false → backslash esc = Some ch →
  scanstring (String "\" (String esc tail))
  = match scanstring tail with
    | Some (text, r) => Some (String ch text, r)
    | None => None
    end.
Proof.
  intros Hu Hesc. simpl. rewrite Hu, Hesc. simpl. by destruct (scanstring tail) as [[text r]|].
Qed.

Lemma ascii_of_code (c : ascii) (n : nat) : (nat_of_ascii c =? n)%nat = true → c = ascii_of_nat n.
Proof. intros Heq%Nat.eqb_eq. by rewrite <- Heq, ascii_nat_embedding. Qed.

(** One escaped character is read back as that character. *)
Lemma scanstring_escape_char (c : ascii) (tail : string) :
  scanstring (escape_char c +:+ tail)
  = match scanstring tail with
    | Some (text, r) => Some (String c text, r)
    | None => None
    end.
Proof.
  unfold escape_char.
  destruct (Ascii.eqb c dquote) eqn:Hq.
  { apply Ascii.eqb_eq in Hq as ->. by apply (scanstring_backslash dquote). }
  destruct (Ascii.eqb c "\") eqn:Hb.
  { apply Ascii.eqb_eq in Hb as ->. by apply (scanstring_backslash "\"%char). }
  destruct (nat_of_ascii c =? 10)%nat eqn:H10.
  { apply ascii_of_code in H10 as ->. by apply (scanstring_backslash "n"%char). }
  destruct (nat_of_ascii c =? 13)%nat eqn:H13.
  { apply ascii_of_code in H13 as ->. by apply (scanstring_backslash "r"%char). }
  destruct (nat_of_ascii c =? 9)%nat eqn:H9.
  { apply ascii_of_code in H9 as ->. by apply (scanstring_backslash "t"%char). }
  destruct (nat_of_ascii c =? 8)%nat eqn:H8.
  { apply ascii_of_code in H8 as ->. by apply (scanstring_backslash "b"%char). }
  destruct (nat_of_ascii c =? 12)%nat eqn:H12.
  { apply ascii_of_code in H12 as ->. by apply (scanstring_backslash "f"%char). }
  destruct ((32 <=? nat_of_ascii c)%nat && (nat_of_ascii c <=? 126)%nat) eqn:Hprint.
  { apply andb_prop in Hprint as [Hlo%Nat.leb_le Hhi].
    change (String c "" +:+ tail) with (String c tail).
    apply scanstring_plain; [done|done|]. apply Nat.ltb_ge. exact Hlo. }
  change (scanstring (String "\" (String "u" (String "0" (String "0"
            (String (hex_digit (nat_of_ascii c / 16))
               (String (hex_digit (nat_of_ascii c mod 16)) tail))))))
          = match scanstring tail with
            | Some (text, r) => Some (String c text, r)
            | None => None
            end).
  apply scanstring_unicode, decode_hex4_of_char.
Qed.

Lemma scanstring_escape_string (s rest : string) :
  scanstring (escape_string s +:+ String dquote rest) = Some (s, rest).
Proof.
  induction s as [|c s IH]; [reflexivity|].
  change (escape_string (String c s)) with (escape_char c +:+ escape_string s).
  rewrite string_app_assoc, scanstring_escape_char, IH. reflexivity.
Qed.
End JsonStrings.

Section JsonRoundTrip.
Context {num : Type} {JN : JsonNumber num}.

Lemma json_nested_ind (P : json num → Prop) :
  P JNull → (∀ b, P (JBool b)) → (∀ n, P (JNum n)) → (∀ s, P (JStr s)) →
  (∀ l, Forall P l → P (JList l)) →
  (∀ d, Forall (λ kv, P (snd kv)) d → P (JDict d)) →
  ∀ v, P v.
Proof.
  intros Hnull Hbool Hnum Hstr Hlist Hdict.
  fix IH 1. intros [|b|n|s|l|d].
  - exact Hnull.
  - apply Hbool.
  - apply Hnum.
  - apply Hstr.
  - apply Hlist. induction l as [|x l IHl]; constructor; [apply IH|exact IHl].
  - apply Hdict. induction d as [|[k x] d IHd]; constructor; [apply IH|exact IHd].
Qed.

(** A fact about all 256 characters follows from checking each. *)
Lemma ascii_forall (P : ascii → bool) :
  forallb (λ n, P (ascii_of_nat n)) (seq 0 256) = true → ∀ c, P c = true.
Proof.
  intros Hall c. rewrite forallb_forall in Hall.
  specialize (Hall (nat_of_ascii c)). rewrite ascii_nat_embedding in Hall.
  apply Hall, in_seq. pose proof (nat_ascii_bounded c). lia.
Qed.

Lemma value_start_facts (c : ascii) :
  value_start c = true →
  is_ws c = false ∧ Ascii.eqb c "]" = false ∧ Ascii.eqb c "}" = false.
Proof.
  intros Hc.
  assert (Hall := ascii_forall
    (λ c, implb (value_start c)
            (negb (is_ws c) && negb (Ascii.eqb c "]") && negb (Ascii.eqb c "}")))
    ltac:(vm_compute; reflexivity) c).
  simpl in Hall. rewrite Hc in Hall. simpl in Hall.
  apply andb_prop in Hall as [[H1%negb_true_iff H2%negb_true_iff]%andb_prop H3%negb_true_iff].
  done.
Qed.

Lemma number_start_facts (c : ascii) :
  is_number_start c = true →
  Ascii.eqb c dquote = false ∧ Ascii.eqb c "{" = false ∧ Ascii.eqb c "[" = false
  ∧ Ascii.eqb c "n" = false ∧ Ascii.eqb c "t" = false ∧ Ascii.eqb c "f" = false.
Proof.
  intros Hc.
  assert (Hall := ascii_forall
    (λ c, implb (is_number_start c)
            (negb (Ascii.eqb c dquote) && negb (Ascii.eqb c "{") && negb (Ascii.eqb c "[")
             && negb (Ascii.eqb c "n") && negb (Ascii.eqb c "t") && negb (Ascii.eqb c "f")))
    ltac:(vm_compute; reflexivity) c).
  simpl in Hall. rewrite Hc in Hall. simpl in Hall.
  repeat (apply andb_prop in Hall as [Hall ?%negb_true_iff]).
  apply negb_true_iff in Hall. done.
Qed.

#[local] Arguments String.app !_ _ / : simpl nomatch.

Lemma span_number_token (s rest : string) :
  string_forallb is_number_char s = true → number_stop rest = true →
  span_number (s +:+ rest) = (s, rest).
Proof.
  intros Hs Hrest. induction s as [|c s IH]; simpl.
  - destruct rest as [|c r]; [reflexivity|]. simpl in *.
    apply negb_true_iff in Hrest. by rewrite Hrest.
  - simpl in Hs. apply andb_prop in Hs as [Hc Hs]. rewrite Hc, (IH Hs). reflexivity.
Qed.

Lemma skip_ws_spaces (n : nat) (s : string) : skip_ws (spaces n +:+ s) = skip_ws s.
Proof. induction n as [|n IH]; simpl; [reflexivity|exact IH]. Qed.

Lemma skip_ws_newline_indent (level : nat) (s : string) :
  skip_ws (newline_indent level +:+ s) = skip_ws s.
Proof. unfold newline_indent. simpl. apply skip_ws_spaces. Qed.

Lemma skip_ws_start (c : ascii) (s : string) : is_ws c = false → skip_ws (String c s) = String c s.
Proof. intros Hc. simpl. by rewrite Hc. Qed.

Lemma skip_ws_ws (c : ascii) (s : string) : is_ws c = true → skip_ws (String c s) = skip_ws s.
Proof. intros Hc. simpl. by rewrite Hc. Qed.

Lemma number_stop_newline_indent (level : nat) (s : string) :
  number_stop (newline_indent level +:+ s) = true.
Proof. reflexivity. Qed.

(** Every encoded value starts with a character a value can start with. *)
Lemma iterencode_start (level : nat) (v : json num) :
  ∃ c s, iterencode level v = String c s ∧ value_start c = true.
Proof.
  destruct v as [|[]|n|s|[|x l]|[|kv d]]; try (by eexists _, _).
  destruct (num_repr_start n) as (c & s & Hrepr & Hc).
  exists c, s. split; [exact Hrepr|]. unfold value_start. rewrite Hc.
  by rewrite !orb_true_r.
Qed.

Lemma skip_ws_iterencode (level : nat) (v : json num) (rest : string) :
  skip_ws (iterencode level v +:+ rest) = iterencode level v +:+ rest.
Proof.
  destruct (iterencode_start level v) as (c & s & -> & Hc).
  apply value_start_facts in Hc as (Hws & _). simpl. by rewrite Hws.
Qed.

#[local] Arguments span_number : simpl never.
#[local] Arguments scanstring : simpl never.
#[local] Arguments skip_ws : simpl never.
#[local] Opaque newline_indent.
#[local] Arguments iterencode : simpl never.
#[local] Arguments join_items : simpl never.
#[local] Arguments escape_string : simpl never.

(** [v] is read back from its text, whatever follows it. *)
Definition decodes (v : json num) : Prop :=
  ∀ (level : nat) (rest : string) (fuel : nat),
    (weight v ≤ fuel)%nat → number_stop rest = true →
    scan_once fuel (iterencode level v +:+ rest) = Some (v, rest).

Lemma decodes_number (n : num) : decodes (JNum n).
Proof.
  intros level rest [|fuel] Hfuel Hstop; [simpl in Hfuel; lia|].
  pose proof (span_number_token (num_repr n) rest (num_repr_chars n) Hstop) as Hspan.
  change (iterencode level (JNum n)) with (num_repr n).
  destruct (num_repr_start n) as (c & s & Hrepr & Hc).
  rewrite Hrepr in Hspan at 1. rewrite Hrepr at 1.
  destruct (number_start_facts c Hc) as (H1 & H2 & H3 & H4 & H5 & H6).
  simpl. rewrite H1, H2, H3, H4, H5, H6, Hc.
  simpl in Hspan. rewrite Hspan, num_parse_repr. reflexivity.
Qed.

Lemma decodes_string (s : string) : decodes (JStr s).
Proof.
  intros level rest [|fuel] Hfuel Hstop; [simpl in Hfuel; lia|].
  change (iterencode level (JStr s)) with (String dquote (escape_string s +:+ String dquote "")).
  simpl. rewrite string_app_assoc. simpl.
  rewrite scanstring_escape_string. reflexivity.
Qed.

Lemma join_items_start (level level' : nat) (x : json num) (l : list (json num)) (rest : string) :
  ∃ c s, join_items level (map (iterencode level') (x :: l)) +:+ rest = String c s
         ∧ value_start c = true.
Proof.
  destruct (iterencode_start level' x) as (c & s & Hx & Hc).
  destruct l as [|y l].
  - change (join_items level (map (iterencode level') [x])) with (iterencode level' x).
    rewrite Hx. by eexists _, _.
  - change (join_items level (map (iterencode level') (x :: y :: l)))
      with (iterencode level' x +:+ "," +:+ newline_indent level
            +:+ join_items level (map (iterencode level') (y :: l))).
    rewrite Hx. by eexists _, _.
Qed.

Lemma scan_items_join (level : nat) (rest : string) (l : list (json num)) :
  l ≠ [] → Forall decodes l →
  ∀ fuel, (list_sum (map (λ x, S (weight x)) l) ≤ fuel)%nat →
  scan_items fuel (join_items (S level) (map (iterencode (S level)) l)
                   +:+ newline_indent level +:+ String "]" rest)
  = Some (l, rest).
Proof.
  intros Hne Hall. induction Hall as [|x l Hx Hl IH]; [done|]. clear Hne.
  intros [|fuel] Hfuel; [simpl in Hfuel; lia|]. simpl in Hfuel.
  destruct l as [|y l].
  - change (join_items (S level) (map (iterencode (S level)) [x]))
      with (iterencode (S level) x).
    simpl. rewrite Hx by (apply number_stop_newline_indent || lia). simpl.
    rewrite skip_ws_newline_indent. rewrite skip_ws_start by done. reflexivity.
  - change (join_items (S level) (map (iterencode (S level)) (x :: y :: l)))
      with (iterencode (S level) x +:+ "," +:+ newline_indent (S level)
            +:+ join_items (S level) (map (iterencode (S level)) (y :: l))).
    rewrite !string_app_assoc.
    simpl. rewrite Hx by (done || lia). simpl.
    change (iterencode (S level) y :: map (iterencode (S level)) l)
      with (map (iterencode (S level)) (y :: l)).
    rewrite skip_ws_newline_indent.
    destruct (join_items_start (S level) (S level) y l
                (newline_indent level +:+ String "]" rest)) as (c & s & Hjoin & Hc).
    pose proof (IH ltac:(done) fuel ltac:(simpl in *; lia)) as Hrest.
    rewrite Hjoin in Hrest |- *.
    apply value_start_facts in Hc as (Hws & _).
    rewrite skip_ws_start by done. rewrite Hrest. reflexivity.
Qed.

Lemma decodes_list (l : list (json num)) : Forall decodes l → decodes (JList l).
Proof.
  intros Hall level rest [|fuel] Hfuel Hstop; [simpl in Hfuel; lia|].
  destruct l as [|x l]; [reflexivity|].
  change (iterencode level (JList (x :: l)))
    with ("[" +:+ newline_indent (S level)
          +:+ join_items (S level) (map (iterencode (S level)) (x :: l))
          +:+ newline_indent level +:+ "]").
  rewrite !string_app_assoc. simpl.
  change (iterencode (S level) x :: map (iterencode (S level)) l)
    with (map (iterencode (S level)) (x :: l)).
  rewrite skip_ws_newline_indent.
  destruct (join_items_start (S level) (S level) x l
              (newline_indent level +:+ String "]" rest)) as (c & s & Hjoin & Hc).
  pose proof (scan_items_join level rest (x :: l) ltac:(done) Hall fuel
                ltac:(simpl in *; lia)) as Hitems.
  rewrite Hjoin in Hitems |- *.
  apply value_start_facts in Hc as (Hws & Hbr & _).
  rewrite skip_ws_start by done. rewrite Hbr, Hitems. reflexivity.
Qed.

Lemma dict_set_fresh {V} (key : string) (value : V) (d : list (string * V)) :
  key ∉ map fst d → dict_set key value d = d ++ [(key, value)].
Proof.
  induction d as [|[k v] d IH]; intros Hfresh; simpl; [reflexivity|].
  simpl in Hfresh. apply not_elem_of_cons in Hfresh as [Hne Hfresh].
  destruct (String.eqb key k) eqn:Heq; [by apply String.eqb_eq in Heq|].
  by rewrite IH.
Qed.

Lemma dict_of_pairs_acc {V} (pairs acc : list (string * V)) :
  NoDup (map fst (acc ++ pairs)) →
  fold_left (λ d kv, dict_set (fst kv) (snd kv) d) pairs acc = acc ++ pairs.
Proof.
  revert acc. induction pairs as [|[k v] pairs IH]; intros acc Hnodup; simpl.
  - by rewrite app_nil_r.
  - rewrite dict_set_fresh.
    + rewrite IH; [by rewrite <- app_assoc|]. by rewrite <- app_assoc.
    + rewrite map_app in Hnodup. apply NoDup_app in Hnodup as (_ & Hdisj & _).
      intros Hin. apply (Hdisj k Hin). simpl. apply elem_of_cons. by left.
Qed.

Lemma dict_of_pairs_dict {V} (d : list (string * V)) :
  NoDup (map fst d) → dict_of_pairs d = d.
Proof. intros Hnodup. unfold dict_of_pairs. by rewrite dict_of_pairs_acc. Qed.

(** The text of one entry of a dictionary. *)
Definition entry_chunk (level : nat) (kv : string * json num) : string :=
  encode_string (fst kv) +:+ ": " +:+ iterencode level (snd kv).

Lemma scan_pairs_join (level : nat) (rest : string) (d : list (string * json num)) :
  d ≠ [] → Forall (λ kv, decodes (snd kv)) d →
  ∀ fuel, (list_sum (map (λ kv, S (weight (snd kv))) d) ≤ fuel)%nat →
  ∃ text,
    join_items (S level) (map (entry_chunk (S level)) d)
    +:+ newline_indent level +:+ String "}" rest
    = String dquote text
    ∧ scan_pairs fuel text = Some (d, rest).
Proof.
  intros Hne Hall. induction Hall as [|[k x] d Hx Hd IH]; [done|]. clear Hne.
  intros [|fuel] Hfuel; [simpl in Hfuel; lia|]. simpl in Hfuel, Hx.
  destruct d as [|kv d].
  - change (join_items (S level) (map (entry_chunk (S level)) [(k, x)]))
      with (String dquote (escape_string k +:+ String dquote "")
            +:+ ": " +:+ iterencode (S level) x).
    rewrite !string_app_assoc. simpl. rewrite !string_app_assoc. simpl.
    eexists. split; [reflexivity|].
    simpl. rewrite scanstring_escape_string. simpl.
    rewrite skip_ws_ws by done. rewrite skip_ws_iterencode.
    rewrite Hx by (apply number_stop_newline_indent || lia). simpl.
    rewrite skip_ws_newline_indent. rewrite skip_ws_start by done. reflexivity.
  - change (join_items (S level) (map (entry_chunk (S level)) ((k, x) :: kv :: d)))
      with ((String dquote (escape_string k +:+ String dquote "")
             +:+ ": " +:+ iterencode (S level) x)
            +:+ "," +:+ newline_indent (S level)
            +:+ join_items (S level) (map (entry_chunk (S level)) (kv :: d))).
    rewrite !string_app_assoc. simpl. rewrite !string_app_assoc. simpl.
    eexists. split; [reflexivity|].
    simpl. rewrite scanstring_escape_string. simpl.
    rewrite skip_ws_ws by done. rewrite skip_ws_iterencode.
    rewrite Hx by (done || lia). simpl.
    change (entry_chunk (S level) kv :: map (entry_chunk (S level)) d)
      with (map (entry_chunk (S level)) (kv :: d)).
    rewrite skip_ws_newline_indent.
    destruct (IH ltac:(done) fuel ltac:(simpl in *; lia)) as (text & Htext & Hscan).
    rewrite Htext. rewrite skip_ws_start by done. simpl. rewrite Hscan. reflexivity.
Qed.

Lemma decodes_dict (d : list (string * json num)) :
  NoDup (map fst d) → Forall (λ kv, decodes (snd kv)) d → decodes (JDict d).
Proof.
  intros Hnodup Hall level rest [|fuel] Hfuel Hstop; [simpl in Hfuel; lia|].
  destruct d as [|kv d]; [reflexivity|].
  change (iterencode level (JDict (kv :: d)))
    with ("{" +:+ newline_indent (S level)
          +:+ join_items (S level) (map (entry_chunk (S level)) (kv :: d))
          +:+ newline_indent level +:+ "}").
  rewrite !string_app_assoc. simpl.
  change (entry_chunk (S level) kv :: map (entry_chunk (S level)) d)
    with (map (entry_chunk (S level)) (kv :: d)).
  rewrite skip_ws_newline_indent.
  destruct (scan_pairs_join level rest (kv :: d) ltac:(done) Hall fuel
              ltac:(simpl in *; lia)) as (text & Htext & Hscan).
  rewrite Htext. rewrite skip_ws_start by done. simpl.
  rewrite Hscan. simpl. by rewrite dict_of_pairs_dict.
Qed.

(** Every value whose dictionaries are dictionaries is read back from its
    text. *)
Lemma json_wf_decodes (v : json num) : json_wf v → decodes v.
Proof.
  induction v as [|b|n|s|l IH|d IH] using json_nested_ind; intros Hwf.
  - by intros level rest [|fuel] Hfuel Hstop; [simpl in Hfuel; lia|].
  - by intros level rest [|fuel] Hfuel Hstop; [simpl in Hfuel; lia|destruct b].
  - apply decodes_number.
  - apply decodes_string.
  - inversion Hwf as [| | | |l' Hl|]; subst. apply decodes_list.
    rewrite Forall_forall in IH, Hl |- *. intros x Hx. by apply IH, Hl.
  - inversion Hwf as [| | | | |d' Hnodup Hd]; subst. apply decodes_dict; [done|].
    rewrite Forall_forall in IH, Hd |- *. intros kv Hkv. by apply IH, Hd.
Qed.

Lemma string_app_nil_r (s : string) : s +:+ "" = s.
Proof. induction s as [|c s IH]; simpl; [reflexivity|]. by rewrite IH. Qed.

Lemma join_items_length_count (level : nat) (chunks : list string) :
  (list_sum (map (λ c, S (String.length c)) chunks)
   ≤ S (String.length (join_items level chunks)))%nat.
Proof.
  induction chunks as [|c [|c' chunks] IH];
    [simpl; lia|change (join_items level [c]) with c; simpl; lia|].
  change (join_items level (c :: c' :: chunks))
    with (c +:+ "," +:+ newline_indent level +:+ join_items level (c' :: chunks)).
  rewrite !string_length_app.
  change (list_sum (map (λ c0, S (String.length c0)) (c :: c' :: chunks)))
    with (S (String.length c) + list_sum (map (λ c0, S (String.length c0)) (c' :: chunks)))%nat.
  change (String.length ",") with 1. lia.
Qed.

Lemma item_weights_le_lengths (level : nat) (l : list (json num)) :
  Forall (λ x, ∀ level, (weight x ≤ String.length (iterencode level x))%nat) l →
  (list_sum (map (λ x, S (weight x)) l)
   ≤ list_sum (map (λ c, S (String.length c)) (map (iterencode level) l)))%nat.
Proof.
  induction 1 as [|x l Hx Hl IH]; simpl; [lia|]. specialize (Hx level). lia.
Qed.

Lemma entry_chunk_length (level : nat) (kv : string * json num) :
  (String.length (iterencode level (snd kv)) ≤ String.length (entry_chunk level kv))%nat.
Proof. unfold entry_chunk. rewrite !string_length_app. lia. Qed.

Lemma entry_weights_le_lengths (level : nat) (d : list (string * json num)) :
  Forall (λ kv, ∀ level, (weight (snd kv) ≤ String.length (iterencode level (snd kv)))%nat) d →
  (list_sum (map (λ kv, S (weight (snd kv))) d)
   ≤ list_sum (map (λ c, S (String.length c)) (map (entry_chunk level) d)))%nat.
Proof.
  induction 1 as [|kv d Hkv Hd IH]; [simpl; lia|]. specialize (Hkv level).
  pose proof (entry_chunk_length level kv) as Hlen.
  change (map (entry_chunk level) (kv :: d))
    with (entry_chunk level kv :: map (entry_chunk level) d).
  revert Hlen. generalize (entry_chunk level kv). intros chunk Hlen. simpl. lia.
Qed.

(** The nesting a value needs is at most the length of its text. *)
Lemma weight_le_length (v : json num) :
  ∀ level, (weight v ≤ String.length (iterencode level v))%nat.
Proof.
  induction v as [|b|n|s|l IH|d IH] using json_nested_ind; intros level.
  - simpl. lia.
  - destruct b; simpl; lia.
  - change (iterencode level (JNum n)) with (num_repr n).
    destruct (num_repr_start n) as (c & s & -> & _). simpl. lia.
  - simpl. lia.
  - destruct l as [|x l]; [simpl; lia|].
    change (iterencode level (JList (x :: l)))
      with ("[" +:+ newline_indent (S level)
            +:+ join_items (S level) (map (iterencode (S level)) (x :: l))
            +:+ newline_indent level +:+ "]").
    rewrite !string_length_app.
    pose proof (join_items_length_count (S level) (map (iterencode (S level)) (x :: l))) as Hjoin.
    pose proof (item_weights_le_lengths (S level) (x :: l) IH) as Hsum.
    change (weight (JList (x :: l))) with (S (list_sum (map (λ x, S (weight x)) (x :: l)))).
    change (String.length "[") with 1. change (String.length "]") with 1. lia.
  - destruct d as [|kv d]; [simpl; lia|].
    change (iterencode level (JDict (kv :: d)))
      with ("{" +:+ newline_indent (S level)
            +:+ join_items (S level) (map (entry_chunk (S level)) (kv :: d))
            +:+ newline_indent level +:+ "}").
    rewrite !string_length_app.
    pose proof (join_items_length_count (S level) (map (entry_chunk (S level)) (kv :: d))) as Hjoin.
    pose proof (entry_weights_le_lengths (S level) (kv :: d) IH) as Hsum.
    change (weight (JDict (kv :: d)))
      with (S (list_sum (map (λ kv, S (weight (snd kv))) (kv :: d)))).
    change (String.length "{") with 1. change (String.length "}") with 1. lia.
Qed.

(** [json.loads(json.dumps(v, indent=2))] gives [v] back. *)
Lemma json_loads_dumps (v : json num) : json_wf v → json_loads (json_dumps v) = Some v.
Proof.
  intros Hwf. unfold json_loads, json_dumps.
  pose proof (skip_ws_iterencode 0 v "") as Hskip. rewrite string_app_nil_r in Hskip.
  rewrite Hskip.
  pose proof (json_wf_decodes v Hwf 0 "" (2 * String.length (iterencode 0 v) + 2)) as Hdec.
  rewrite string_app_nil_r in Hdec. rewrite Hdec; [reflexivity| |reflexivity].
  pose proof (weight_le_length v 0). lia.
Qed.
End JsonRoundTrip.

(** ** The JSON export of a batch *)

Section JsonExport.
Context {num : Type} {JN : JsonNumber num}.

Lemma opt_field_keys {A} (key : string) (f : A → json num) (o : option A) :
  map fst (opt_field key f o) `sublist_of` [key].
Proof. destruct o; simpl; [reflexivity|apply sublist_nil_l]. Qed.

Lemma opt_field_wf {A} (key : string) (f : A → json num) (o : option A) :
  (∀ a, o = Some a → json_wf (f a)) →
  Forall (λ kv, json_wf (snd kv)) (opt_field key f o).
Proof. intros Hwf. destruct o; simpl; repeat constructor. by apply Hwf. Qed.

Lemma experience_to_json_wf (e : ExperienceEntry num) : json_wf (experience_to_json e).
Proof.
  unfold experience_to_json. constructor.
  - apply (sublist_NoDup _ ["title"; "company"; "start_date"; "end_date"; "duration"]).
    + apply (bool_decide_unpack _). vm_compute. reflexivity.
    + rewrite !map_app.
      repeat (apply (sublist_app _ [_]); [apply opt_field_keys|]). apply opt_field_keys.
  - repeat (apply Forall_app; split); apply opt_field_wf; intros; constructor.
Qed.

Lemma scores_to_json_wf (d : list (string * num)) :
  NoDup (map fst d) → json_wf (scores_to_json d).
Proof.
  intros Hnodup. unfold scores_to_json. constructor.
  - by rewrite map_map.
  - apply Forall_forall. intros kv Hkv. apply list_elem_of_fmap in Hkv as (x & -> & _). constructor.
Qed.

Lemma result_to_json_wf (r : AnalysisResult num) :
  result_is_dict r → json_wf (result_to_json r).
Proof.
  intros [Hskills Hmissing]. unfold result_to_json. constructor.
  - apply (sublist_NoDup _ ["profession"; "experience_level"; "relevance_score"; "skills";
                            "experience"; "missing_skills"; "recommendations"; "filename"]).
    + apply (bool_decide_unpack _). vm_compute. reflexivity.
    + rewrite !map_app.
      repeat (apply (sublist_app _ [_]); [apply opt_field_keys|]). apply opt_field_keys.
  - repeat (apply Forall_app; split); apply opt_field_wf; intros a Ha.
    + constructor.
    + constructor.
    + constructor.
    + apply scores_to_json_wf. by rewrite Ha in Hskills.
    + constructor. apply Forall_forall. intros v Hv.
      apply list_elem_of_fmap in Hv as (e & -> & _). apply experience_to_json_wf.
    + apply scores_to_json_wf. by rewrite Ha in Hmissing.
    + constructor. apply Forall_forall. intros v Hv.
      apply list_elem_of_fmap in Hv as (e & -> & _). constructor.
    + constructor.
Qed.

Lemma dict_get_app {V} (key : string) (d1 d2 : list (string * V)) :
  key ∉ map fst d1 → dict_get key (d1 ++ d2) = dict_get key d2.
Proof.
  induction d1 as [|[k v] d1 IH]; intros Hnot; simpl; [reflexivity|].
  simpl in Hnot. apply not_elem_of_cons in Hnot as [Hne Hnot].
  destruct (String.eqb key k) eqn:Heq; [by apply String.eqb_eq in Heq|]. by apply IH.
Qed.

Lemma filename_in_json (name : string) (r : AnalysisResult num) :
  json_get "filename" (result_to_json (set_filename name r)) = Some (JStr name).
Proof.
  unfold result_to_json, json_get. simpl.
  rewrite !app_assoc. rewrite dict_get_app; [reflexivity|].
  rewrite !map_app. rewrite !elem_of_app.
  assert (Hkey : ∀ A key (f : A → json num) o,
             key ≠ "filename" → "filename" ∉ map fst (opt_field key f o)).
  { intros A key f o Hne. destruct o; simpl; [|apply not_elem_of_nil].
    intros [Heq|[]%elem_of_nil]%elem_of_cons. by apply Hne. }
  intros [[[[[[H|H]|H]|H]|H]|H]|H]; revert H; by apply Hkey.
Qed.

End JsonExport.


(** ** Temporary files when every write succeeds *)

Section HealthyWrites.
Context {num : Type} {PN : PyNumber num} {SV : SortValues num} {JN : JsonNumber num}.
Context {AN : CVAnalyzer num} {TN : TempNamer} {IO : IOFaults}.

(** [temp_files] is the same list before and after. *)
Definition keeps_temp_files (w w' : World num) : Prop := temp_files w' = temp_files w.

Lemma keeps_refl (w : World num) : keeps_temp_files w w.
Proof. reflexivity. Qed.

Lemma keeps_trans (w1 w2 w3 : World num) :
  keeps_temp_files w1 w2 → keeps_temp_files w2 w3 → keeps_temp_files w1 w3.
Proof. unfold keeps_temp_files. congruence. Qed.

Ltac keeps_prim :=
  intros w; unfold keeps_temp_files;
  repeat match goal with
         | |- context [if ?b then _ else _] => destruct b
         | |- context [match ?x with _ => _ end] => destruct x
         end; reflexivity.

Lemma keeps_st (widget : Widget num) : steps_within keeps_temp_files (st widget).
Proof. keeps_prim. Qed.

Lemma keeps_log_error (e : exn) (context : string) :
  steps_within keeps_temp_files (log_error e context).
Proof. keeps_prim. Qed.

Lemma keeps_log_metric (name : string) :
  steps_within keeps_temp_files (log_performance_metric name).
Proof. keeps_prim. Qed.

Lemma keeps_path_exists (path : string) : steps_within keeps_temp_files (path_exists path).
Proof. keeps_prim. Qed.

Lemma keeps_os_unlink (path : string) : steps_within keeps_temp_files (os_unlink path).
Proof. intros w. unfold os_unlink, keeps_temp_files. by destruct (fs w !! path). Qed.

Lemma keeps_get_temp_files : steps_within keeps_temp_files (get_temp_files (num := num)).
Proof. keeps_prim. Qed.

Lemma keeps_call_analyzer (path : string) (job : option string) :
  steps_within keeps_temp_files (call_analyzer path job).
Proof. keeps_prim. Qed.

Lemma keeps_excel_writer_open : steps_within keeps_temp_files excel_writer_open.
Proof. keeps_prim. Qed.

Lemma keeps_excel_writer_close (sheets : list (string * Sheet num)) :
  steps_within keeps_temp_files (excel_writer_close sheets).
Proof. intros w. unfold excel_writer_close, keeps_temp_files. by destruct (io_fails _). Qed.

Lemma keeps_read_back (path : string) : steps_within keeps_temp_files (read_back path).
Proof.
  intros w. unfold read_back, keeps_temp_files.
  destruct (io_fails _); [done|]. by destruct (fs w !! path).
Qed.

Create HintDb keeps.
#[local] Hint Resolve keeps_st keeps_log_error keeps_log_metric keeps_path_exists
  keeps_os_unlink keeps_get_temp_files keeps_call_analyzer keeps_excel_writer_open
  keeps_excel_writer_close keeps_read_back : keeps.

Ltac keeps_step :=
  first
    [ apply (steps_bind keeps_temp_files keeps_trans)
    | apply (steps_try_except keeps_temp_files keeps_trans)
    | apply (steps_ret keeps_temp_files keeps_refl)
    | solve [auto with keeps]
    | match goal with
      | |- ∀ _, steps_within _ _ => intros ?
      | |- steps_within _ (if ?b then _ else _) => destruct b
      | |- steps_within _ (match ?x with _ => _ end) => destruct x
      end ].

Lemma keeps_analysis_loop (job_description : option string) (total : nat)
    (files : list (string * string)) :
  ∀ i all_results,
    steps_within keeps_temp_files (analysis_loop job_description total i files all_results).
Proof.
  induction files as [|[temp_path original_name] rest IH]; intros i all_results; simpl;
    repeat keeps_step.
Qed.

#[local] Hint Resolve keeps_analysis_loop : keeps.

Lemma keeps_show_results (job_description : option string)
    (all_results : list (AnalysisResult num)) :
  steps_within keeps_temp_files (show_results job_description all_results).
Proof. unfold show_results. repeat keeps_step. Qed.

(** When no write fails, every upload gets its temporary file, and each
    new path was free when it was taken. *)
Lemma save_uploads_registers (uploaded_files : list Upload) :
  (∀ k, io_fails (TmpWrite k) = false) →
  ∀ (k : nat) (w : World num),
  ∃ w' entries,
    save_uploads k uploaded_files w = (Ok tt, w')
    ∧ temp_files w' = temp_files w ++ entries
    ∧ map snd entries = map upload_name uploaded_files
    ∧ (∀ path, path ∈ map fst entries → fs w !! path = None ∧ is_Some (fs w' !! path))
    ∧ (∀ path, is_Some (fs w !! path) → is_Some (fs w' !! path)).
Proof.
  intros Hwrites. induction uploaded_files as [|u rest IH]; intros k w.
  - exists w, []. simpl. split; [reflexivity|]. split; [by rewrite app_nil_r|].
    split; [reflexivity|]. split; [by intros path ?%elem_of_nil|done].
  - simpl. unfold mbind, M_bind, named_temporary_file, tmp_write.
    rewrite Hwrites. cbv beta iota zeta.
    set (name := mktemp (dom (fs w)) ("." +:+ last_segment (upload_name u))).
    assert (Hfresh : fs w !! name = None).
    { apply not_elem_of_dom. apply mktemp_fresh. }
    unfold append_temp_file. cbv beta iota.
    match goal with |- context [save_uploads (S k) rest ?w1] =>
      destruct (IH (S k) w1) as (w' & entries & -> & Htf & Hnames & Hnew & Hold)
    end.
    exists w', ((name, upload_name u) :: entries). simpl in *.
    split; [reflexivity|]. split; [by rewrite Htf, <- app_assoc|].
    split; [by rewrite Hnames|]. split.
    + intros path [->|Hin]%elem_of_cons.
      * split; [exact Hfresh|]. apply Hold. rewrite !lookup_insert_eq. eauto.
      * destruct (Hnew path Hin) as [Hnone Hsome]. split; [|exact Hsome].
        rewrite !lookup_insert in Hnone. by destruct (decide (name = path)).
    + intros path Hsome. apply Hold. rewrite !lookup_insert.
      destruct (decide (name = path)); eauto.
Qed.

(** When no write fails, the page registers one temporary file per upload
    and none of them is left on disk, whatever else fails. *)
Lemma temp_files_deleted_when_writes_succeed (uploaded_files : list Upload) (use_job : bool)
    (job_text : string) (w : World num) :
  (∀ k, io_fails (TmpWrite k) = false) → uploaded_files ≠ [] →
  map snd (temp_files (snd (batch_page uploaded_files use_job job_text true w)))
  = map upload_name uploaded_files
  ∧ ∀ path,
      path ∈ map fst (temp_files (snd (batch_page uploaded_files use_job job_text true w))) →
      fs (snd (batch_page uploaded_files use_job job_text true w)) !! path = None.
Proof.
  intros Hwrites Hne.
  split; [|by apply registered_temp_files_removed].
  rewrite batch_page_started by done. unfold try_finally.
  destruct (save_uploads_registers uploaded_files Hwrites 0 (with_temp_files (λ _, []) w))
    as (w1 & entries & Hsave & Htf & Hnames & _).
  simpl in Htf.
  assert (Hbody : temp_files (snd (try_except
              (batch_body uploaded_files (if use_job then Some job_text else None))
              batch_handler (with_temp_files (λ _, []) w))) = entries).
  { unfold try_except, batch_body. unfold mbind at 1, M_bind at 1. rewrite Hsave.
    rewrite <- Htf.
    match goal with |- context [(?m ≫= ?f) w1] =>
      pose proof (steps_bind keeps_temp_files keeps_trans m f) as Hrest
    end.
    match type of Hrest with ?A → ?B → _ =>
      assert (HA : A) by auto with keeps;
      assert (HB : B) by (intros files; repeat keeps_step; apply keeps_show_results)
    end.
    specialize (Hrest HA HB w1). unfold keeps_temp_files in Hrest.
    match goal with |- context [(?m ≫= ?f) w1] => destruct ((m ≫= f) w1) as [[[]|e] w2] end;
      simpl in *; [exact Hrest|].
    pose proof (steps_bind keeps_temp_files keeps_trans _ _
                  (keeps_st (StError ("Fehler bei der Batch-Analyse: " +:+ str e)))
                  (λ _, keeps_log_error e "batch_analysis") w2) as Hh.
    unfold keeps_temp_files in Hh. unfold batch_handler. congruence. }
  destruct (try_except _ _ _) as [r w2]. simpl in Hbody.
  unfold cleanup, mbind, M_bind, get_temp_files.
  destruct (cleanup_loop_removes (temp_files w2) w2) as (w3 & -> & Htf3 & _).
  destruct r; simpl; by rewrite Htf3, Hbody.
Qed.
End HealthyWrites.

(** * Further properties of the batch page *)

Section BatchPageExtras.
Context {num : Type} {PN : PyNumber num} {SV : SortValues num} {JN : JsonNumber num}.
Context {AN : CVAnalyzer num} {TN : TempNamer} {IO : IOFaults}.




(** X4: when saving the workbook and reading it back both work, the export
    ends normally and "batch_analysis.xlsx" is not on disk afterwards,
    whether or not a file of that name was there before. *)
Theorem export_batch_leaves_no_workbook (overview : DataFrame num)
    (all_results : list (AnalysisResult num)) (w : World num) :
  io_fails ExcelClose = false → io_fails ExcelRead = false →
  fst (export_batch overview all_results w) = Ok tt
  ∧ fs (snd (export_batch overview all_results w)) !! excel_path = None
  ∧ (∀ path, path ≠ excel_path →
       fs (snd (export_batch overview all_results w)) !! path = fs w !! path).
Proof.
  intros Hclose Hread.
  destruct (export_batch_removes_workbook overview all_results w Hclose Hread) as [Hok Hgone].
  split; [exact Hok|]. split; [exact Hgone|].
  intros path Hne. unfold export_batch, mbind, M_bind. simpl.
  unfold excel_writer_close. rewrite Hclose. simpl.
  unfold read_back. rewrite Hread. simpl.
  rewrite lookup_insert_eq. simpl.
  unfold path_exists. simpl. rewrite lookup_insert_eq.
  rewrite bool_decide_eq_true_2 by eauto.
  unfold os_unlink. simpl. rewrite lookup_insert_eq. simpl.
  rewrite lookup_delete_ne by done. by rewrite !lookup_insert_ne.
Qed.
End BatchPageExtras.


(** The export of one example result on a healthy disk. *)
Lemma export_batch_leaves_no_workbook_example :
  no_faults ExcelClose = false ∧ no_faults ExcelRead = false
  ∧ fs (snd (export_batch (IO := no_faults) (overview_df [candidate_c]) [candidate_c]
                          empty_world)) !! excel_path = None.
Proof.
  split; [reflexivity|]. split; [reflexivity|].
  exact (proj1 (proj2 (export_batch_leaves_no_workbook (IO := no_faults)
           (overview_df [candidate_c]) [candidate_c] empty_world eq_refl eq_refl))).
Defined.

(** ** The calls and the progress of the analysis loop *)

Section AnalysisLoopTrace.
Context {num : Type} {AN : CVAnalyzer num}.

Lemma omap_progress_of_progress (name : string) (step total : nat) (l : list (Widget num)) :
  omap progress_of (StProgress name step total :: l) = (name, step, total) :: omap progress_of l.
Proof. reflexivity. Qed.

Lemma omap_progress_of_error (msg : string) (l : list (Widget num)) :
  omap progress_of (StError msg :: l) = omap progress_of l.
Proof. reflexivity. Qed.

(** X5: the loop calls the Analyzer exactly once per temporary file, in the
    order of the files, with the job description when it is a non-empty
    text and with the path alone otherwise; and it reports the progress
    [i + 1], [i + 2], ... of [total], one report per file, whether the
    analysis of the file fails or not. *)
Theorem analysis_loop_calls_and_progress (job_description : option string) (total : nat)
    (files : list (string * string)) (i : nat) (all_results : list (AnalysisResult num))
    (w : World num) :
  ∃ widgets,
    analyzer_calls (snd (analysis_loop job_description total i files all_results w))
    = analyzer_calls w
      ++ map (λ entry, (fst entry, if job_given job_description then job_description else None))
             files
    ∧ screen (snd (analysis_loop job_description total i files all_results w))
      = screen w ++ widgets
    ∧ omap progress_of widgets
      = imap (λ j entry, (snd entry, i + j + 1, total)) files.
Proof.
  revert i all_results w.
  induction files as [|[temp_path original_name] rest IH]; intros i all_results w.
  - exists []. simpl. by rewrite !app_nil_r.
  - simpl. unfold mbind, M_bind, try_except, st at 1. simpl.
    destruct (job_given job_description) eqn:Hjob;
      unfold call_analyzer; simpl;
      (destruct (analyze_cv_file (fs w) temp_path _) as [result|e] eqn:Hcall; simpl;
       match goal with
       | |- context [analysis_loop _ _ _ _ ?acc ?w1] =>
           destruct (IH (S i) acc w1) as (widgets & Hcalls & Hscreen & Hprogress)
       end;
       rewrite Hcalls, Hscreen; simpl;
       rewrite <- ?app_assoc; simpl;
       eexists; (split; [reflexivity|]); (split; [reflexivity|]);
       rewrite omap_progress_of_progress, ?omap_progress_of_error, Hprogress;
       simpl; rewrite Nat.add_0_r; f_equal;
       apply imap_ext; intros j entry _; simpl; repeat f_equal; lia).
Qed.
End AnalysisLoopTrace.

(** ** The names of the sheets *)

Section SheetNames.
Context {num : Type}.

Lemma string_last_char (s1 s2 : string) (a b : ascii) :
  s1 +:+ String a "" = s2 +:+ String b "" → a = b.
Proof.
  revert s2. induction s1 as [|c s1 IH]; intros [|d s2] Heq; simpl in Heq.
  - by injection Heq.
  - injection Heq as _ Heq. destruct s2; discriminate.
  - injection Heq as _ Heq. destruct s1; discriminate.
  - injection Heq as _ Heq. by apply IH in Heq.
Qed.

Lemma skills_sheet_name_inj (i j : nat) : skills_sheet_name i = skills_sheet_name j → i = j.
Proof.
  unfold skills_sheet_name. intros Heq.
  apply String.app_inj, string_app_inv_tail, pretty_nat_inj in Heq. lia.
Qed.

Lemma experience_sheet_name_inj (i j : nat) :
  experience_sheet_name i = experience_sheet_name j → i = j.
Proof.
  unfold experience_sheet_name. intros Heq.
  apply String.app_inj, string_app_inv_tail, pretty_nat_inj in Heq. lia.
Qed.

Lemma skills_is_no_experience_sheet (i j : nat) : skills_sheet_name i ≠ experience_sheet_name j.
Proof.
  unfold skills_sheet_name, experience_sheet_name. intros Heq.
  apply String.app_inj in Heq.
  change "_Skills" with ("_Skill" +:+ "s") in Heq.
  change "_Erfahrung" with ("_Erfahrun" +:+ "g") in Heq.
  rewrite <- !string_app_assoc in Heq. apply string_last_char in Heq. discriminate.
Qed.

Lemma overview_is_no_candidate_sheet (i : nat) :
  overview_sheet_name ≠ skills_sheet_name i ∧ overview_sheet_name ≠ experience_sheet_name i.
Proof. split; intros Heq; by injection Heq. Qed.

Lemma candidates_loop_names_NoDup (i : nat) (all_results : list (AnalysisResult num)) :
  NoDup (map fst (candidates_loop i all_results)).
Proof.
  revert i. induction all_results as [|r rs IH]; intros i; simpl; [constructor|].
  rewrite map_app, candidate_sheets_names. apply NoDup_app. split; [|split].
  - unfold candidate_sheet_names.
    destruct (has_skills r), (has_experience r); simpl; repeat constructor;
      rewrite ?elem_of_cons, ?elem_of_nil; try tauto.
    intros [Heq|[]]. by apply skills_is_no_experience_sheet in Heq.
  - intros name Hhere Hlater.
    apply elem_of_candidate_sheet_names in Hhere.
    apply elem_of_candidates_loop_names in Hlater as (j & result & _ & Hlater).
    destruct Hhere as [[_ ->]|[_ ->]], Hlater as [[_ Heq]|[_ Heq]].
    + apply skills_sheet_name_inj in Heq. lia.
    + by apply skills_is_no_experience_sheet in Heq.
    + symmetry in Heq. by apply skills_is_no_experience_sheet in Heq.
    + apply experience_sheet_name_inj in Heq. lia.
  - apply IH.
Qed.

(** X6: no two sheets of the workbook have the same name, whatever the
    results are: xlsxwriter is never asked for a second sheet of a name. *)
Theorem excel_sheet_names_distinct (overview : DataFrame num)
    (all_results : list (AnalysisResult num)) :
  NoDup (map fst (excel_sheets overview all_results)).
Proof.
  unfold excel_sheets. simpl. constructor; [|apply candidates_loop_names_NoDup].
  intros (j & result & _ & [[_ Heq]|[_ Heq]])%elem_of_candidates_loop_names;
    revert Heq; apply overview_is_no_candidate_sheet.
Qed.
End SheetNames.

(** ** The JSON text is plain ASCII *)

Section JsonAscii.
Context {num : Type} {JN : JsonNumber num}.

Lemma string_forallb_app (p : ascii → bool) (s t : string) :
  string_forallb p (s +:+ t) = string_forallb p s && string_forallb p t.
Proof. induction s as [|c s IH]; simpl; [done|]. by rewrite IH, andb_assoc. Qed.

Lemma string_forallb_impl (p q : ascii → bool) (s : string) :
  (∀ c, p c = true → q c = true) → string_forallb p s = true → string_forallb q s = true.
Proof.
  intros Hpq. induction s as [|c s IH]; simpl; [done|].
  intros [Hc Hs]%andb_true_iff. by rewrite (Hpq c Hc), IH.
Qed.

Lemma escape_char_plain (c : ascii) : string_forallb is_plain_ascii (escape_char c) = true.
Proof. revert c. apply ascii_forall. vm_compute. reflexivity. Qed.

Lemma number_char_plain (c : ascii) : is_number_char c = true → is_plain_ascii c = true.
Proof.
  intros Hc.
  assert (Hall : implb (is_number_char c) (is_plain_ascii c) = true).
  { revert c Hc. intros c _. revert c. apply ascii_forall. vm_compute. reflexivity. }
  by rewrite Hc in Hall.
Qed.

Lemma escape_string_plain (s : string) : string_forallb is_plain_ascii (escape_string s) = true.
Proof.
  induction s as [|c s IH]; simpl; [done|].
  by rewrite string_forallb_app, escape_char_plain, IH.
Qed.

Lemma encode_string_plain (s : string) : string_forallb is_plain_ascii (encode_string s) = true.
Proof.
  unfold encode_string. simpl. by rewrite string_forallb_app, escape_string_plain.
Qed.

Lemma spaces_plain (n : nat) : string_forallb is_plain_ascii (spaces n) = true.
Proof. induction n as [|n IH]; simpl; [done|]. exact IH. Qed.

Lemma newline_indent_plain (level : nat) :
  string_forallb is_plain_ascii (newline_indent level) = true.
Proof. unfold newline_indent. simpl. apply spaces_plain. Qed.

Lemma join_items_plain (level : nat) (chunks : list string) :
  Forall (λ chunk, string_forallb is_plain_ascii chunk = true) chunks →
  string_forallb is_plain_ascii (join_items level chunks) = true.
Proof.
  induction 1 as [|chunk rest Hchunk Hrest IH]; [done|].
  destruct rest as [|chunk' rest]; [done|].
  change (join_items level (chunk :: chunk' :: rest))
    with (chunk +:+ "," +:+ newline_indent level +:+ join_items level (chunk' :: rest)).
  rewrite !string_forallb_app, Hchunk, newline_indent_plain, IH. done.
Qed.

Lemma iterencode_plain (v : json num) :
  ∀ level, string_forallb is_plain_ascii (iterencode level v) = true.
Proof.
  induction v as [| b | n | s | l IH | d IH] using json_nested_ind; intros level.
  - done.
  - by destruct b.
  - simpl. eapply string_forallb_impl; [apply number_char_plain|apply num_repr_chars].
  - apply encode_string_plain.
  - destruct l as [|x l]; [done|].
    change (iterencode level (JList (x :: l)))
      with ("[" +:+ newline_indent (S level)
            +:+ join_items (S level) (map (iterencode (S level)) (x :: l))
            +:+ newline_indent level +:+ "]").
    rewrite !string_forallb_app, !newline_indent_plain, join_items_plain; [done|].
    apply Forall_fmap. eapply Forall_impl; [exact IH|]. intros y Hy. apply Hy.
  - destruct d as [|kv d]; [done|].
    change (iterencode level (JDict (kv :: d)))
      with ("{" +:+ newline_indent (S level)
            +:+ join_items (S level)
                  (map (λ kv, encode_string (fst kv) +:+ ": " +:+ iterencode (S level) (snd kv))
                       (kv :: d))
            +:+ newline_indent level +:+ "}").
    rewrite !string_forallb_app, !newline_indent_plain, join_items_plain; [done|].
    apply Forall_fmap. eapply Forall_impl; [exact IH|]. intros y Hy. unfold compose. cbv beta in *.
    by rewrite !string_forallb_app, encode_string_plain, Hy.
Qed.

End JsonAscii.

(** ** The suffix of a temporary file *)

Lemma last_segment_from_no_dot (s acc : string) :
  string_forallb no_dot acc = true →
  string_forallb no_dot (last_segment_from acc s) = true.
Proof.
  revert acc. induction s as [|c s IH]; intros acc Hacc; simpl; [done|].
  destruct (Ascii.eqb c ".") eqn:Hc; [by apply IH|].
  apply IH. rewrite string_forallb_app, Hacc. simpl. unfold no_dot. by rewrite Hc.
Qed.

Lemma last_segment_from_suffix (s acc : string) :
  ∃ before,
    acc +:+ s = before +:+ last_segment_from acc s
    ∧ (before = "" ∨ ∃ stem, before = stem +:+ ".").
Proof.
  revert acc. induction s as [|c s IH]; intros acc; simpl.
  - exists "". split; [by rewrite string_app_nil_r|by left].
  - destruct (Ascii.eqb c ".") eqn:Hc.
    + apply Ascii.eqb_eq in Hc as ->.
      destruct (IH "") as (before & Heq & Hbefore). simpl in Heq.
      exists (acc +:+ "." +:+ before). split.
      * rewrite !string_app_assoc, <- Heq. done.
      * right. destruct Hbefore as [->|[stem ->]].
        -- exists acc. by rewrite string_app_nil_r.
        -- exists (acc +:+ "." +:+ stem). by rewrite !string_app_assoc.
    + destruct (IH (acc +:+ String c "")) as (before & Heq & Hbefore).
      exists before. split; [|done]. rewrite <- Heq. by rewrite string_app_assoc.
Qed.

(** X8: [name.split('.')[-1]], the suffix of a temporary file: it holds no
    dot, the name ends with it, what stands before it in the name is
    nothing or ends with a dot, and it is the whole name when the name has
    no dot. *)
Theorem last_segment_is_extension (name : string) :
  string_forallb no_dot (last_segment name) = true
  ∧ (∃ before, name = before +:+ last_segment name
               ∧ (before = "" ∨ ∃ stem, before = stem +:+ "."))
  ∧ (string_forallb no_dot name = true → last_segment name = name).
Proof.
  split; [by apply last_segment_from_no_dot|]. split.
  - apply (last_segment_from_suffix name "").
  - intros Hname. destruct (last_segment_from_suffix name "") as (before & Heq & Hbefore).
    change ("" +:+ name) with name in Heq.
    destruct Hbefore as [->|[stem ->]]; [by symmetry|].
    rewrite Heq, !string_forallb_app in Hname. simpl in Hname.
    by rewrite andb_false_r in Hname.
Qed.

(** ** The download links *)

Lemma string_ind3 (P : string → Prop) :
  P "" → (∀ a, P (String a "")) → (∀ a b, P (String a (String b ""))) →
  (∀ a b c rest, P rest → P (String a (String b (String c rest)))) →
  ∀ s, P s.
Proof.
  intros H0 H1 H2 H3. fix IH 1. intros [|a [|b [|c rest]]].
  - exact H0.
  - apply H1.
  - apply H2.
  - apply H3, IH.
Qed.

Lemma b64_index_char (i : nat) : (i < 64)%nat → b64_index (b64_char i) = Some i.
Proof.
  intros Hi.
  assert (Hall : forallb (λ i, bool_decide (b64_index (b64_char i) = Some i)) (seq 0 64) = true)
    by (vm_compute; reflexivity).
  rewrite forallb_forall in Hall.
  apply (bool_decide_unpack _), Is_true_true, Hall, in_seq. lia.
Qed.

Lemma b64_char_no_filling (i : nat) : (i < 64)%nat → Ascii.eqb (b64_char i) "=" = false.
Proof.
  intros Hi.
  assert (Hall : forallb (λ i, negb (Ascii.eqb (b64_char i) "=")) (seq 0 64) = true)
    by (vm_compute; reflexivity).
  rewrite forallb_forall in Hall.
  apply negb_true_iff, Hall, in_seq. lia.
Qed.

Lemma b64_char_is_b64_char (i : nat) : (i < 64)%nat → is_b64_char (b64_char i) = true.
Proof.
  intros Hi. unfold is_b64_char. rewrite b64_index_char by done.
  by rewrite bool_decide_eq_true_2 by eauto.
Qed.

(** The six-bit groups of three bytes, and the bytes back from them. *)
Lemma sextets (x y z : nat) :
  (x < 256 → y < 256 → z < 256 →
   x / 4 < 64 ∧ x mod 4 * 16 + y / 16 < 64 ∧ y mod 16 * 4 + z / 64 < 64 ∧ z mod 64 < 64
   ∧ x / 4 * 4 + (x mod 4 * 16 + y / 16) / 16 = x
   ∧ (x mod 4 * 16 + y / 16) mod 16 * 16 + (y mod 16 * 4 + z / 64) / 4 = y
   ∧ (y mod 16 * 4 + z / 64) mod 4 * 64 + z mod 64 = z)%nat.
Proof.
  intros Hx Hy Hz.
  pose proof (Nat.div_mod_eq x 4). pose proof (Nat.mod_upper_bound x 4).
  pose proof (Nat.div_mod_eq y 16). pose proof (Nat.mod_upper_bound y 16).
  pose proof (Nat.div_mod_eq z 64). pose proof (Nat.mod_upper_bound z 64).
  assert (y / 16 < 16)%nat by (apply Nat.Div0.div_lt_upper_bound; lia).
  assert (z / 64 < 4)%nat by (apply Nat.Div0.div_lt_upper_bound; lia).
  assert (x / 4 < 64)%nat by (apply Nat.Div0.div_lt_upper_bound; lia).
  rewrite (Nat.div_add_l (x mod 4) 16 (y / 16)) by lia.
  rewrite (Nat.div_small (y / 16) 16) by lia.
  rewrite (Nat.add_comm (x mod 4 * 16) (y / 16)), (Nat.Div0.mod_add (y / 16) (x mod 4) 16).
  rewrite (Nat.mod_small (y / 16) 16) by lia.
  rewrite (Nat.div_add_l (y mod 16) 4 (z / 64)) by lia.
  rewrite (Nat.div_small (z / 64) 4) by lia.
  rewrite (Nat.add_comm (y mod 16 * 4) (z / 64)), (Nat.Div0.mod_add (z / 64) (y mod 16) 4).
  rewrite (Nat.mod_small (z / 64) 4) by lia.
  lia.
Qed.

Lemma sextets_of_bytes (a b c : ascii) :
  let x := nat_of_ascii a in
  let y := nat_of_ascii b in
  let z := nat_of_ascii c in
  (x / 4 < 64 ∧ x mod 4 * 16 + y / 16 < 64 ∧ y mod 16 * 4 + z / 64 < 64 ∧ z mod 64 < 64)%nat
  ∧ ascii_of_nat (x / 4 * 4 + (x mod 4 * 16 + y / 16) / 16) = a
  ∧ ascii_of_nat ((x mod 4 * 16 + y / 16) mod 16 * 16 + (y mod 16 * 4 + z / 64) / 4) = b
  ∧ ascii_of_nat ((y mod 16 * 4 + z / 64) mod 4 * 64 + z mod 64) = c.
Proof.
  intros x y z.
  destruct (sextets x y z (nat_ascii_bounded a) (nat_ascii_bounded b) (nat_ascii_bounded c))
    as (H1 & H2 & H3 & H4 & -> & -> & ->).
  unfold x, y, z. by rewrite !ascii_nat_embedding.
Qed.

Lemma zero_byte : nat_of_ascii "000" = 0%nat.
Proof. reflexivity. Qed.

Lemma b64decode_encode (data : string) : b64decode (b64encode data) = Some data.
Proof.
  induction data as [| a | a b | a b c rest IH] using string_ind3.
  - reflexivity.
  - destruct (sextets_of_bytes a "000" "000") as ((H1 & H2 & _ & _) & Ha & _ & _).
    rewrite zero_byte in *. change (0 / 16)%nat with 0%nat in *. rewrite Nat.add_0_r in *.
    change (b64encode (String a ""))
      with (String (b64_char (nat_of_ascii a / 4))
              (String (b64_char (nat_of_ascii a mod 4 * 16)) "==")).
    cbn [b64decode]. rewrite !b64_index_char by done. cbn [mbind option_bind].
    rewrite !Ascii.eqb_refl. by rewrite Ha.
  - destruct (sextets_of_bytes a b "000") as ((H1 & H2 & H3 & _) & Ha & Hb & _).
    rewrite zero_byte in *. change (0 / 64)%nat with 0%nat in *. rewrite Nat.add_0_r in *.
    change (b64encode (String a (String b "")))
      with (String (b64_char (nat_of_ascii a / 4))
              (String (b64_char (nat_of_ascii a mod 4 * 16 + nat_of_ascii b / 16))
                 (String (b64_char (nat_of_ascii b mod 16 * 4)) "="))).
    cbn [b64decode]. rewrite !b64_index_char by done. cbn [mbind option_bind].
    rewrite Ascii.eqb_refl, b64_char_no_filling by done. by rewrite Ha, Hb.
  - destruct (sextets_of_bytes a b c) as ((H1 & H2 & H3 & H4) & Ha & Hb & Hc).
    cbv zeta in *.
    change (b64encode (String a (String b (String c rest))))
      with (String (b64_char (nat_of_ascii a / 4))
              (String (b64_char (nat_of_ascii a mod 4 * 16 + nat_of_ascii b / 16))
                 (String (b64_char (nat_of_ascii b mod 16 * 4 + nat_of_ascii c / 64))
                    (String (b64_char (nat_of_ascii c mod 64)) (b64encode rest))))).
    cbn [b64decode]. rewrite !b64_index_char by done. cbn [mbind option_bind].
    rewrite b64_char_no_filling by done. rewrite IH. cbn [mbind option_bind].
    by rewrite Ha, Hb, Hc.
Qed.

Lemma b64encode_length_chars (data : string) :
  String.length (b64encode data) = (4 * ((String.length data + 2) / 3))%nat
  ∧ string_forallb is_b64_char (b64encode data) = true.
Proof.
  induction data as [| a | a b | a b c rest [IHlen IHchars]] using string_ind3.
  - done.
  - destruct (sextets_of_bytes a "000" "000") as ((H1 & H2 & _ & _) & _).
    rewrite zero_byte in *. change (0 / 16)%nat with 0%nat in *. rewrite Nat.add_0_r in *.
    split; [reflexivity|].
    change (b64encode (String a ""))
      with (String (b64_char (nat_of_ascii a / 4))
              (String (b64_char (nat_of_ascii a mod 4 * 16)) "==")).
    cbn [string_forallb]. by rewrite !b64_char_is_b64_char by done.
  - destruct (sextets_of_bytes a b "000") as ((H1 & H2 & H3 & _) & _).
    rewrite zero_byte in *. change (0 / 64)%nat with 0%nat in *. rewrite Nat.add_0_r in *.
    split; [reflexivity|].
    change (b64encode (String a (String b "")))
      with (String (b64_char (nat_of_ascii a / 4))
              (String (b64_char (nat_of_ascii a mod 4 * 16 + nat_of_ascii b / 16))
                 (String (b64_char (nat_of_ascii b mod 16 * 4)) "="))).
    cbn [string_forallb]. by rewrite !b64_char_is_b64_char by done.
  - destruct (sextets_of_bytes a b c) as ((H1 & H2 & H3 & H4) & _).
    cbv zeta in *.
    change (b64encode (String a (String b (String c rest))))
      with (String (b64_char (nat_of_ascii a / 4))
              (String (b64_char (nat_of_ascii a mod 4 * 16 + nat_of_ascii b / 16))
                 (String (b64_char (nat_of_ascii b mod 16 * 4 + nat_of_ascii c / 64))
                    (String (b64_char (nat_of_ascii c mod 64)) (b64encode rest))))).
    split.
    + cbn [String.length]. rewrite IHlen.
      replace (S (S (S (String.length rest))) + 2)%nat
        with (1 * 3 + (String.length rest + 2))%nat by lia.
      rewrite Nat.div_add_l by lia. lia.
    + cbn [string_forallb]. by rewrite !b64_char_is_b64_char, IHchars by done.
Qed.

Lemma strip_prefix_app (p s : string) : strip_prefix p (p +:+ s) = Some s.
Proof.
  induction p as [|c p IH]; [by destruct s|].
  change (String c p +:+ s) with (String c (p +:+ s)).
  cbn [strip_prefix]. by rewrite Ascii.eqb_refl.
Qed.

Lemma until_quote_app (s rest : string) :
  string_forallb (λ c, negb (Ascii.eqb c dquote)) s = true →
  until_quote (s +:+ quote +:+ rest) = Some s.
Proof.
  induction s as [|c s IH]; intros Hs.
  - reflexivity.
  - change (String c s +:+ quote +:+ rest) with (String c (s +:+ quote +:+ rest)).
    cbn [string_forallb] in Hs. apply andb_true_iff in Hs as [Hc Hs].
    cbn [until_quote]. apply negb_true_iff in Hc. rewrite Hc, IH by done. reflexivity.
Qed.

Lemma b64_char_no_quote (c : ascii) : is_b64_char c = true → negb (Ascii.eqb c dquote) = true.
Proof.
  intros Hc.
  assert (Hall : implb (is_b64_char c) (negb (Ascii.eqb c dquote)) = true).
  { clear Hc. revert c. apply ascii_forall. vm_compute. reflexivity. }
  by rewrite Hc in Hall.
Qed.

Lemma utf8_encode_ascii (s : string) : string_forallb is_ascii s = true → utf8_encode s = s.
Proof.
  induction s as [|c s IH]; [done|].
  cbn [string_forallb utf8_encode]. intros [Hc Hs]%andb_true_iff.
  unfold utf8_char. unfold is_ascii in Hc. rewrite Hc, IH by done. reflexivity.
Qed.

Lemma plain_ascii_is_ascii (c : ascii) : is_plain_ascii c = true → is_ascii c = true.
Proof.
  intros Hc.
  assert (Hall : implb (is_plain_ascii c) (is_ascii c) = true).
  { clear Hc. revert c. apply ascii_forall. vm_compute. reflexivity. }
  by rewrite Hc in Hall.
Qed.

Lemma get_download_link_href (data : LinkData) (filename text : string) :
  ∃ url,
    href_of_link (get_download_link data filename text) = Some url
    ∧ data_of_url url = Some (link_bytes data).
Proof.
  exists ("data:file/txt;base64," +:+ b64encode (link_bytes data)). split.
  - unfold href_of_link, get_download_link. cbv zeta.
    rewrite <- (string_app_assoc "<a href=" quote), strip_prefix_app.
    cbn [mbind option_bind].
    rewrite <- (string_app_assoc "data:file/txt;base64," (b64encode (link_bytes data))).
    apply until_quote_app. rewrite string_forallb_app. apply andb_true_iff. split; [done|].
    eapply string_forallb_impl; [apply b64_char_no_quote|apply b64encode_length_chars].
  - unfold data_of_url. rewrite strip_prefix_app. cbn [mbind option_bind].
    apply b64decode_encode.
Qed.

(** X9: base64 loses nothing and stays in its alphabet: decoding the text
    [b64encode] gives for some bytes gives these bytes back, the text of
    [n] bytes has [4 * ceil(n / 3)] characters, and each of them is of the
    base64 alphabet or the filling character. *)
Theorem b64encode_round_trip (data : string) :
  b64decode (b64encode data) = Some data
  ∧ String.length (b64encode data) = (4 * ((String.length data + 2) / 3))%nat
  ∧ string_forallb is_b64_char (b64encode data) = true.
Proof. split; [apply b64decode_encode|apply b64encode_length_chars]. Qed.

(** X10: the [href] of a download link, read up to its closing quote, is a
    base64 data URL that decodes to the bytes of the data, the UTF-8 bytes
    of a text, whatever the file name and the link text are. *)
Theorem get_download_link_carries_data (data : LinkData) (filename text : string) :
  ∃ url,
    href_of_link (get_download_link data filename text) = Some url
    ∧ data_of_url url = Some (link_bytes data).
Proof. apply get_download_link_href. Qed.

Section JsonLink.
Context {num : Type} {JN : JsonNumber num}.

End JsonLink.


(** * The "CV Analyse" and "Job Matching" pages *)

Section PageFacts.
Context {num : Type} {PN : PyNumber num} {JN : JsonNumber num}.
Context {AN : CVAnalyzer num} {AT : CVAnalyzerTools num} {PT : PageTools num}.
Context {TN : TempNamer} {IO : IOFaults}.

(** ** Runs of the building blocks *)

Lemma progress_loop_run (steps : list nat) (p : Page num) :
  progress_loop steps p
  = (Ok tt, mkPage (world p) (shown p ++ map (λ i, EProgress (i + 1)) steps)).
Proof.
  revert p. induction steps as [|i rest IH]; intros p; simpl.
  - rewrite app_nil_r. by destruct p.
  - unfold mbind, Pg_bind, el at 1. rewrite IH. simpl. by rewrite <- app_assoc.
Qed.

Lemma temp_name_fresh (p : Page num) (file : Upload) : fs (world p) !! temp_name p file = None.
Proof. apply not_elem_of_dom, mktemp_fresh. Qed.

Lemma save_upload_run (k : nat) (file : Upload) (p : Page num) :
  save_upload k file p
  = if io_fails (TmpWrite k)
    then (Raise (Exception "No space left on device"),
          mkPage (with_fs (insert (temp_name p file) (Bytes "")) (world p)) (shown p))
    else (Ok (temp_name p file),
          mkPage (with_fs (insert (temp_name p file) (Bytes (upload_data file))) (world p))
                 (shown p)).
Proof.
  unfold save_upload, mbind, Pg_bind, lift, named_temporary_file, tmp_write, temp_name. simpl.
  destruct (io_fails (TmpWrite k)); simpl; [reflexivity|].
  unfold with_fs. simpl. by rewrite insert_insert_eq.
Qed.

Lemma unlink_if_exists_run (path : string) (p : Page num) :
  unlink_if_exists path p
  = match fs (world p) !! path with
    | Some _ =>
        (Ok tt, mkPage (mkWorld (delete path (fs (world p))) (screen (world p))
                                (error_log (world p)) (metrics (world p))
                                (unlink_log (world p) ++ [path])
                                (analyzer_calls (world p)) (temp_files (world p)))
                       (shown p))
    | None => (Ok tt, p)
    end.
Proof.
  unfold unlink_if_exists, mbind, Pg_bind, lift, path_exists, os_unlink. simpl.
  destruct (fs (world p) !! path) as [file|] eqn:Hpath; simpl.
  - by rewrite Hpath.
  - by destruct p.
Qed.

(** ** Steps that only show something *)

Lemma only_shows_refl (p : Page num) : only_shows p p.
Proof. split; [done|]. exists []. by rewrite app_nil_r. Qed.

Lemma only_shows_trans (p1 p2 p3 : Page num) :
  only_shows p1 p2 → only_shows p2 p3 → only_shows p1 p3.
Proof.
  intros [Hw1 (new1 & Hs1 & Hn1)] [Hw2 (new2 & Hs2 & Hn2)].
  split; [congruence|]. exists (new1 ++ new2).
  split; [by rewrite Hs2, Hs1, app_assoc|by apply Forall_app].
Qed.

Lemma shows_ret {A} (a : A) : pg_steps_within only_shows (mret a : Pg num A).
Proof. intros p. apply only_shows_refl. Qed.

Lemma shows_call {A} (result : outcome A) : pg_steps_within only_shows (call (num := num) result).
Proof. intros p. apply only_shows_refl. Qed.

Lemma shows_el (element : Element num) :
  no_error element → pg_steps_within only_shows (el element).
Proof. intros Hel p. split; [done|]. exists [element]. split; [done|]. by constructor. Qed.

Lemma shows_bind {A B} (m : Pg num A) (f : A → Pg num B) :
  pg_steps_within only_shows m → (∀ a, pg_steps_within only_shows (f a)) →
  pg_steps_within only_shows (m ≫= f).
Proof.
  intros Hm Hf p. unfold mbind, Pg_bind. specialize (Hm p).
  destruct (m p) as [[a|e] p1]; simpl in *; [|done].
  eapply only_shows_trans; [exact Hm|apply Hf].
Qed.

Lemma shows_progress_loop (steps : list nat) : pg_steps_within only_shows (progress_loop (num := num) steps).
Proof.
  intros p. rewrite progress_loop_run. split; [done|]. eexists. split; [reflexivity|].
  apply Forall_fmap, Forall_forall. by intros i _.
Qed.

Lemma shows_recommendations_loop (recommendations : list string) (i : nat) :
  pg_steps_within only_shows (recommendations_loop (num := num) i recommendations).
Proof.
  revert i. induction recommendations as [|rec rest IH]; intros i; simpl.
  - apply shows_ret.
  - apply shows_bind; [by apply shows_el|]. intros _. apply IH.
Qed.

Create HintDb shows.
#[local] Hint Resolve shows_ret shows_call shows_progress_loop shows_recommendations_loop : shows.

Ltac shows_step :=
  repeat first
    [ apply shows_bind; [|intros ?]
    | apply shows_el; exact I
    | match goal with
      | |- pg_steps_within _ (if ?b then _ else _) => destruct b
      end
    | solve [auto with shows] ].

Lemma shows_show_experience (results : AnalysisResult num) :
  pg_steps_within only_shows (show_experience results).
Proof. unfold show_experience. shows_step. Qed.

Lemma shows_cv_report (results : AnalysisResult num) :
  pg_steps_within only_shows (cv_report results).
Proof. unfold cv_report. pose proof (shows_show_experience results). shows_step. Qed.

Lemma shows_job_report (results : AnalysisResult num) :
  pg_steps_within only_shows (job_report results).
Proof. unfold job_report. shows_step. Qed.

Lemma shows_export_links (results : AnalysisResult num) (stem : string) :
  pg_steps_within only_shows (export_links results stem).
Proof. unfold export_links. shows_step. Qed.

(** ** The analysis and the handler *)

Lemma cv_analysis_run (tmp_path : string) (p : Page num) :
  cv_analysis tmp_path p
  = let w := mkWorld (fs (world p)) (screen (world p)) (error_log (world p))
                     (metrics (world p)) (unlink_log (world p))
                     (analyzer_calls (world p) ++ [(tmp_path, None)]) (temp_files (world p)) in
    let progress := shown p ++ [EProgress 0; ESpinner "Analysiere Lebenslauf..."]
                            ++ map (λ i, EProgress (i + 1)) (seq 0 100) in
    match analyze_cv_file (fs (world p)) tmp_path None with
    | Ok results =>
        (Ok results,
         mkPage (mkWorld (fs w) (screen w) (error_log w) (metrics w ++ ["analysis_duration"])
                         (unlink_log w) (analyzer_calls w) (temp_files w))
                progress)
    | Raise e => (Raise e, mkPage w progress)
    end.
Proof.
  unfold cv_analysis, mbind, Pg_bind, el at 1 2. rewrite progress_loop_run.
  unfold lift, call_analyzer, log_performance_metric.
  cbn [world shown fst snd fs screen error_log metrics unlink_log analyzer_calls temp_files].
  rewrite <- !app_assoc.
  by destruct (analyze_cv_file (fs (world p)) tmp_path None).
Qed.

Lemma job_analysis_run (cv_path job_description : string) (p : Page num) :
  job_analysis cv_path job_description p
  = let w := mkWorld (fs (world p)) (screen (world p)) (error_log (world p))
                     (metrics (world p)) (unlink_log (world p))
                     (analyzer_calls (world p) ++ [(cv_path, Some job_description)])
                     (temp_files (world p)) in
    let progress := shown p ++ [EProgress 0; ESpinner ("F" +:+ String uuml "hre Matching durch...")]
                            ++ map (λ i, EProgress (i + 1)) (seq 0 100) in
    match analyze_cv_file (fs (world p)) cv_path (Some job_description) with
    | Ok results =>
        (Ok results,
         mkPage (mkWorld (fs w) (screen w) (error_log w) (metrics w ++ ["match_duration"])
                         (unlink_log w) (analyzer_calls w) (temp_files w))
                progress)
    | Raise e => (Raise e, mkPage w progress)
    end.
Proof.
  unfold job_analysis, mbind, Pg_bind, el at 1 2. rewrite progress_loop_run.
  unfold lift, call_analyzer, log_performance_metric.
  cbn [world shown fst snd fs screen error_log metrics unlink_log analyzer_calls temp_files].
  rewrite <- !app_assoc.
  by destruct (analyze_cv_file (fs (world p)) cv_path (Some job_description)).
Qed.

(** A block that only shows something, under a handler that reports: the
    block ends and nothing but the screen changed, or it raises and the
    error is the last element shown and the last entry of the log. *)
Lemma guarded_show (show : Pg num unit) (intro context : string) (p : Page num) :
  pg_steps_within only_shows show →
  ∃ new, Forall no_error new
    ∧ shown (snd (show p)) = shown p ++ new
    ∧ match fst (show p) with
      | Ok _ =>
          p_try_except show
            (λ e, el (EError (intro +:+ str e));; lift (log_error e context)) p
          = (Ok tt, mkPage (world p) (shown p ++ new))
      | Raise e =>
          p_try_except show
            (λ e, el (EError (intro +:+ str e));; lift (log_error e context)) p
          = (Ok tt, reported intro context e new p)
      end.
Proof.
  intros Hshow. destruct (Hshow p) as [Hworld (new & Hshown & Hnew)].
  exists new. split; [exact Hnew|]. split; [exact Hshown|].
  unfold p_try_except, mbind, Pg_bind, reported.
  destruct (show p) as [[[]|e] p1]; simpl in *.
  - destruct p1 as [w1 s1]. simpl in *. by subst.
  - unfold el, lift, log_error. simpl. rewrite Hworld, Hshown. by rewrite <- app_assoc.
Qed.

Lemma export_links_run (results : AnalysisResult num) (stem : string) (p : Page num) :
  export_links results stem p
  = match export_results results "csv" with
    | Raise e =>
        (Raise e, mkPage (world p)
                    (shown p ++ [ESubheader "Ergebnisse exportieren"]
                             ++ take 1 (three_links results stem (LStr "") (LStr ""))))
    | Ok csv_data =>
        match export_results results "excel" with
        | Raise e =>
            (Raise e, mkPage (world p)
                        (shown p ++ [ESubheader "Ergebnisse exportieren"]
                                 ++ take 2 (three_links results stem csv_data (LStr ""))))
        | Ok excel_data =>
            (Ok tt, mkPage (world p)
                      (shown p ++ [ESubheader "Ergebnisse exportieren"]
                               ++ three_links results stem csv_data excel_data))
        end
    end.
Proof.
  unfold export_links, mbind, Pg_bind, el, call, three_links. simpl.
  destruct (export_results results "csv") as [csv_data|e]; simpl;
    [destruct (export_results results "excel") as [excel_data|e]; simpl|];
    by rewrite <- !app_assoc.
Qed.

Lemma p_try_except_bind {A} (m : Pg num A) (f : A → Pg num unit) (handler : exn → Pg num unit)
    (p : Page num) :
  p_try_except (m ≫= f) handler p
  = match m p with
    | (Ok a, p') => p_try_except (f a) handler p'
    | (Raise e, p') => handler e p'
    end.
Proof. unfold p_try_except, mbind, Pg_bind. by destruct (m p) as [[a|e] p']. Qed.

(** The report and the links of a page under its handler: the three links
    are the last elements and nothing is logged, or an error is the last
    element and the last entry of the log. *)
Lemma report_and_links (report : Pg num unit) (results : AnalysisResult num)
    (stem intro context : string) (p : Page num) :
  pg_steps_within only_shows report →
  ∃ before, Forall no_error before
    ∧ ((∃ csv_data excel_data,
          export_results results "csv" = Ok csv_data
          ∧ export_results results "excel" = Ok excel_data
          ∧ p_try_except (report;; export_links results stem)
              (λ e, el (EError (intro +:+ str e));; lift (log_error e context)) p
            = (Ok tt, mkPage (world p)
                        (shown p ++ before ++ three_links results stem csv_data excel_data)))
       ∨ (∃ e,
            p_try_except (report;; export_links results stem)
              (λ e, el (EError (intro +:+ str e));; lift (log_error e context)) p
            = (Ok tt, reported intro context e before p))).
Proof.
  intros Hreport. destruct (Hreport p) as [Hworld (new & Hshown & Hnew)].
  rewrite p_try_except_bind. destruct (report p) as [[[]|e] p1]; simpl in *.
  - unfold p_try_except. rewrite export_links_run, Hworld, Hshown.
    destruct (export_results results "csv") as [csv_data|e];
      [destruct (export_results results "excel") as [excel_data|e]|].
    + exists (new ++ [ESubheader "Ergebnisse exportieren"]). split.
      { apply Forall_app. split; [done|]. by repeat constructor. }
      left. exists csv_data, excel_data. split; [done|]. split; [done|].
      by rewrite <- !app_assoc.
    + exists (new ++ [ESubheader "Ergebnisse exportieren"]
                  ++ take 2 (three_links results stem csv_data (LStr ""))). split.
      { apply Forall_app. split; [done|]. by repeat constructor. }
      right. exists e. unfold reported, el, lift, log_error, mbind, Pg_bind. simpl.
      by rewrite <- !app_assoc.
    + exists (new ++ [ESubheader "Ergebnisse exportieren"]
                  ++ take 1 (three_links results stem (LStr "") (LStr ""))). split.
      { apply Forall_app. split; [done|]. by repeat constructor. }
      right. exists e. unfold reported, el, lift, log_error, mbind, Pg_bind. simpl.
      by rewrite <- !app_assoc.
  - exists new. split; [done|]. right. exists e.
    unfold reported, el, lift, log_error, mbind, Pg_bind. simpl.
    by rewrite Hworld, Hshown, <- !app_assoc.
Qed.

Lemma temp_name_ext (p q : Page num) (file : Upload) :
  fs (world p) = fs (world q) → temp_name p file = temp_name q file.
Proof. unfold temp_name. by intros ->. Qed.

(** ** The [try] blocks *)

(** The [try] block of a page under its handler, from the analysis on. *)
Lemma page_try_run (analysis : Pg num (AnalysisResult num))
    (report : AnalysisResult num → Pg num unit) (stem intro context spinner metric : string)
    (path : string) (job : option string) (p : Page num) :
  (∀ results, pg_steps_within only_shows (report results)) →
  analysis p
  = match analyze_cv_file (fs (world p)) path job with
    | Ok results =>
        (Ok results, mkPage (measured metric (called path job (world p)))
                            (shown p ++ progress_shown spinner))
    | Raise e =>
        (Raise e, mkPage (called path job (world p)) (shown p ++ progress_shown spinner))
    end →
  ∃ before, Forall no_error before
    ∧ match analyze_cv_file (fs (world p)) path job with
      | Ok results =>
          (∃ csv_data excel_data,
             export_results results "csv" = Ok csv_data
             ∧ export_results results "excel" = Ok excel_data
             ∧ p_try_except (results ← analysis; report results;; export_links results stem)
                 (λ e, el (EError (intro +:+ str e));; lift (log_error e context)) p
               = (Ok tt, mkPage (measured metric (called path job (world p)))
                           (shown p ++ before ++ three_links results stem csv_data excel_data)))
          ∨ (∃ e,
               p_try_except (results ← analysis; report results;; export_links results stem)
                 (λ e, el (EError (intro +:+ str e));; lift (log_error e context)) p
               = (Ok tt, reported intro context e before
                           (mkPage (measured metric (called path job (world p))) (shown p))))
      | Raise e =>
          before = progress_shown spinner
          ∧ p_try_except (results ← analysis; report results;; export_links results stem)
              (λ e, el (EError (intro +:+ str e));; lift (log_error e context)) p
            = (Ok tt, reported intro context e before
                        (mkPage (called path job (world p)) (shown p)))
      end.
Proof.
  intros Hreport Hanalysis. rewrite p_try_except_bind, Hanalysis.
  destruct (analyze_cv_file (fs (world p)) path job) as [results|e].
  - destruct (report_and_links (report results) results stem intro context
                (mkPage (measured metric (called path job (world p)))
                        (shown p ++ progress_shown spinner)) (Hreport results))
      as (before & Hbefore & Hrun).
    exists (progress_shown spinner ++ before). split.
    { apply Forall_app. split; [|done]. unfold progress_shown. apply Forall_app.
      split; [by repeat constructor|]. apply Forall_fmap, Forall_forall. by intros i _. }
    destruct Hrun as [(csv_data & excel_data & Hcsv & Hexcel & ->)|(e & ->)].
    + left. exists csv_data, excel_data. split; [done|]. split; [done|].
      cbn [world shown]. by rewrite <- !app_assoc.
    + right. exists e. unfold reported. cbn [world shown]. by rewrite <- !app_assoc.
  - exists (progress_shown spinner). split.
    { unfold progress_shown. apply Forall_app.
      split; [by repeat constructor|]. apply Forall_fmap, Forall_forall. by intros i _. }
    split; [done|].
    unfold reported, el, lift, log_error, mbind, Pg_bind. cbn [world shown fst snd].
    by rewrite <- !app_assoc.
Qed.

Lemma cv_try_run (tmp_path : string) (p : Page num) :
  ∃ before, Forall no_error before
    ∧ match analyze_cv_file (fs (world p)) tmp_path None with
      | Ok results =>
          (∃ csv_data excel_data,
             export_results results "csv" = Ok csv_data
             ∧ export_results results "excel" = Ok excel_data
             ∧ p_try_except (cv_body tmp_path) cv_handler p
               = (Ok tt, mkPage (measured "analysis_duration" (called tmp_path None (world p)))
                           (shown p ++ before
                            ++ three_links results "cv_analysis" csv_data excel_data)))
          ∨ (∃ e,
               p_try_except (cv_body tmp_path) cv_handler p
               = (Ok tt, reported "Fehler bei der Analyse: " "cv_analysis" e before
                           (mkPage (measured "analysis_duration"
                                      (called tmp_path None (world p))) (shown p))))
      | Raise e =>
          before = progress_shown "Analysiere Lebenslauf..."
          ∧ p_try_except (cv_body tmp_path) cv_handler p
            = (Ok tt, reported "Fehler bei der Analyse: " "cv_analysis" e before
                        (mkPage (called tmp_path None (world p)) (shown p)))
      end.
Proof.
  apply (page_try_run (cv_analysis tmp_path) cv_report "cv_analysis"
           "Fehler bei der Analyse: " "cv_analysis" "Analysiere Lebenslauf..."
           "analysis_duration" tmp_path None p shows_cv_report).
  rewrite cv_analysis_run. by destruct (analyze_cv_file (fs (world p)) tmp_path None).
Qed.

Lemma job_try_run (cv_path job_description : string) (p : Page num) :
  ∃ before, Forall no_error before
    ∧ match analyze_cv_file (fs (world p)) cv_path (Some job_description) with
      | Ok results =>
          (∃ csv_data excel_data,
             export_results results "csv" = Ok csv_data
             ∧ export_results results "excel" = Ok excel_data
             ∧ p_try_except (job_body cv_path job_description) job_handler p
               = (Ok tt, mkPage (measured "match_duration"
                                   (called cv_path (Some job_description) (world p)))
                           (shown p ++ before
                            ++ three_links results "job_match" csv_data excel_data)))
          ∨ (∃ e,
               p_try_except (job_body cv_path job_description) job_handler p
               = (Ok tt, reported "Fehler beim Matching: " "job_matching" e before
                           (mkPage (measured "match_duration"
                                      (called cv_path (Some job_description) (world p)))
                                   (shown p))))
      | Raise e =>
          before = progress_shown ("F" +:+ String uuml "hre Matching durch...")
          ∧ p_try_except (job_body cv_path job_description) job_handler p
            = (Ok tt, reported "Fehler beim Matching: " "job_matching" e before
                        (mkPage (called cv_path (Some job_description) (world p)) (shown p)))
      end.
Proof.
  apply (page_try_run (job_analysis cv_path job_description) job_report "job_match"
           "Fehler beim Matching: " "job_matching"
           ("F" +:+ String uuml "hre Matching durch...")
           "match_duration" cv_path (Some job_description) p shows_job_report).
  rewrite job_analysis_run.
  by destruct (analyze_cv_file (fs (world p)) cv_path (Some job_description)).
Qed.

Lemma cv_try_world (tmp_path : string) (p : Page num) :
  ∃ p', p_try_except (cv_body tmp_path) cv_handler p = (Ok tt, p')
        ∧ fs (world p') = fs (world p)
        ∧ unlink_log (world p') = unlink_log (world p)
        ∧ analyzer_calls (world p') = analyzer_calls (world p) ++ [(tmp_path, None)].
Proof.
  destruct (cv_try_run tmp_path p) as (before & _ & Hrun).
  destruct (analyze_cv_file (fs (world p)) tmp_path None) as [results|e];
    [destruct Hrun as [(csv_data & excel_data & _ & _ & ->)|(e & ->)]|destruct Hrun as [_ ->]];
    eexists; (split; [reflexivity|]); done.
Qed.

Lemma job_try_world (cv_path job_description : string) (p : Page num) :
  ∃ p', p_try_except (job_body cv_path job_description) job_handler p = (Ok tt, p')
        ∧ fs (world p') = fs (world p)
        ∧ unlink_log (world p') = unlink_log (world p)
        ∧ analyzer_calls (world p')
          = analyzer_calls (world p) ++ [(cv_path, Some job_description)].
Proof.
  destruct (job_try_run cv_path job_description p) as (before & _ & Hrun).
  destruct (analyze_cv_file (fs (world p)) cv_path (Some job_description)) as [results|e];
    [destruct Hrun as [(csv_data & excel_data & _ & _ & ->)|(e & ->)]|destruct Hrun as [_ ->]];
    eexists; (split; [reflexivity|]); done.
Qed.

(** The [finally] block of a page whose [try] block ended with the
    temporary file on disk. *)
Lemma try_finally_unlink (body : Pg num unit) (path : string) (p p' : Page num)
    (file : File num) :
  body p = (Ok tt, p') → fs (world p') !! path = Some file →
  p_try_finally body (unlink_if_exists path) p
  = (Ok tt, mkPage (mkWorld (delete path (fs (world p'))) (screen (world p'))
                            (error_log (world p')) (metrics (world p'))
                            (unlink_log (world p') ++ [path])
                            (analyzer_calls (world p')) (temp_files (world p')))
                   (shown p')).
Proof.
  intros Hbody Hfile. unfold p_try_finally. rewrite Hbody, unlink_if_exists_run, Hfile.
  reflexivity.
Qed.

(** The page once the upload is saved. *)
Lemma cv_page_saved (file : Upload) (p : Page num) :
  io_fails (TmpWrite 0) = false →
  cv_page (Some file) p
  = p_try_finally (p_try_except (cv_body (temp_name p file)) cv_handler)
      (unlink_if_exists (temp_name p file))
      (mkPage (with_fs (insert (temp_name p file) (Bytes (upload_data file))) (world p))
              (shown p ++ [EHeader "Lebenslauf analysieren"])).
Proof.
  intros Hwrite. unfold cv_page, mbind, Pg_bind. unfold el at 1. cbv beta iota.
  rewrite save_upload_run, Hwrite. reflexivity.
Qed.

(** X12: once the upload is saved, the "CV Analyse" page ends normally
    whatever fails in its [try] block, the Analyzer, pandas, plotly or an
    export: the files on disk are those from before the page ran, the
    temporary file was unlinked once, and the Analyzer was called once,
    with the path of the temporary file and no job description. *)
Theorem cv_page_cleans_up (file : Upload) (p : Page num) :
  io_fails (TmpWrite 0) = false →
  fst (cv_page (Some file) p) = Ok tt
  ∧ fs (world (snd (cv_page (Some file) p))) = fs (world p)
  ∧ unlink_log (world (snd (cv_page (Some file) p)))
    = unlink_log (world p) ++ [temp_name p file]
  ∧ analyzer_calls (world (snd (cv_page (Some file) p)))
    = analyzer_calls (world p) ++ [(temp_name p file, None)].
Proof.
  intros Hwrite. rewrite (cv_page_saved file p Hwrite).
  set (p1 := mkPage (with_fs (insert (temp_name p file) (Bytes (upload_data file))) (world p))
                    (shown p ++ [EHeader "Lebenslauf analysieren"])).
  destruct (cv_try_world (temp_name p file) p1) as (p' & Hrun & Hfs & Hunlink & Hcalls).
  assert (Hfile : fs (world p') !! temp_name p file = Some (Bytes (upload_data file)))
    by (rewrite Hfs; apply lookup_insert_eq).
  rewrite (try_finally_unlink _ _ p1 p' _ Hrun Hfile).
  cbn [fst snd world fs unlink_log analyzer_calls]. rewrite Hfs, Hunlink, Hcalls.
  split; [reflexivity|]. split; [|split; reflexivity].
  apply delete_insert_id, temp_name_fresh.
Qed.

(** X13: when the bytes of the upload cannot be written, the "CV Analyse"
    page raises: the upload is saved before the [try] block, so nothing
    reports the error, nothing is analysed or logged, and the empty
    temporary file, which was not there before, stays on disk. *)
Theorem cv_page_write_failure (file : Upload) (p : Page num) :
  io_fails (TmpWrite 0) = true →
  fst (cv_page (Some file) p) = Raise (Exception "No space left on device")
  ∧ fs (world p) !! temp_name p file = None
  ∧ fs (world (snd (cv_page (Some file) p))) = <[temp_name p file := Bytes ""]> (fs (world p))
  ∧ shown (snd (cv_page (Some file) p)) = shown p ++ [EHeader "Lebenslauf analysieren"]
  ∧ analyzer_calls (world (snd (cv_page (Some file) p))) = analyzer_calls (world p)
  ∧ error_log (world (snd (cv_page (Some file) p))) = error_log (world p)
  ∧ unlink_log (world (snd (cv_page (Some file) p))) = unlink_log (world p).
Proof.
  intros Hwrite.
  assert (Hrun : cv_page (Some file) p
                 = (Raise (Exception "No space left on device"),
                    mkPage (with_fs (insert (temp_name p file) (Bytes "")) (world p))
                           (shown p ++ [EHeader "Lebenslauf analysieren"]))).
  { unfold cv_page, mbind, Pg_bind. unfold el at 1. cbv beta iota.
    rewrite save_upload_run, Hwrite. reflexivity. }
  rewrite Hrun. cbn [fst snd world shown with_fs fs analyzer_calls error_log unlink_log].
  split; [reflexivity|]. split; [apply temp_name_fresh|]. repeat split.
Qed.

(** X14: when the Analyzer raises on the saved upload, the "CV Analyse"
    page shows the progress up to 100 and then the error, as its last
    element; the error is logged with the context "cv_analysis", and no
    duration is logged. *)
Theorem cv_page_analysis_error (file : Upload) (p : Page num) (e : exn) :
  io_fails (TmpWrite 0) = false →
  analyze_cv_file (<[temp_name p file := Bytes (upload_data file)]> (fs (world p)))
                  (temp_name p file) None = Raise e →
  shown (snd (cv_page (Some file) p))
  = shown p ++ [EHeader "Lebenslauf analysieren"; EProgress 0;
                ESpinner "Analysiere Lebenslauf..."]
            ++ map (λ i, EProgress (i + 1)) (seq 0 100)
            ++ [EError ("Fehler bei der Analyse: " +:+ str e)]
  ∧ error_log (world (snd (cv_page (Some file) p)))
    = error_log (world p) ++ [(str e, "cv_analysis")]
  ∧ metrics (world (snd (cv_page (Some file) p))) = metrics (world p).
Proof.
  intros Hwrite Hraise. rewrite (cv_page_saved file p Hwrite).
  set (p1 := mkPage (with_fs (insert (temp_name p file) (Bytes (upload_data file))) (world p))
                    (shown p ++ [EHeader "Lebenslauf analysieren"])).
  destruct (cv_try_run (temp_name p file) p1) as (before & _ & Hrun).
  change (fs (world p1))
    with (<[temp_name p file := Bytes (upload_data file)]> (fs (world p))) in Hrun.
  rewrite Hraise in Hrun. destruct Hrun as [-> Hrun].
  rewrite (try_finally_unlink _ _ p1 _ (Bytes (upload_data file)) Hrun (lookup_insert_eq _ _ _)).
  cbn [fst snd world shown reported error_log metrics called with_fs p1].
  unfold progress_shown. rewrite <- !app_assoc. split; [reflexivity|]. split; reflexivity.
Qed.

(** X15: once the upload is saved, the "CV Analyse" page shows an error
    exactly when it logs one.  Either the analysis and both exports
    worked: then no error is shown or logged, the duration is logged, and
    the last three elements are the links to the JSON text of the result
    and to the two exports.  Or something raised: then the error message is
    the last element shown, the only error shown, and the last entry of the
    log, with the context "cv_analysis". *)
Theorem cv_page_links_or_error (file : Upload) (p : Page num) :
  io_fails (TmpWrite 0) = false →
  ∃ before, Forall no_error before
    ∧ ((∃ results csv_data excel_data,
          analyze_cv_file (<[temp_name p file := Bytes (upload_data file)]> (fs (world p)))
                          (temp_name p file) None = Ok results
          ∧ export_results results "csv" = Ok csv_data
          ∧ export_results results "excel" = Ok excel_data
          ∧ shown (snd (cv_page (Some file) p))
            = shown p ++ before ++ three_links results "cv_analysis" csv_data excel_data
          ∧ error_log (world (snd (cv_page (Some file) p))) = error_log (world p)
          ∧ metrics (world (snd (cv_page (Some file) p)))
            = metrics (world p) ++ ["analysis_duration"])
       ∨ (∃ e,
            shown (snd (cv_page (Some file) p))
            = shown p ++ before ++ [EError ("Fehler bei der Analyse: " +:+ str e)]
            ∧ error_log (world (snd (cv_page (Some file) p)))
              = error_log (world p) ++ [(str e, "cv_analysis")])).
Proof.
  intros Hwrite. rewrite (cv_page_saved file p Hwrite).
  set (p1 := mkPage (with_fs (insert (temp_name p file) (Bytes (upload_data file))) (world p))
                    (shown p ++ [EHeader "Lebenslauf analysieren"])).
  destruct (cv_try_run (temp_name p file) p1) as (before & Hbefore & Hrun).
  change (fs (world p1))
    with (<[temp_name p file := Bytes (upload_data file)]> (fs (world p))) in Hrun.
  exists (EHeader "Lebenslauf analysieren" :: before).
  split; [constructor; [exact I|exact Hbefore]|].
  destruct (analyze_cv_file _ (temp_name p file) None) as [results|e];
    [destruct Hrun as [(csv_data & excel_data & Hcsv & Hexcel & Hrun)|(e & Hrun)]
    |destruct Hrun as [_ Hrun]];
    rewrite (try_finally_unlink _ _ p1 _ (Bytes (upload_data file)) Hrun
               (lookup_insert_eq _ _ _));
    cbn [fst snd world shown reported error_log metrics called measured with_fs p1].
  - left. exists results, csv_data, excel_data.
    split; [reflexivity|]. split; [exact Hcsv|]. split; [exact Hexcel|].
    rewrite <- !app_assoc. split; [reflexivity|]. split; reflexivity.
  - right. exists e. rewrite <- !app_assoc. split; reflexivity.
  - right. exists e. rewrite <- !app_assoc. split; reflexivity.
Qed.
(** ** The "Job Matching" page *)

Lemma read_job_file_run (text_area : string) (file : Upload) (p : Page num) :
  io_fails (TmpWrite 0) = false →
  read_job_file text_area file p
  = let w := mkWorld (delete (temp_name p file)
                        (<[temp_name p file := Bytes (upload_data file)]> (fs (world p))))
                     (screen (world p)) (error_log (world p)) (metrics (world p))
                     (unlink_log (world p) ++ [temp_name p file])
                     (analyzer_calls (world p)) (temp_files (world p)) in
    match extract_text (<[temp_name p file := Bytes (upload_data file)]> (fs (world p)))
                       (temp_name p file) with
    | Ok text =>
        (Ok text, mkPage w (shown p ++ [ESuccess "Stellenbeschreibung erfolgreich geladen!"]))
    | Raise e =>
        (Ok text_area,
         mkPage (mkWorld (fs w) (screen w)
                         (error_log w ++ [(str e, "job_description_reading")])
                         (metrics w) (unlink_log w) (analyzer_calls w) (temp_files w))
                (shown p ++ [EError ("Fehler beim Lesen der Stellenbeschreibung: " +:+ str e)]))
    end.
Proof.
  intros Hwrite. unfold read_job_file, mbind, Pg_bind. rewrite save_upload_run, Hwrite.
  unfold p_try_except, mbind, Pg_bind, mret, Pg_ret, lift, el, log_error. simpl.
  destruct (extract_text _ (temp_name p file)) as [text|e]; simpl;
    rewrite unlink_if_exists_run; simpl; rewrite lookup_insert_eq; reflexivity.
Qed.

(** X16: a job description that cannot be read from the uploaded file does
    not stop the "Job Matching" page: once the file is saved, reading it
    ends normally with the text of the file or, when the Analyzer raises,
    with the text of the text area, the error being shown and logged with
    the context "job_description_reading"; the temporary file is unlinked
    on both ways, and the files on disk are those from before. *)
Theorem read_job_file_tolerates_errors (text_area : string) (file : Upload) (p : Page num) :
  io_fails (TmpWrite 0) = false →
  fst (read_job_file text_area file p) = Ok (job_description_of p text_area (Some file))
  ∧ fs (world (snd (read_job_file text_area file p))) = fs (world p)
  ∧ unlink_log (world (snd (read_job_file text_area file p)))
    = unlink_log (world p) ++ [temp_name p file]
  ∧ match extract_text (<[temp_name p file := Bytes (upload_data file)]> (fs (world p)))
                       (temp_name p file) with
    | Ok _ =>
        shown (snd (read_job_file text_area file p))
        = shown p ++ [ESuccess "Stellenbeschreibung erfolgreich geladen!"]
        ∧ error_log (world (snd (read_job_file text_area file p))) = error_log (world p)
    | Raise e =>
        shown (snd (read_job_file text_area file p))
        = shown p ++ [EError ("Fehler beim Lesen der Stellenbeschreibung: " +:+ str e)]
        ∧ error_log (world (snd (read_job_file text_area file p)))
          = error_log (world p) ++ [(str e, "job_description_reading")]
    end.
Proof.
  intros Hwrite. rewrite (read_job_file_run text_area file p Hwrite).
  unfold job_description_of. cbv zeta.
  destruct (extract_text _ (temp_name p file)) as [text|e];
    cbn [fst snd world shown fs unlink_log error_log];
    (split; [reflexivity|]);
    (split; [apply delete_insert_id, temp_name_fresh|]);
    (split; [reflexivity|]); split; reflexivity.
Qed.

(** The job description the page goes on with. *)
Lemma job_description_read (text_area : string) (job_file : option Upload) (p : Page num) :
  io_fails (TmpWrite 0) = false →
  ∃ p', match job_file with
        | Some file => read_job_file text_area file
        | None => mret text_area
        end p
        = (Ok (job_description_of p text_area job_file), p')
        ∧ fs (world p') = fs (world p)
        ∧ analyzer_calls (world p') = analyzer_calls (world p).
Proof.
  intros Hwrite. destruct job_file as [file|]; [|by exists p].
  rewrite (read_job_file_run text_area file p Hwrite). unfold job_description_of. cbv zeta.
  destruct (extract_text _ (temp_name p file)) as [text|e];
    eexists; (split; [reflexivity|]); cbn [world fs analyzer_calls];
    (split; [apply delete_insert_id, temp_name_fresh|reflexivity]).
Qed.

(** The match, from the button on. *)
Lemma job_match_run (file : Upload) (job_description : string) (p : Page num) :
  io_fails (TmpWrite 1) = false →
  ∃ p', (cv_path ← save_upload 1 file;
         p_try_finally (p_try_except (job_body cv_path job_description) job_handler)
                       (unlink_if_exists cv_path)) p
        = (Ok tt, p')
        ∧ fs (world p') = fs (world p)
        ∧ analyzer_calls (world p')
          = analyzer_calls (world p) ++ [(temp_name p file, Some job_description)].
Proof.
  intros Hwrite. unfold mbind at 1, Pg_bind at 1. rewrite save_upload_run, Hwrite.
  set (p1 := mkPage (with_fs (insert (temp_name p file) (Bytes (upload_data file))) (world p))
                    (shown p)).
  destruct (job_try_world (temp_name p file) job_description p1)
    as (p2 & Hrun & Hfs & _ & Hcalls).
  assert (Hfile : fs (world p2) !! temp_name p file = Some (Bytes (upload_data file)))
    by (rewrite Hfs; apply lookup_insert_eq).
  rewrite (try_finally_unlink _ _ p1 p2 _ Hrun Hfile).
  eexists. split; [reflexivity|]. cbn [world fs analyzer_calls]. rewrite Hfs, Hcalls.
  split; [apply delete_insert_id, temp_name_fresh|reflexivity].
Qed.

(** X17: once its uploads are saved, the "Job Matching" page ends normally
    and leaves the files on disk as they were, whatever fails; it calls the
    Analyzer at most once, when there is a CV, a job description or a job
    file, and the button is pressed, and then always with a job
    description: the text read from the job file, or the text of the text
    area when there is no job file or it cannot be read, be it empty. *)
Theorem job_page_matches_with_description (cv_file : option Upload) (text_area : string)
    (job_file : option Upload) (button : bool) (p : Page num) :
  io_fails (TmpWrite 0) = false → io_fails (TmpWrite 1) = false →
  fst (job_page cv_file text_area job_file button p) = Ok tt
  ∧ fs (world (snd (job_page cv_file text_area job_file button p))) = fs (world p)
  ∧ analyzer_calls (world (snd (job_page cv_file text_area job_file button p)))
    = analyzer_calls (world p)
      ++ match cv_file with
         | Some file =>
             if can_match cv_file (job_description_of p text_area job_file) job_file && button
             then [(temp_name p file, Some (job_description_of p text_area job_file))]
             else []
         | None => []
         end.
Proof.
  intros Hjob Hcv.
  assert (Hrun : ∃ p', job_page cv_file text_area job_file button p = (Ok tt, p')
            ∧ fs (world p') = fs (world p)
            ∧ analyzer_calls (world p')
              = analyzer_calls (world p)
                ++ match cv_file with
                   | Some file =>
                       if can_match cv_file (job_description_of p text_area job_file) job_file
                          && button
                       then [(temp_name p file,
                              Some (job_description_of p text_area job_file))]
                       else []
                   | None => []
                   end).
  { unfold job_page.
    unfold mbind at 1 2 3 4, Pg_bind at 1 2 3 4. unfold el at 1 2 3. cbv beta iota.
    cbn [world shown].
    set (p0 := mkPage (world p) _).
    destruct (job_description_read text_area job_file p0 Hjob) as (p1 & -> & Hfs & Hcalls).
    change (job_description_of p0 text_area job_file)
      with (job_description_of p text_area job_file).
    change (fs (world p0)) with (fs (world p)) in Hfs.
    change (analyzer_calls (world p0)) with (analyzer_calls (world p)) in Hcalls.
    destruct cv_file as [file|].
    - destruct (can_match (Some file) (job_description_of p text_area job_file) job_file
                && button).
      + destruct (job_match_run file (job_description_of p text_area job_file) p1 Hcv)
          as (p2 & -> & Hfs2 & Hcalls2).
        exists p2. rewrite Hfs2, Hcalls2, Hfs, Hcalls.
        rewrite (temp_name_ext p1 p file Hfs). split; [reflexivity|]. split; reflexivity.
      + exists p1. rewrite Hfs, Hcalls, app_nil_r. split; [reflexivity|]. split; reflexivity.
    - exists p1. rewrite Hfs, Hcalls, app_nil_r. split; [reflexivity|]. split; reflexivity. }
  destruct Hrun as (p' & -> & Hfs & Hcalls). cbn [fst snd].
  split; [reflexivity|]. split; [exact Hfs|exact Hcalls].
Qed.
End PageFacts.

(** ** The two pages on the example host *)

(** The pages on the example host, from the empty page. *)
Definition run_cv_page (faults : IOFaults) (uploaded_file : option Upload)
  : outcome unit * Page Z :=
  cv_page (AN := example_analyzer) (AT := example_tools) (PT := example_page_tools)
          (TN := first_free_TempNamer) (IO := faults) uploaded_file empty_page.

Definition run_job_page (faults : IOFaults) (cv_file : option Upload) (text_area : string)
    (job_file : option Upload) (button : bool) : outcome unit * Page Z :=
  job_page (AN := example_analyzer) (AT := example_tools) (PT := example_page_tools)
           (TN := first_free_TempNamer) (IO := faults) cv_file text_area job_file button
           empty_page.

(** A CV on a healthy disk: the page ends normally and no file is left. *)
Lemma cv_page_cleans_up_example :
  no_faults (TmpWrite 0) = false
  ∧ fst (run_cv_page no_faults (Some upload_cv)) = Ok tt
  ∧ fs (world (snd (run_cv_page no_faults (Some upload_cv)))) = ∅
  ∧ analyzer_calls (world (snd (run_cv_page no_faults (Some upload_cv))))
    = [("/tmp/tmp0.pdf", None)].
Proof.
  split; [reflexivity|].
  pose proof (cv_page_cleans_up (AN := example_analyzer) (AT := example_tools)
                (PT := example_page_tools) (TN := first_free_TempNamer) (IO := no_faults)
                upload_cv empty_page eq_refl) as (Hok & Hfs & _ & Hcalls).
  split; [exact Hok|]. split; [exact Hfs|].
  etransitivity; [exact Hcalls|]. vm_compute. reflexivity.
Defined.

(** A CV whose bytes cannot be written: the page raises and the empty
    temporary file stays. *)
Lemma cv_page_write_failure_example :
  first_write_fails (TmpWrite 0) = true
  ∧ fst (run_cv_page first_write_fails (Some upload_cv))
    = Raise (Exception "No space left on device")
  ∧ map_to_list (fs (world (snd (run_cv_page first_write_fails (Some upload_cv)))))
    = [("/tmp/tmp0.pdf", Bytes "")].
Proof.
  split; [reflexivity|].
  pose proof (cv_page_write_failure (AN := example_analyzer) (AT := example_tools)
                (PT := example_page_tools) (TN := first_free_TempNamer)
                (IO := first_write_fails) upload_cv empty_page eq_refl)
    as (Hraise & _ & Hfs & _).
  split; [exact Hraise|].
  etransitivity; [exact (f_equal map_to_list Hfs)|]. vm_compute. reflexivity.
Defined.

(** A CV that the Analyzer cannot read. *)
Lemma cv_page_analysis_error_example :
  no_faults (TmpWrite 0) = false
  ∧ example_analyzer
      (<[temp_name (TN := first_free_TempNamer) empty_page upload_bad
         := Bytes (upload_data upload_bad)]> (fs (world empty_page)))
      (temp_name (TN := first_free_TempNamer) empty_page upload_bad) None
    = Raise (Exception "cannot extract text")
  ∧ error_log (world (snd (run_cv_page no_faults (Some upload_bad))))
    = [("cannot extract text", "cv_analysis")]
  ∧ metrics (world (snd (run_cv_page no_faults (Some upload_bad)))) = [].
Proof.
  assert (Hraise : example_analyzer
            (<[temp_name (TN := first_free_TempNamer) empty_page upload_bad
               := Bytes (upload_data upload_bad)]> (fs (world empty_page)))
            (temp_name (TN := first_free_TempNamer) empty_page upload_bad) None
          = Raise (Exception "cannot extract text")) by (vm_compute; reflexivity).
  split; [reflexivity|]. split; [exact Hraise|].
  pose proof (cv_page_analysis_error (AN := example_analyzer) (AT := example_tools)
                (PT := example_page_tools) (TN := first_free_TempNamer) (IO := no_faults)
                upload_bad empty_page (Exception "cannot extract text") eq_refl Hraise)
    as (_ & Hlog & Hmetrics).
  split; [exact Hlog|exact Hmetrics].
Defined.

(** A CV on a healthy disk: errors are shown as they are logged. *)
Lemma cv_page_links_or_error_example :
  no_faults (TmpWrite 0) = false
  ∧ ∃ before : list (Element Z), Forall no_error before
      ∧ (length (shown (snd (run_cv_page no_faults (Some upload_cv)))) = length before + 3
         ∨ length (shown (snd (run_cv_page no_faults (Some upload_cv)))) = length before + 1)%nat.
Proof.
  split; [reflexivity|].
  destruct (cv_page_links_or_error (AN := example_analyzer) (AT := example_tools)
              (PT := example_page_tools) (TN := first_free_TempNamer) (IO := no_faults)
              upload_cv empty_page eq_refl)
    as (before & Hbefore & [(results & csv_data & excel_data & _ & _ & _ & Hshown & _)
                           |(e & Hshown & _)]);
    exists before; (split; [exact Hbefore|]).
  - left. change (shown (snd (run_cv_page no_faults (Some upload_cv))))
      with (shown (snd (cv_page (AN := example_analyzer) (AT := example_tools)
                          (PT := example_page_tools) (TN := first_free_TempNamer)
                          (IO := no_faults) (Some upload_cv) empty_page))).
    rewrite Hshown. cbn [shown empty_page app]. rewrite length_app. reflexivity.
  - right. change (shown (snd (run_cv_page no_faults (Some upload_cv))))
      with (shown (snd (cv_page (AN := example_analyzer) (AT := example_tools)
                          (PT := example_page_tools) (TN := first_free_TempNamer)
                          (IO := no_faults) (Some upload_cv) empty_page))).
    rewrite Hshown. cbn [shown empty_page app]. rewrite length_app. reflexivity.
Defined.

(** A job description in a file that cannot be read: the text of the text
    area stays. *)
Lemma read_job_file_tolerates_errors_example :
  no_faults (TmpWrite 0) = false
  ∧ fst (read_job_file (AT := example_tools) (TN := first_free_TempNamer) (IO := no_faults)
           "python developer" upload_bad empty_page)
    = Ok "python developer"
  ∧ fs (world (snd (read_job_file (AT := example_tools) (TN := first_free_TempNamer)
                      (IO := no_faults) "python developer" upload_bad empty_page))) = ∅.
Proof.
  split; [reflexivity|].
  pose proof (read_job_file_tolerates_errors (AT := example_tools)
                (TN := first_free_TempNamer) (IO := no_faults)
                "python developer" upload_bad empty_page eq_refl) as (Hok & Hfs & _).
  split; [|exact Hfs].
  etransitivity; [exact Hok|]. vm_compute. reflexivity.
Defined.

(** A CV, an empty text area and a job file that cannot be read: the
    Analyzer is called with the empty job description. *)
Lemma job_page_matches_with_description_example :
  no_faults (TmpWrite 0) = false ∧ no_faults (TmpWrite 1) = false
  ∧ fst (run_job_page no_faults (Some upload_cv) "" (Some upload_bad) true) = Ok tt
  ∧ analyzer_calls (world (snd (run_job_page no_faults (Some upload_cv) ""
                                             (Some upload_bad) true)))
    = [("/tmp/tmp0.pdf", Some "")].
Proof.
  split; [reflexivity|]. split; [reflexivity|].
  pose proof (job_page_matches_with_description (AN := example_analyzer)
                (AT := example_tools) (PT := example_page_tools)
                (TN := first_free_TempNamer) (IO := no_faults)
                (Some upload_cv) "" (Some upload_bad) true empty_page eq_refl eq_refl)
    as (Hok & _ & Hcalls).
  split; [exact Hok|].
  etransitivity; [exact Hcalls|]. vm_compute. reflexivity.
Defined.

(** ** The duration column of the timeline *)

Section TimelineDuration.
Variable to_datetime : string → option Z.

End TimelineDuration.

